(** * streamlit-pid: the extraction-and-reconciliation pipeline

    A shallow embedding of the button handlers of [app.py] (image flow),
    [views/pdf_field_extractor.py] (PDF flow) and of the connection class of
    [views/oltp_database_connect.py], with the properties of the
    specification stated over them.

    Python values are modelled by the inductive [pyval]; a Python [str] is
    a list of Unicode code points; a Python [dict] is an association list
    in insertion order with unique keys; a handler is a computation in a
    state-and-exception monad over the Streamlit session, the messages
    shown to the user and the calls made to external services, whose
    answers are arbitrary. *)

From Stdlib Require Import Ascii String List NArith ZArith Bool Lia.
From Stdlib Require DecimalPos.
Import ListNotations.

Local Open Scope list_scope.
Local Set Warnings "-register-all".

(* ===================================================================== *)
(** * Python data *)
(* ===================================================================== *)

Module Py.

(** A Python [str]: the sequence of its code points. *)
Definition str := list N.

(** The code point of an ASCII character and the [str] of an ASCII
    literal. *)
Definition ch (a : ascii) : N := N_of_ascii a.

Definition py (s : string) : str := map N_of_ascii (list_ascii_of_string s).

(** The double quote and the line feed, which a literal cannot hold. *)
Definition dq : N := 34%N.
Definition nl : N := 10%N.

Fixpoint str_eqb (a b : str) : bool :=
  match a, b with
  | [], [] => true
  | x :: a', y :: b' => N.eqb x y && str_eqb a' b'
  | _, _ => false
  end.

(** [s.startswith(p)] *)
Fixpoint startswith (s p : str) {struct p} : bool :=
  match p, s with
  | [], _ => true
  | x :: p', y :: s' => N.eqb x y && startswith s' p'
  | _ :: _, [] => false
  end.

(** [s.endswith(p)] *)
Definition endswith (s p : str) : bool := startswith (rev s) (rev p).

(** [s[n:]] and [s[:-n]] for a positive literal [n]. *)
Definition slice_from (n : nat) (s : str) : str := skipn n s.
Definition slice_drop_last (n : nat) (s : str) : str :=
  firstn (length s - n) s.

(** [str.isspace] on one code point: the ASCII table of CPython
    (0x09-0x0D, 0x1C-0x20) and the Unicode white space beyond it. *)
Definition isspace (c : N) : bool :=
  ((9 <=? c) && (c <=? 13) || (28 <=? c) && (c <=? 32)
   || (c =? 133) || (c =? 160) || (c =? 5760)
   || (8192 <=? c) && (c <=? 8202)
   || (c =? 8232) || (c =? 8233) || (c =? 8239) || (c =? 8287)
   || (c =? 12288))%N.

Fixpoint lstrip (s : str) : str :=
  match s with
  | c :: s' => if isspace c then lstrip s' else s
  | [] => []
  end.

Definition rstrip (s : str) : str := rev (lstrip (rev s)).

(** [s.strip()] *)
Definition strip (s : str) : str := rstrip (lstrip s).

(** The characters of a decimal number. *)
Fixpoint uint_chars (d : Decimal.uint) : str :=
  match d with
  | Decimal.Nil => []
  | Decimal.D0 d => 48%N :: uint_chars d
  | Decimal.D1 d => 49%N :: uint_chars d
  | Decimal.D2 d => 50%N :: uint_chars d
  | Decimal.D3 d => 51%N :: uint_chars d
  | Decimal.D4 d => 52%N :: uint_chars d
  | Decimal.D5 d => 53%N :: uint_chars d
  | Decimal.D6 d => 54%N :: uint_chars d
  | Decimal.D7 d => 55%N :: uint_chars d
  | Decimal.D8 d => 56%N :: uint_chars d
  | Decimal.D9 d => 57%N :: uint_chars d
  end.

(** [repr(z)] for an [int]. *)
Definition repr_int (z : Z) : str :=
  match z with
  | Z0 => [48%N]
  | Zpos p => uint_chars (Pos.to_uint p)
  | Zneg p => 45%N :: uint_chars (Pos.to_uint p)
  end.

(** The limit of CPython on the conversion between [int] and [str]:
    at most 4300 digits ([sys.int_info.default_max_str_digits]); beyond
    it [repr] and [int] raise [ValueError]. *)
Definition max_str_digits : N := 4300%N.

Definition int_in_limit (z : Z) : bool :=
  match z with
  | Z0 => true
  | Zpos p | Zneg p =>
      (N.of_nat (length (uint_chars (Pos.to_uint p))) <=? max_str_digits)%N
  end.

(** Exceptions: instances of [Exception].  [json.JSONDecodeError] carries
    its message and the position of the defect; every other exception is
    kept as its class name and text. *)
Inductive exn : Type :=
| JSONDecodeError (msg : string) (pos : nat)
| RecursionError
| IndexError (text : string)
| KeyError (key : str)
| TypeError (text : string)
| OtherError (cls : string) (text : str).

(** The [ValueError] of [int] on a text of more digits than the limit. *)
Definition digit_limit_error (digits : nat) : exn :=
  OtherError "ValueError"
    (py "Exceeds the limit (4300 digits) for integer string conversion: "
     ++ py "value has " ++ repr_int (Z.of_nat digits)
     ++ py " digits; use sys.set_int_max_str_digits() to increase the limit").

(** The result of evaluating an expression: a value or a raised
    exception. *)
Inductive outcome (A : Type) : Type :=
| Returned (a : A)
| Raised (e : exn).

Arguments Returned {A} a.
Arguments Raised {A} e.

(** Python objects as the pipeline meets them: what [json.loads] builds,
    the raw text of a model answer ([PStr]) and [None] ([PNone]).  A
    [float] is kept as the literal that denotes it. *)
Inductive pyval : Type :=
| PNone
| PBool (b : bool)
| PInt (z : Z)
| PFloat (lit : str)
| PStr (s : str)
| PList (items : list pyval)
| PDict (items : list (str * pyval)).

(** [isinstance(v, str)] *)
Definition isinstance_str (v : pyval) : bool :=
  match v with PStr _ => true | _ => false end.

(** ** Dictionaries in insertion order *)

Section Dict.
Context {V : Type}.

Definition dict := list (str * V).

Definition keys (d : dict) : list str := map fst d.

(** [d.get(k)] *)
Fixpoint dict_get (d : dict) (k : str) : option V :=
  match d with
  | [] => None
  | (k', v) :: r => if str_eqb k k' then Some v else dict_get r k
  end.

(** [d[k] = v]: an existing key keeps its place, a new one goes last. *)
Fixpoint dict_set (d : dict) (k : str) (v : V) : dict :=
  match d with
  | [] => [(k, v)]
  | (k', v') :: r =>
      if str_eqb k k' then (k', v) :: r else (k', v') :: dict_set r k v
  end.

(** [del d[k]] for a key known to be present; nothing otherwise. *)
Fixpoint dict_del (d : dict) (k : str) : dict :=
  match d with
  | [] => []
  | (k', v) :: r => if str_eqb k k' then r else (k', v) :: dict_del r k
  end.

(** [dict(pairs)] and the dictionary of a literal [{k1: v1, ...}]. *)
Definition dict_of_pairs (l : list (str * V)) : dict :=
  fold_left (fun d kv => dict_set d (fst kv) (snd kv)) l [].
End Dict.

Arguments dict V : clear implicits.

(** ** Bytes and their base-64 text *)

Definition bytes := list Byte.byte.

(** The base-64 alphabet: the code point of the digit of value [i]. *)
Definition b64_digit (i : N) : N :=
  (if i <? 26 then 65 + i
   else if i <? 52 then 97 + (i - 26)
   else if i <? 62 then 48 + (i - 52)
   else if i =? 62 then 43 else 47)%N.

Definition b64_pad : N := 61%N.

(** [base64.b64encode(b).decode('utf-8')] *)
Fixpoint b64encode (b : bytes) : str :=
  match b with
  | [] => []
  | [x] =>
      let n := Byte.to_N x in
      [b64_digit (n / 4); b64_digit (n mod 4 * 16); b64_pad; b64_pad]%N
  | [x; y] =>
      let n := (Byte.to_N x * 256 + Byte.to_N y)%N in
      [b64_digit (n / 1024); b64_digit (n / 16 mod 64);
       b64_digit (n mod 16 * 4); b64_pad]%N
  | x :: y :: z :: r =>
      let n := (Byte.to_N x * 65536 + Byte.to_N y * 256 + Byte.to_N z)%N in
      [b64_digit (n / 262144); b64_digit (n / 4096 mod 64);
       b64_digit (n / 64 mod 64); b64_digit (n mod 64)]%N ++ b64encode r
  end.

End Py.

Import Py.

(* ===================================================================== *)
(** * [json.loads] *)
(* ===================================================================== *)

(** The decoder of Python's [json] package with its default settings
    (strict strings, no hooks), on a [str].  It is library code that the
    handlers call; it is embedded here so that the handlers can be run on
    concrete texts.  Numbers with a fraction or an exponent become
    [PFloat] of their literal; their rounding to a binary float is not
    modelled.  Two limits of the interpreter are, as CPython 3.11 applies
    them: an integer literal of more than 4300 digits makes [int] raise
    [ValueError]; and every array or object entered takes one of the
    nested calls that the recursion limit still allows, as does the
    building of a [JSONDecodeError], [RecursionError] being raised when
    they are not there. *)

Module Json.

(** What scanning a value at some index gives: the value and the text
    that follows it, [StopIteration], a [JSONDecodeError] (both at the
    index where the given suffix begins), a [RecursionError], or the
    [ValueError] of an integer literal with too many digits. *)
Inductive scan (A : Type) : Type :=
| Scanned (a : A) (rest : str)
| StopIteration (at_ : str)
| Defect (msg : string) (at_ : str)
| Overflow
| DigitLimit (digits : nat).

Arguments Scanned {A} a rest.
Arguments StopIteration {A} at_.
Arguments Defect {A} msg at_.
Arguments Overflow {A}.
Arguments DigitLimit {A} digits.

(** [WHITESPACE_STR = ' \t\n\r'] *)
Definition is_ws (c : N) : bool :=
  ((c =? 32) || (c =? 9) || (c =? 10) || (c =? 13))%N.

(** [WHITESPACE.match(s, idx).end()] *)
Fixpoint skip_ws (s : str) : str :=
  match s with
  | c :: r => if is_ws c then skip_ws r else s
  | [] => []
  end.

Definition is_digit (c : N) : bool := ((48 <=? c) && (c <=? 57))%N.

Definition hex_value (c : N) : option N :=
  (if (48 <=? c) && (c <=? 57) then Some (c - 48)
   else if (97 <=? c) && (c <=? 102) then Some (c - 87)
   else if (65 <=? c) && (c <=? 70) then Some (c - 55)
   else None)%N.

(** Four hexadecimal digits. *)
Definition decode_uXXXX (a b c d : N) : option N :=
  match hex_value a, hex_value b, hex_value c, hex_value d with
  | Some x, Some y, Some z, Some w =>
      Some (((x * 16 + y) * 16 + z) * 16 + w)%N
  | _, _, _, _ => None
  end.

(** [BACKSLASH]: the one-character escapes. *)
Definition backslash (c : N) : option N :=
  (if c =? 34 then Some 34 else if c =? 92 then Some 92
   else if c =? 47 then Some 47 else if c =? 98 then Some 8
   else if c =? 102 then Some 12 else if c =? 110 then Some 10
   else if c =? 114 then Some 13 else if c =? 116 then Some 9
   else None)%N.

Definition is_high_surrogate (u : N) : bool := ((55296 <=? u) && (u <=? 56319))%N.
Definition is_low_surrogate (u : N) : bool := ((56320 <=? u) && (u <=? 57343))%N.

(** [scanstring(s, end, strict=True)], as the accelerated scanner reads
    it: [begin] is the text from the opening quote, [s] the text after
    it, [acc] the characters decoded so far, last first.  A [\u] escape
    is four hexadecimal digits with at least one character after them; a
    high surrogate followed by an escaped low surrogate is joined with
    it. *)
Fixpoint scanstring (begin s : str) (acc : str) : scan str :=
  match s with
  | [] => Defect "Unterminated string starting at" begin
  | c :: r =>
      if (c =? 34)%N then Scanned (rev acc) r
      else if (c =? 92)%N then
        match r with
        | [] => Defect "Unterminated string starting at" begin
        | e :: r1 =>
            if (e =? 117)%N then
              match r1 with
              | h1 :: h2 :: h3 :: h4 :: (_ :: _) as r2 =>
                  match decode_uXXXX h1 h2 h3 h4 with
                  | None => Defect "Invalid \uXXXX escape" r
                  | Some uni =>
                      match r2 with
                      | 92%N :: 117%N :: g1 :: g2 :: g3 :: g4 :: (_ :: _) as r4 =>
                          if is_high_surrogate uni then
                            match decode_uXXXX g1 g2 g3 g4 with
                            | None =>
                                Defect "Invalid \uXXXX escape"
                                  (117%N :: g1 :: g2 :: g3 :: g4 :: r4)
                            | Some uni2 =>
                                if is_low_surrogate uni2 then
                                  scanstring begin r4
                                    ((65536 + ((uni - 55296) * 1024
                                               + (uni2 - 56320)))%N :: acc)
                                else scanstring begin r2 (uni :: acc)
                            end
                          else scanstring begin r2 (uni :: acc)
                      | _ => scanstring begin r2 (uni :: acc)
                      end
                  end
              | _ => Defect "Invalid \uXXXX escape" r
              end
            else
              match backslash e with
              | Some c' => scanstring begin r1 (c' :: acc)
              | None => Defect "Invalid \escape" s
              end
        end
      else if (c <? 32)%N then Defect "Invalid control character at" s
      else scanstring begin r (c :: acc)
  end.

(** The digits at the head of a text, and what follows them. *)
Fixpoint span_digits (s : str) : str * str :=
  match s with
  | c :: r =>
      if is_digit c then let (d, r') := span_digits r in (c :: d, r')
      else ([], s)
  | [] => ([], [])
  end.

(** [int(digits)] for a text of decimal digits. *)
Definition int_of_digits (d : str) : Z :=
  fold_left (fun a c => (10 * a + Z.of_N (c - 48))%Z) d 0%Z.

(** [NUMBER_RE]: an optional minus sign and either a zero or a nonzero
    digit followed by digits; then, optionally, a point and one digit or
    more; then, optionally, an [e] or [E], an optional sign and one digit
    or more.  Gives the integer part, the fraction, the exponent and the
    text after the match. *)
Definition match_integer (s : str) : option (str * str) :=
  let (sign, r) :=
    match s with
    | 45%N :: r => ([45%N], r)
    | _ => ([], s)
    end in
  match r with
  | c :: r' =>
      if (c =? 48)%N then Some (sign ++ [c], r')
      else if is_digit c then
        let (d, r'') := span_digits r' in Some (sign ++ c :: d, r'')
      else None
  | [] => None
  end.

Definition match_frac (s : str) : str * str :=
  match s with
  | 46%N :: r =>
      match span_digits r with
      | ([], _) => ([], s)
      | (d, r') => (46%N :: d, r')
      end
  | _ => ([], s)
  end.

Definition match_exp (s : str) : str * str :=
  match s with
  | e :: r =>
      if ((e =? 101) || (e =? 69))%N then
        let (sign, r1) :=
          match r with
          | c :: r1 =>
              if ((c =? 45) || (c =? 43))%N then ([c], r1) else ([], r)
          | [] => ([], r)
          end in
        match span_digits r1 with
        | ([], _) => ([], s)
        | (d, r') => (e :: sign ++ d, r')
        end
      else ([], s)
  | [] => ([], s)
  end.

Definition match_number (s : str) : option (str * str * str * str) :=
  match match_integer s with
  | None => None
  | Some (integer, r) =>
      let (frac, r1) := match_frac r in
      let (exp, r2) := match_exp r1 in
      Some (integer, frac, exp, r2)
  end.

(** [parse_int]: the integer of a literal of [NUMBER_RE]. *)
Definition parse_int (integer : str) : Z :=
  match integer with
  | 45%N :: d => (- int_of_digits d)%Z
  | d => int_of_digits d
  end.

(** The number of digits of a literal of [NUMBER_RE], its sign apart. *)
Definition count_digits (integer : str) : nat :=
  match integer with
  | 45%N :: d => length d
  | d => length d
  end.

Definition is_empty (s : str) : bool :=
  match s with [] => true | _ => false end.

(** The scalar cases of [_scan_once]: constants and numbers. *)
Definition scan_scalar (s : str) : scan pyval :=
  if startswith s (py "null") then Scanned PNone (skipn 4 s)
  else if startswith s (py "true") then Scanned (PBool true) (skipn 4 s)
  else if startswith s (py "false") then Scanned (PBool false) (skipn 5 s)
  else
    match match_number s with
    | Some (integer, frac, exp, r) =>
        if is_empty frac && is_empty exp
        then
          if (N.of_nat (count_digits integer) <=? max_str_digits)%N
          then Scanned (PInt (parse_int integer)) r
          else DigitLimit (count_digits integer)
        else Scanned (PFloat (integer ++ frac ++ exp)) r
    | None =>
        if startswith s (py "NaN") then Scanned (PFloat (py "NaN")) (skipn 3 s)
        else if startswith s (py "Infinity")
        then Scanned (PFloat (py "Infinity")) (skipn 8 s)
        else if startswith s (py "-Infinity")
        then Scanned (PFloat (py "-Infinity")) (skipn 9 s)
        else StopIteration s
    end.

(** A [JSONDecodeError] raised inside the scanner: building the
    exception takes three nested calls of what is left, and
    [RecursionError] is raised instead when they are not there. *)
Definition defect {A} (room : nat) (msg : string) (at_ : str) : scan A :=
  if room <? 3 then Overflow else Defect msg at_.

(** [_scan_once], [JSONObject] and [JSONArray].  [room] is the number
    of nested calls that the recursion limit of the interpreter still
    allows when the scanner is entered: every array and every object,
    empty ones too, takes one of them for what it holds, and
    [RecursionError] is raised when none is left.  [depth] only serves
    the termination of the definition.  [object_loop] starts after the
    opening quote of a key, [array_loop] at a value.  [StopIteration]
    leaves the scanner as it is. *)
Fixpoint scan_once (room depth : nat) (s : str) {struct depth} : scan pyval :=
  match depth with
  | O => Overflow
  | S depth' =>
      match s with
      | [] => StopIteration s
      | c :: r =>
          if (c =? 34)%N then
            match scanstring s r [] with
            | Scanned t r' => Scanned (PStr t) r'
            | StopIteration a => StopIteration a
            | Defect m a => defect room m a
            | Overflow => Overflow
            | DigitLimit n => DigitLimit n
            end
          else if (c =? 123)%N then
            match room with
            | O => Overflow
            | S room' =>
                match skip_ws r with
                | 125%N :: r2 => Scanned (PDict []) r2
                | (34%N :: r2) as r1 => object_loop room' depth' r1 r2 []
                | r1 =>
                    defect room'
                      "Expecting property name enclosed in double quotes" r1
                end
            end
          else if (c =? 91)%N then
            match room with
            | O => Overflow
            | S room' =>
                match skip_ws r with
                | 93%N :: r2 => Scanned (PList []) r2
                | r1 => array_loop room' depth' r1 []
                end
            end
          else scan_scalar s
      end
  end

with object_loop (room depth : nat) (begin s : str)
                 (pairs : list (str * pyval)) {struct depth} : scan pyval :=
  match depth with
  | O => Overflow
  | S depth' =>
      match scanstring begin s [] with
      | StopIteration a => StopIteration a
      | Defect m a => defect room m a
      | Overflow => Overflow
      | DigitLimit n => DigitLimit n
      | Scanned key r =>
          match skip_ws r with
          | 58%N :: r1 =>
              match scan_once room depth' (skip_ws r1) with
              | StopIteration a => StopIteration a
              | Defect m a => Defect m a
              | Overflow => Overflow
              | DigitLimit n => DigitLimit n
              | Scanned value r2 =>
                  let pairs' := (key, value) :: pairs in
                  match skip_ws r2 with
                  | 125%N :: r3 => Scanned (PDict (dict_of_pairs (rev pairs'))) r3
                  | 44%N :: r3 =>
                      match skip_ws r3 with
                      | (34%N :: r4) as r3' =>
                          object_loop room depth' r3' r4 pairs'
                      | r3' =>
                          defect room
                            "Expecting property name enclosed in double quotes"
                            r3'
                      end
                  | r2' => defect room "Expecting ',' delimiter" r2'
                  end
              end
          | r' => defect room "Expecting ':' delimiter" r'
          end
      end
  end

with array_loop (room depth : nat) (s : str) (values : list pyval)
  {struct depth} : scan pyval :=
  match depth with
  | O => Overflow
  | S depth' =>
      match scan_once room depth' s with
      | StopIteration a => StopIteration a
      | Defect m a => Defect m a
      | Overflow => Overflow
      | DigitLimit n => DigitLimit n
      | Scanned value r =>
          let values' := value :: values in
          match skip_ws r with
          | 93%N :: r1 => Scanned (PList (rev values')) r1
          | 44%N :: r1 => array_loop room depth' (skip_ws r1) values'
          | r' => defect room "Expecting ',' delimiter" r'
          end
      end
  end.

(** [JSONDecoder.decode] after the check of [json.loads] for a byte-order
    mark, the scanner being entered with [room] nested calls left.  A
    defect is reported at the index where the offending suffix begins.
    [StopIteration] becomes "Expecting value" in [raw_decode], which
    takes two nested calls to build the exception; "Extra data" is raised
    one call higher, in [decode].  The [depth] given to the scanner,
    twice the length of the text plus two, is more than it can use. *)
Definition json_loads (room : nat) (s : str) : outcome pyval :=
  let pos (a : str) := length s - length a in
  if startswith s [65279%N]
  then Raised (JSONDecodeError "Unexpected UTF-8 BOM (decode using utf-8-sig)" 0)
  else
    match scan_once room (2 * length s + 2) (skip_ws s) with
    | Scanned obj r =>
        match skip_ws r with
        | [] => Returned obj
        | r' =>
            if room <? 1 then Raised RecursionError
            else Raised (JSONDecodeError "Extra data" (pos r'))
        end
    | StopIteration a =>
        if room <? 2 then Raised RecursionError
        else Raised (JSONDecodeError "Expecting value" (pos a))
    | Defect m a => Raised (JSONDecodeError m (pos a))
    | Overflow => Raised RecursionError
    | DigitLimit n => Raised (digit_limit_error n)
    end.

End Json.

Import Json.

(* ===================================================================== *)
(** * The Streamlit script: session, messages, external services *)
(* ===================================================================== *)

Module Script.

(** The keys of [st.session_state] that the handlers read or write.  The
    two documents are [None] until a file is uploaded; [final_json] starts
    as the empty dictionary. *)
Record session_state : Type := {
  uploaded_image_bytes : option bytes;
  uploaded_pdf_bytes : option bytes;
  prompt_results : dict pyval;
  final_json : pyval
}.

(** What a handler shows to the user.  An exception interpolated in the
    text of a message is kept beside the text that precedes it. *)
Inductive message : Type :=
| st_write (text : str)
| st_success (text : str)
| st_warning (text : str) (e : exn)
| st_error (text : str) (e : exn)
| st_json (v : pyval).

(** The request of [client.chat.completions.create]: one user turn with a
    text part and an [image_url] part. *)
Record chat_request : Type := {
  model : str;
  text : str;
  image_url : str;
  max_tokens : Z;
  temperature : option Z
}.

(** The response: [message.content] of each of its choices. *)
Record chat_response : Type := {
  choices : list (option str)
}.

(** The calls that leave the process. *)
Inductive call : Type :=
| call_get_open_ai_client
| call_chat_completions_create (request : chat_request)
| call_uuid4
| call_generate_database_credential (request_id : str)
    (instance_names : list str)
| call_psycopg_connect (conninfo : str) (kwargs : dict str).

(** The workspace client [w]: what each service answers to the call
    number [n] of the run.  Nothing is assumed of the answers. *)
Record WorkspaceClient : Type := {
  get_open_ai_client : nat -> outcome unit;
  chat_completions_create : nat -> chat_request -> outcome chat_response;
  generate_database_credential : nat -> str -> list str -> outcome str
}.

(** The state a handler runs in: the session, the messages shown so far
    and the external calls made so far, oldest first. *)
Record sys : Type := {
  session : session_state;
  shown : list message;
  calls : list call
}.

(** A statement or expression of a handler: it ends with a value or with
    a raised exception, and in both cases leaves a state. *)
Definition run (A : Type) : Type := sys -> outcome A * sys.

Definition ret {A} (a : A) : run A := fun s => (Returned a, s).

Definition bind {A B} (m : run A) (k : A -> run B) : run B :=
  fun s =>
    match m s with
    | (Returned a, s') => k a s'
    | (Raised e, s') => (Raised e, s')
    end.

Definition lift {A} (o : outcome A) : run A := fun s => (o, s).

(** [try: body except Exception as e: handler]; what the body did before
    it raised stays done. *)
Definition try_except {A} (body : run A) (handler : exn -> run A) : run A :=
  fun s =>
    match body s with
    | (Returned a, s') => (Returned a, s')
    | (Raised e, s') => handler e s'
    end.

Declare Scope run_scope.
Delimit Scope run_scope with run.
Bind Scope run_scope with run.

Notation "x <- c1 ;; c2" := (bind c1 (fun x => c2))
  (at level 61, c1 at next level, right associativity) : run_scope.
Notation "c1 ;; c2" := (bind c1 (fun _ => c2))
  (at level 61, right associativity) : run_scope.

Local Open Scope run_scope.

(** [for x in l: body x] *)
Fixpoint for_each {A} (l : list A) (body : A -> run unit) : run unit :=
  match l with
  | [] => ret tt
  | x :: r => body x ;; for_each r body
  end.

Definition gets {A} (f : session_state -> A) : run A :=
  fun s => (Returned (f (session s)), s).

Definition modify_session (f : session_state -> session_state) : run unit :=
  fun s => (Returned tt,
            {| session := f (session s); shown := shown s; calls := calls s |}).

Definition set_prompt_results (d : dict pyval) (st : session_state)
  : session_state :=
  {| uploaded_image_bytes := uploaded_image_bytes st;
     uploaded_pdf_bytes := uploaded_pdf_bytes st;
     prompt_results := d;
     final_json := final_json st |}.

Definition set_final_json (v : pyval) (st : session_state) : session_state :=
  {| uploaded_image_bytes := uploaded_image_bytes st;
     uploaded_pdf_bytes := uploaded_pdf_bytes st;
     prompt_results := prompt_results st;
     final_json := v |}.

Definition show (m : message) : run unit :=
  fun s => (Returned tt,
            {| session := session s; shown := shown s ++ [m];
               calls := calls s |}).

(** An external call: it is recorded, and answered by the service
    according to its number in the run. *)
Definition external {A} (c : call) (answer : nat -> outcome A) : run A :=
  fun s => (answer (length (calls s)),
            {| session := session s; shown := shown s;
               calls := calls s ++ [c] |}).

(** [l[0]] *)
Definition first_item {A} (l : list A) : outcome A :=
  match l with
  | x :: _ => Returned x
  | [] => Raised (IndexError "list index out of range")
  end.

(** [message.content] as a Python object. *)
Definition content_value (content : option str) : pyval :=
  match content with
  | Some t => PStr t
  | None => PNone
  end.

(** [base64.b64encode(b).decode('utf-8')] on the stored document, which
    is [None] before any upload. *)
Definition b64_of_upload (doc : option bytes) : outcome str :=
  match doc with
  | Some b => Returned (b64encode b)
  | None => Raised (TypeError "a bytes-like object is required, not 'NoneType'")
  end.

(** The check mark that opens the success messages. *)
Definition check_mark : N := 9989%N.

End Script.

Import Script.
Local Open Scope run_scope.

(* ===================================================================== *)
(** * [app.py]: the image flow *)
(* ===================================================================== *)

Module ImageFlow.

Section Handlers.
Variable w : WorkspaceClient.

(** What the recursion limit of the interpreter leaves to the scanner of
    [json.loads] when a handler calls it.  The other calls of a handler
    are taken to have the room they need. *)
Variable room : nat.

(** [image_to_base64] *)
Definition image_to_base64 (image_bytes : option bytes) : outcome str :=
  b64_of_upload image_bytes.

(** The request built by [extract_with_llm]. *)
Definition request (image_base64 prompt : str) : chat_request :=
  {| model := py "databricks-llama-4-maverick";
     text := prompt;
     image_url := py "data:image/jpeg;base64," ++ image_base64;
     max_tokens := 5000;
     temperature := Some 0%Z |}.

(** The body of the [try] of [extract_with_llm]. *)
Definition call_endpoint (image_base64 prompt : str) : run pyval :=
  _ <- external call_get_open_ai_client (get_open_ai_client w) ;;
  response <- external
    (call_chat_completions_create (request image_base64 prompt))
    (fun n => chat_completions_create w n (request image_base64 prompt)) ;;
  choice <- lift (first_item (choices response)) ;;
  ret (content_value choice).

(** [extract_with_llm] *)
Definition extract_with_llm (image_base64 prompt : str) : run pyval :=
  try_except
    (call_endpoint image_base64 prompt)
    (fun e => show (st_error (py "LLM error: ") e) ;; ret PNone).

(** The prompts of step 2. *)
Definition prompts : dict str :=
  dict_of_pairs
    [(py "total_number_of_holes",
      py "can you extract total number of holes? output a json");
     (py "dowel_holds",
      py "can you extract dowel holds table on the right upper coner? Note that there might be merged rows for some columns. output a json only.");
     (py "drill_dimensions",
      py "can you extract dimension info on top of section C-C section? output a json")].

(** The handler of "Invoke All Prompts", for a dictionary of prompts. *)
Definition invoke_all (prompts : dict str) : run unit :=
  doc <- gets uploaded_image_bytes ;;
  image_b64 <- lift (image_to_base64 doc) ;;
  modify_session (set_prompt_results []) ;;
  for_each prompts (fun '(name, prompt) =>
    show (st_write (py "Processing " ++ name ++ py "...")) ;;
    response <- extract_with_llm image_b64 prompt ;;
    modify_session (fun st =>
      set_prompt_results (dict_set (prompt_results st) name response) st)) ;;
  show (st_success (check_mark :: py " All extractions complete!")).

Definition invoke_all_prompts : run unit := invoke_all prompts.

(** The text handed to [json.loads]: the result without its code
    fence. *)
Definition cleaned (result : str) : str :=
  let cleaned := strip result in
  let cleaned :=
    if startswith cleaned (py "```json") then slice_from 7 cleaned
    else cleaned in
  let cleaned :=
    if startswith cleaned (py "```") then slice_from 3 cleaned
    else cleaned in
  let cleaned :=
    if endswith cleaned (py "```") then slice_drop_last 3 cleaned
    else cleaned in
  strip cleaned.

(** The value of [parsed] for one result. *)
Definition parse_result (result : pyval) : outcome pyval :=
  match result with
  | PStr text => json_loads room (cleaned text)
  | _ => Returned result
  end.

(** The loop of "Combine All JSONs" over the remaining items, with the
    dictionary [combined] built so far. *)
Fixpoint combine_loop (items : list (str * pyval)) (combined : dict pyval)
  : run (dict pyval) :=
  match items with
  | [] => ret combined
  | (name, result) :: rest =>
      combined' <- try_except
        (parsed <- lift (parse_result result) ;;
         ret (dict_set combined name parsed))
        (fun e =>
           show (st_warning (name ++ py " parse error: ") e) ;;
           ret (dict_set combined name result)) ;;
      combine_loop rest combined'
  end.

(** The handler of "Combine All JSONs". *)
Definition combine_all_jsons : run unit :=
  results <- gets prompt_results ;;
  combined <- combine_loop results [] ;;
  modify_session (set_final_json (PDict combined)) ;;
  show (st_success (check_mark :: py " Combined all results!")) ;;
  show (st_json (PDict combined)).

(** The handler of "Validate & Update" for the text of the editor. *)
Definition validate_and_update (edited_json : str) : run unit :=
  try_except
    (parsed <- lift (json_loads room edited_json) ;;
     modify_session (set_final_json parsed) ;;
     show (st_success (check_mark :: py " Valid JSON updated!")))
    (fun e => show (st_error (py "Invalid JSON: ") e)).
End Handlers.

(** The value that "Combine All JSONs" stores for one result: the parsed
    value, or the result itself when parsing raises. *)
Definition normalize (room : nat) (result : pyval) : pyval :=
  match parse_result room result with
  | Returned parsed => parsed
  | Raised _ => result
  end.

End ImageFlow.

(* ===================================================================== *)
(** * [views/pdf_field_extractor.py]: the PDF flow *)
(* ===================================================================== *)

Module PdfFlow.

Section Handlers.
Variable w : WorkspaceClient.

(** What the import at the head of the [try] of [extract_with_llm]
    does: nothing, or raise. *)
Variable import_serving : outcome unit.

(** What the recursion limit of the interpreter leaves to the scanner of
    [json.loads] when a handler calls it.  The other calls of a handler
    are taken to have the room they need. *)
Variable room : nat.

(** [pdf_to_base64] *)
Definition pdf_to_base64 (pdf_bytes : option bytes) : outcome str :=
  b64_of_upload pdf_bytes.

(** The request built by [extract_with_llm]: no temperature is given. *)
Definition request (pdf_base64 prompt : str) : chat_request :=
  {| model := py "databricks-llama-4-maverick";
     text := prompt;
     image_url := py "data:application/pdf;base64," ++ pdf_base64;
     max_tokens := 1000;
     temperature := None |}.

(** The body of the [try] of [extract_with_llm]. *)
Definition call_endpoint (pdf_base64 prompt : str) : run pyval :=
  _ <- lift import_serving ;;
  _ <- external call_get_open_ai_client (get_open_ai_client w) ;;
  response <- external
    (call_chat_completions_create (request pdf_base64 prompt))
    (fun n => chat_completions_create w n (request pdf_base64 prompt)) ;;
  choice <- lift (first_item (choices response)) ;;
  ret (content_value choice).

(** [extract_with_llm] *)
Definition extract_with_llm (pdf_base64 prompt : str) : run pyval :=
  try_except
    (call_endpoint pdf_base64 prompt)
    (fun e => show (st_error (py "LLM error: ") e) ;; ret PNone).

(** The prompts of step 2. *)
Definition prompts : dict str :=
  dict_of_pairs
    [(py "Prompt 1",
      py "Can you extract total number of holes? output a json");
     (py "Prompt 2",
      py "Can you extract dimension info on top of section C-C section? output a json")].

(** The handler of "Invoke All Prompts", for a dictionary of prompts. *)
Definition invoke_all (prompts : dict str) : run unit :=
  doc <- gets uploaded_pdf_bytes ;;
  pdf_b64 <- lift (pdf_to_base64 doc) ;;
  modify_session (set_prompt_results []) ;;
  for_each prompts (fun '(name, prompt) =>
    show (st_write (py "Processing " ++ name ++ py "...")) ;;
    response <- extract_with_llm pdf_b64 prompt ;;
    modify_session (fun st =>
      set_prompt_results (dict_set (prompt_results st) name response) st)) ;;
  show (st_success (check_mark :: py " All extractions complete!")).

Definition invoke_all_prompts : run unit := invoke_all prompts.

(** The value of [parsed] for one result: the text goes to
    [json.loads] as it is. *)
Definition parse_result (result : pyval) : outcome pyval :=
  match result with
  | PStr text => json_loads room text
  | _ => Returned result
  end.

(** The loop of "Combine All JSONs"; the bare [except] shows nothing. *)
Fixpoint combine_loop (items : list (str * pyval)) (combined : dict pyval)
  : run (dict pyval) :=
  match items with
  | [] => ret combined
  | (name, result) :: rest =>
      combined' <- try_except
        (parsed <- lift (parse_result result) ;;
         ret (dict_set combined name parsed))
        (fun _ => ret (dict_set combined name result)) ;;
      combine_loop rest combined'
  end.

(** The handler of "Combine All JSONs". *)
Definition combine_all_jsons : run unit :=
  results <- gets prompt_results ;;
  combined <- combine_loop results [] ;;
  modify_session (set_final_json (PDict combined)) ;;
  show (st_success (check_mark :: py " Combined all results!")) ;;
  show (st_json (PDict combined)).

(** The handler of "Validate & Update" for the text of the editor. *)
Definition validate_and_update (edited_json : str) : run unit :=
  try_except
    (parsed <- lift (json_loads room edited_json) ;;
     modify_session (set_final_json parsed) ;;
     show (st_success (check_mark :: py " Valid JSON updated!")))
    (fun e => show (st_error (py "Invalid JSON: ") e)).
End Handlers.

Definition normalize (room : nat) (result : pyval) : pyval :=
  match parse_result room result with
  | Returned parsed => parsed
  | Raised _ => result
  end.

End PdfFlow.

(* ===================================================================== *)
(** * [views/oltp_database_connect.py]: the connection class *)
(* ===================================================================== *)

Module Oltp.

(** [ConnectionPool(conninfo=..., connection_class=RotatingTokenConnection,
    kwargs=..., min_size=..., max_size=..., open=True)] *)
Record ConnectionPool : Type := {
  conninfo : str;
  kwargs : dict str;
  min_size : nat;
  max_size : nat
}.

(** [kwargs.pop(k)] *)
Definition pop (kwargs : dict str) (k : str) : outcome (str * dict str) :=
  match dict_get kwargs k with
  | Some v => Returned (v, dict_del kwargs k)
  | None => Raised (KeyError k)
  end.

(** [kwargs.setdefault(k, v)] *)
Definition setdefault (kwargs : dict str) (k v : str) : dict str :=
  match dict_get kwargs k with
  | Some _ => kwargs
  | None => dict_set kwargs k v
  end.

Section Connection.
Variable w : WorkspaceClient.

(** [str(uuid.uuid4())] drawn at call number [n] of the run. *)
Variable uuid4 : nat -> str.

(** [psycopg.Connection.connect(conninfo, **kwargs)]: the handshake
    with the server, giving a connection handle. *)
Variable Connection_connect : nat -> str -> dict str -> outcome nat.

(** [generate_token]: the token of the credential. *)
Definition generate_token (instance_name : str) : run str :=
  request_id <- external call_uuid4 (fun n => Returned (uuid4 n)) ;;
  external
    (call_generate_database_credential request_id [instance_name])
    (fun n => generate_database_credential w n request_id [instance_name]).

(** [RotatingTokenConnection.connect] *)
Definition connect (conninfo : str) (kwargs : dict str) : run nat :=
  popped <- lift (pop kwargs (py "_instance_name")) ;;
  let instance_name := fst popped in
  let kwargs := snd popped in
  token <- generate_token instance_name ;;
  let kwargs := dict_set kwargs (py "password") token in
  let kwargs := setdefault kwargs (py "sslmode") (py "require") in
  external (call_psycopg_connect conninfo kwargs)
    (fun n => Connection_connect n conninfo kwargs).

(** [build_pool] *)
Definition build_pool (instance_name host user database : str)
  : ConnectionPool :=
  {| conninfo := py "host=" ++ host ++ py " dbname=" ++ database
                 ++ py " user=" ++ user;
     kwargs := dict_of_pairs [(py "_instance_name", instance_name)];
     min_size := 1;
     max_size := 10 |}.

(** A new physical connection of the pool: the pool calls
    [connection_class.connect(conninfo, **kwargs)], which hands the
    callee a dictionary of its own. *)
Definition new_connection (pool : ConnectionPool) : run nat :=
  connect (conninfo pool) (kwargs pool).
End Connection.

End Oltp.

(* ===================================================================== *)
(** * More of Python: text search, decimal and JSON output, UTF-8 *)
(* ===================================================================== *)

Module PyText.

(** [old in s]: the text [old] occurs somewhere in [s]. *)
Fixpoint occurs (old s : str) : bool :=
  startswith s old
  || match s with
     | [] => false
     | _ :: r => occurs old r
     end.

(** [s.replace(old, new)] for a text [old] that is not empty: the
    occurrences are taken from the left and do not overlap.  [skip]
    counts the characters of an occurrence still to be passed over. *)
Fixpoint replace_from (old new : str) (skip : nat) (s : str) : str :=
  match s with
  | [] => []
  | c :: r =>
      match skip with
      | S k => replace_from old new k r
      | O =>
          if startswith s old
          then new ++ replace_from old new (length old - 1) r
          else c :: replace_from old new 0 r
      end
  end.

(** [s.replace(old, new)]; with an empty [old] the text [new] goes before
    every character and at the end. *)
Definition replace (s old new : str) : str :=
  match old with
  | [] => new ++ flat_map (fun c => c :: new) s
  | _ => replace_from old new 0 s
  end.

(** The text before the last [sep] of [s], when [s] holds one. *)
Fixpoint before_last (sep : N) (s : str) : option str :=
  match s with
  | [] => None
  | c :: r =>
      match before_last sep r with
      | Some b => Some (c :: b)
      | None => if (c =? sep)%N then Some [] else None
      end
  end.

(** [s.rsplit(sep, 1)[0]] for a separator of one character. *)
Definition rsplit1_head (s : str) (sep : N) : str :=
  match before_last sep s with
  | Some b => b
  | None => s
  end.

(** [s.encode('utf-8')]: one to four bytes per code point; a surrogate
    cannot be encoded. *)
Definition utf8_char (c : N) : option (list N) :=
  (if c <? 128 then Some [c]
   else if c <? 2048 then Some [192 + c / 64; 128 + c mod 64]
   else if (55296 <=? c) && (c <=? 57343) then None
   else if c <? 65536
   then Some [224 + c / 4096; 128 + c / 64 mod 64; 128 + c mod 64]
   else if c <? 1114112
   then Some [240 + c / 262144; 128 + c / 4096 mod 64;
              128 + c / 64 mod 64; 128 + c mod 64]
   else None)%N.

Fixpoint to_bytes (l : list N) : option bytes :=
  match l with
  | [] => Some []
  | n :: r =>
      match Byte.of_N n, to_bytes r with
      | Some b, Some bs => Some (b :: bs)
      | _, _ => None
      end
  end.

Fixpoint encode_utf8 (s : str) : outcome bytes :=
  match s with
  | [] => Returned []
  | c :: r =>
      match utf8_char c with
      | None =>
          Raised (OtherError "UnicodeEncodeError"
                    (py "'utf-8' codec can't encode character"))
      | Some l =>
          match to_bytes l, encode_utf8 r with
          | Some bs, Returned rest => Returned (bs ++ rest)
          | None, _ =>
              Raised (OtherError "UnicodeEncodeError"
                        (py "'utf-8' codec can't encode character"))
          | _, Raised e => Raised e
          end
      end
  end.

End PyText.

Import PyText.

(** [json.dumps(obj, indent=2)] with its other settings at their
    defaults: ASCII output, [", "] replaced by a comma and a line break,
    [": "] between a key and its value.  The printing of a [float] is not
    modelled, and an [int] beyond the limit of its conversion to [str]
    raises [ValueError]: a value that holds one has no text here.  The
    recursion limit of the interpreter is not modelled either: the
    encoder follows the value however deep it is nested. *)
Module JsonDump.

(** The lower-case hexadecimal digit of a value below sixteen. *)
Definition hex_digit (i : N) : N :=
  (if i <? 10 then 48 + i else 87 + i)%N.

(** The escape [\uXXXX] of a code unit. *)
Definition escape_u (n : N) : str :=
  [92; 117; hex_digit (n / 4096); hex_digit (n / 256 mod 16);
   hex_digit (n / 16 mod 16); hex_digit (n mod 16)]%N.

(** What [encode_basestring_ascii] writes for one character: the
    printable ASCII characters stand for themselves, except the quote and
    the backslash; a character beyond the basic plane is written as a
    surrogate pair. *)
Definition escape_char (c : N) : str :=
  (if c =? 34 then [92; 34]
   else if c =? 92 then [92; 92]
   else if c =? 10 then [92; 110]
   else if c =? 13 then [92; 114]
   else if c =? 9 then [92; 116]
   else if c =? 12 then [92; 102]
   else if c =? 8 then [92; 98]
   else if (32 <=? c) && (c <=? 126) then [c]
   else if c <? 65536 then escape_u c
   else escape_u (55296 + (c - 65536) / 1024 mod 1024)
        ++ escape_u (56320 + (c - 65536) mod 1024))%N.

(** [encode_basestring_ascii] *)
Definition encode_basestring_ascii (s : str) : str :=
  34%N :: flat_map escape_char s ++ [34%N].

(** A line break and the indentation of a nesting level. *)
Definition newline_indent (level : nat) : str :=
  10%N :: repeat 32%N (2 * level).

(** [sep.join(ts)] *)
Fixpoint join (sep : str) (ts : list str) : str :=
  match ts with
  | [] => []
  | [t] => t
  | t :: r => t ++ sep ++ join sep r
  end.

(** All the texts of a list, when every item has one. *)
Fixpoint sequence {A} (l : list (option A)) : option (list A) :=
  match l with
  | [] => Some []
  | Some a :: r => option_map (cons a) (sequence r)
  | None :: _ => None
  end.

(** [_iterencode] at a nesting level. *)
Fixpoint iterencode (level : nat) (v : pyval) : option str :=
  match v with
  | PNone => Some (py "null")
  | PBool true => Some (py "true")
  | PBool false => Some (py "false")
  | PInt z => if int_in_limit z then Some (repr_int z) else None
  | PFloat _ => None
  | PStr s => Some (encode_basestring_ascii s)
  | PList [] => Some (py "[]")
  | PList items =>
      option_map
        (fun ts =>
           [91%N] ++ newline_indent (S level)
           ++ join (44%N :: newline_indent (S level)) ts
           ++ newline_indent level ++ [93%N])
        (sequence (map (iterencode (S level)) items))
  | PDict [] => Some (py "{}")
  | PDict items =>
      option_map
        (fun ts =>
           [123%N] ++ newline_indent (S level)
           ++ join (44%N :: newline_indent (S level)) ts
           ++ newline_indent level ++ [125%N])
        (sequence
           (map (fun kv =>
                   option_map
                     (fun t => encode_basestring_ascii (fst kv)
                               ++ [58%N; 32%N] ++ t)
                     (iterencode (S level) (snd kv)))
              items))
  end.

(** [json.dumps(obj, indent=2)] *)
Definition json_dumps (obj : pyval) : option str := iterencode 0 obj.

End JsonDump.

Import JsonDump.

(** What [json_dumps] and [json.loads] tell apart no further: values
    without a [float], whose integers are within the limit of the
    conversion to [str], whose texts are made of Unicode scalar values (no
    surrogate) and whose dictionaries have each key once. *)
Module JsonDocument.

Definition scalar_char (c : N) : bool :=
  ((c <? 55296) || (57343 <? c) && (c <? 1114112))%N.

Fixpoint unique_keys (ks : list str) : bool :=
  match ks with
  | [] => true
  | k :: r => negb (existsb (str_eqb k) r) && unique_keys r
  end.

Fixpoint json_document (v : pyval) : bool :=
  match v with
  | PNone | PBool _ => true
  | PInt z => int_in_limit z
  | PFloat _ => false
  | PStr s => forallb scalar_char s
  | PList items => forallb json_document items
  | PDict items =>
      forallb (fun kv => forallb scalar_char (fst kv)) items
      && unique_keys (map fst items)
      && forallb (fun kv => json_document (snd kv)) items
  end.

(** What may follow a value in a text: nothing, a comma or white
    space. *)
Definition value_end (rest : str) : bool :=
  match rest with
  | [] => true
  | c :: _ => ((c =? 44)%N || is_ws c)
  end.

(** How deep arrays and objects are nested in a value: none in a
    scalar, one for an array or object of scalars, an empty one too. *)
Fixpoint nesting (v : pyval) : nat :=
  match v with
  | PList items => S (list_max (map nesting items))
  | PDict items => S (list_max (map (fun kv => nesting (snd kv)) items))
  | _ => 0
  end.

(** The values whose text is modelled: those without a [float] and with
    integers within the limit of the conversion to [str]. *)
Fixpoint printable (v : pyval) : bool :=
  match v with
  | PNone | PBool _ | PStr _ => true
  | PInt z => int_in_limit z
  | PFloat _ => false
  | PList items => forallb printable items
  | PDict items => forallb (fun kv => printable (snd kv)) items
  end.

(** A value is read back: at any nesting level, the text that
    [_iterencode] writes for it, followed by the end of a value, is
    scanned as this value by a scanner that has room for the nesting of
    the value (and a [depth] beyond the length of the text). *)
Definition reads_back (v : pyval) : Prop :=
  forall (room level : nat) (t rest : str) (depth : nat),
    iterencode level v = Some t ->
    value_end rest = true ->
    length t < depth ->
    nesting v <= room ->
    scan_once room depth (t ++ rest) = Scanned v rest.

End JsonDocument.

Import JsonDocument.

(* ===================================================================== *)
(** * The rest of the two pages: names, links, editor, saved file *)
(* ===================================================================== *)

Module Pages.

(** [app.py], line 11: the host of the workspace without its scheme;
    [host] is [w.config.host]. *)
Definition image_databricks_host (host : option str) : str :=
  match host with
  | Some ((_ :: _) as h) => replace h (py "https://") []
  | _ => []
  end.

(** The link to the volume shown after a save. *)
Definition volume_url (databricks_host : str) : str :=
  py "https://" ++ databricks_host
  ++ py "/explore/data/volumes/jywu/multimodal/test".

(** The path of a file in the volume. *)
Definition volume_path (filename : str) : str :=
  py "/Volumes/jywu/multimodal/test/" ++ filename.

(** [app.py], lines 182-185: the proposed name of the saved file. *)
Definition image_default_name (uploaded_image_name : option str) : str :=
  match uploaded_image_name with
  | Some ((_ :: _) as name) => rsplit1_head name 46 ++ py "_extracted.json"
  | _ => py "extracted_fields.json"
  end.

(** [views/pdf_field_extractor.py], lines 160-163. *)
Definition pdf_default_name (uploaded_pdf_name : option str) : str :=
  match uploaded_pdf_name with
  | Some ((_ :: _) as name) =>
      replace name (py ".pdf") [] ++ py "_extracted.json"
  | _ => py "extracted_fields.json"
  end.

(** The text put in the editor of step 3: [json.dumps(final_json,
    indent=2)]. *)
Definition editor_value (st : session_state) : option str :=
  json_dumps (final_json st).

(** What "Save JSON to Volume" uploads: [json_str.encode('utf-8')]. *)
Definition json_bytes (st : session_state) : option (outcome bytes) :=
  option_map encode_utf8 (json_dumps (final_json st)).

End Pages.

(* ===================================================================== *)
(** * Reading base-64 text back *)
(* ===================================================================== *)

(** The inverse of the alphabet and a decoder for the texts that
    [b64encode] writes; the pages never decode, the decoder serves to
    show that the encoding loses nothing. *)
Module Base64.

Definition b64_value (c : N) : option N :=
  (if (65 <=? c) && (c <=? 90) then Some (c - 65)
   else if (97 <=? c) && (c <=? 122) then Some (c - 71)
   else if (48 <=? c) && (c <=? 57) then Some (c + 4)
   else if c =? 43 then Some 62
   else if c =? 47 then Some 63
   else None)%N.

Definition bytes_of (l : list N) : option bytes := to_bytes l.

Fixpoint b64decode (s : str) : option bytes :=
  match s with
  | [] => Some []
  | a :: b :: c :: d :: r =>
      match b64_value a, b64_value b with
      | Some p, Some q =>
          if (d =? 61)%N then
            match r with
            | [] =>
                if (c =? 61)%N then bytes_of [p * 4 + q / 16]%N
                else
                  match b64_value c with
                  | Some u =>
                      let n := ((p * 64 + q) * 64 + u)%N in
                      bytes_of [n / 1024; n / 4 mod 256]%N
                  | None => None
                  end
            | _ => None
            end
          else
            match b64_value c, b64_value d with
            | Some u, Some v =>
                let n := (((p * 64 + q) * 64 + u) * 64 + v)%N in
                match bytes_of [n / 65536; n / 256 mod 256; n mod 256]%N,
                      b64decode r with
                | Some x, Some y => Some (x ++ y)
                | _, _ => None
                end
            | _, _ => None
            end
      | _, _ => None
      end
  | _ => None
  end.

End Base64.

Import Base64.

(* ===================================================================== *)
(** * Sample data *)
(* ===================================================================== *)

(** The answer of scenario A: a JSON object in a [json] code fence. *)
Definition fenced_holes : str :=
  py "```json" ++ [nl] ++ py "{" ++ [dq] ++ py "holes" ++ [dq] ++ py ": 4}"
  ++ [nl] ++ py "```".

(** The object of scenario A. *)
Definition holes_object : pyval := PDict [(py "holes", PInt 4)].

(** The answer of scenario B. *)
Definition four_holes_text : str := py "four holes, see drawing".

(** A JSON string whose content is a JSON number: the text ["5"] with its
    quotes. *)
Definition quoted_five : str := [dq] ++ py "5" ++ [dq].

(** A session with an uploaded image and an uploaded PDF of three bytes
    each, with results of an earlier run. *)
Definition sample_session : session_state :=
  {| uploaded_image_bytes := Some [Byte.xff; Byte.xd8; Byte.xff];
     uploaded_pdf_bytes := Some [Byte.x25; Byte.x50; Byte.x44];
     prompt_results := [(py "stale", PStr (py "{}"))];
     final_json := PDict [(py "kept", PInt 1)] |}.

Definition sample_sys : sys :=
  {| session := sample_session; shown := []; calls := [] |}.

(** What the default recursion limit of 1000 leaves to the scanner under
    a script a hundred calls deep. *)
Definition sample_room : nat := 900.

(** A workspace whose endpoint fails on its fourth call and answers the
    fenced object otherwise. *)
Definition sample_workspace : WorkspaceClient :=
  {| get_open_ai_client := fun _ => Returned tt;
     chat_completions_create := fun n _ =>
       if Nat.eqb n 3
       then Raised (OtherError "APIConnectionError" (py "Connection error."))
       else Returned {| choices := [Some fenced_holes] |};
     generate_database_credential := fun n _ _ =>
       Returned (py "token-" ++ [N.of_nat n]) |}.

(** A batch as scenarios A to C describe it: a fenced object, a null
    marker and a text that is not JSON. *)
Definition sample_batch : dict pyval :=
  [(py "total_number_of_holes", PStr fenced_holes);
   (py "dowel_holds", PNone);
   (py "drill_dimensions", PStr four_holes_text)].

Definition batch_sys (batch : dict pyval) : sys :=
  {| session := set_prompt_results batch sample_session;
     shown := []; calls := [] |}.

(** Identifiers and handshakes for the connection class: the identifier
    drawn at call [n] is [n] itself, and every handshake succeeds. *)
Definition sample_uuid4 (n : nat) : str := py "uuid-" ++ [N.of_nat n].
Definition sample_handshake (n : nat) (_ : str) (_ : dict str)
  : outcome nat := Returned n.

(** A result as the gateway can leave it in the batch: a text or the null
    marker. *)
Definition raw_result (v : pyval) : Prop :=
  v = PNone \/ exists t, v = PStr t.

(** The state [s] with its batch replaced. *)
Definition with_results (batch : dict pyval) (s : sys) : sys :=
  {| session := set_prompt_results batch (session s);
     shown := shown s; calls := calls s |}.

(* ===================================================================== *)
(** * Runs on concrete inputs *)
(* ===================================================================== *)

Example loads_holes :
  json_loads sample_room (py "{" ++ [dq] ++ py "holes" ++ [dq] ++ py ": 4}")
  = Returned holes_object.
Proof. vm_compute. reflexivity. Qed.

Example loads_not_json :
  json_loads sample_room (py "{not json")
  = Raised (JSONDecodeError
              "Expecting property name enclosed in double quotes" 1).
Proof. vm_compute. reflexivity. Qed.

Example loads_empty :
  json_loads sample_room [] = Raised (JSONDecodeError "Expecting value" 0).
Proof. vm_compute. reflexivity. Qed.

Example loads_nested :
  json_loads sample_room (py "[[1], {}, [-2, [true, null]]]")
  = Returned (PList [PList [PInt 1]; PDict [];
                     PList [PInt (-2); PList [PBool true; PNone]]]).
Proof. vm_compute. reflexivity. Qed.

(** The two limits of the interpreter.  An integer of 4301 digits is
    refused by [int], with or without a sign, which is not counted; one
    of 4300 digits is read. *)
Example loads_digit_limit :
  json_loads sample_room (repeat 49%N 4301) = Raised (digit_limit_error 4301)
  /\ json_loads sample_room (45%N :: repeat 49%N 4301)
     = Raised (digit_limit_error 4301)
  /\ json_loads sample_room (py "[" ++ repeat 49%N 4301 ++ py "]")
     = Raised (digit_limit_error 4301)
  /\ json_loads sample_room (repeat 49%N 4300)
     = Returned (PInt (int_of_digits (repeat 49%N 4300)))
  /\ json_loads sample_room (45%N :: repeat 49%N 4300)
     = Returned (PInt (- int_of_digits (repeat 49%N 4300)))
  /\ json_loads sample_room (repeat 49%N 4301 ++ py ".5")
     = Returned (PFloat (repeat 49%N 4301 ++ py ".5")).
Proof. vm_compute. repeat split; reflexivity. Qed.

Example digit_limit_error_text :
  digit_limit_error 4301
  = OtherError "ValueError"
      (py "Exceeds the limit (4300 digits) for integer string conversion: "
       ++ py "value has 4301 digits; "
       ++ py "use sys.set_int_max_str_digits() to increase the limit").
Proof. vm_compute. reflexivity. Qed.

(** Every array and object entered, an empty one too, takes one of the
    nested calls that are left; a scalar takes none. *)
Example loads_recursion_limit :
  json_loads 2 (py "[[[1]]]") = Raised RecursionError
  /\ json_loads 3 (py "[[[1]]]") = Returned (PList [PList [PList [PInt 1]]])
  /\ json_loads 1 (py "[{}]") = Raised RecursionError
  /\ json_loads 1 (py "[1, [2]]") = Raised RecursionError
  /\ json_loads 1 (py "[[], 2]") = Raised RecursionError
  /\ json_loads 0 (py "[]") = Raised RecursionError
  /\ json_loads 0 (py "1") = Returned (PInt 1)
  /\ json_loads 1000 (repeat 91%N 1500 ++ repeat 93%N 1500)
     = Raised RecursionError.
Proof. vm_compute. repeat split; reflexivity. Qed.

(** Building a [JSONDecodeError] takes nested calls too: three inside
    the scanner, two for "Expecting value", one for "Extra data". *)
Example loads_error_room :
  json_loads 3 (py "[1 2") = Raised RecursionError
  /\ json_loads 4 (py "[1 2")
     = Raised (JSONDecodeError "Expecting ',' delimiter" 3)
  /\ json_loads 1 (py "x") = Raised RecursionError
  /\ json_loads 2 (py "x") = Raised (JSONDecodeError "Expecting value" 0)
  /\ json_loads 0 (py "1 x") = Raised RecursionError
  /\ json_loads 1 (py "1 x") = Raised (JSONDecodeError "Extra data" 2).
Proof. vm_compute. repeat split; reflexivity. Qed.

Example cleaned_fenced_holes :
  ImageFlow.cleaned fenced_holes
  = py "{" ++ [dq] ++ py "holes" ++ [dq] ++ py ": 4}".
Proof. vm_compute. reflexivity. Qed.

Example cleaned_plain_fence :
  ImageFlow.cleaned (py " ``` [1, 2] ``` ") = py "[1, 2]".
Proof. vm_compute. reflexivity. Qed.

Example normalize_four_holes :
  ImageFlow.normalize sample_room (PStr four_holes_text) = PStr four_holes_text.
Proof. vm_compute. reflexivity. Qed.

Example b64encode_sample :
  b64encode [Byte.x4d; Byte.x61; Byte.x6e; Byte.x4d; Byte.x61] = py "TWFuTWE=".
Proof. vm_compute. reflexivity. Qed.

(* ===================================================================== *)
(** * Dictionaries *)
(* ===================================================================== *)

Lemma str_eqb_eq (a b : str) : str_eqb a b = true <-> a = b.
Proof.
  revert b; induction a as [|x a IH]; intros [|y b]; simpl;
    try (split; (reflexivity || discriminate)).
  rewrite andb_true_iff, N.eqb_eq, IH. split.
  - intros [-> ->]; reflexivity.
  - intros H; inversion H; auto.
Qed.

Lemma str_eqb_refl (a : str) : str_eqb a a = true.
Proof. apply str_eqb_eq; reflexivity. Qed.

Lemma str_eqb_neq (a b : str) : a <> b -> str_eqb a b = false.
Proof.
  intros H. destruct (str_eqb a b) eqn:E; [|reflexivity].
  apply str_eqb_eq in E. contradiction.
Qed.

Section DictFacts.
Context {V : Type}.
Implicit Types (d : dict V) (k : str) (v : V).

Lemma dict_set_new d k v :
  ~ In k (keys d) -> dict_set d k v = d ++ [(k, v)].
Proof.
  induction d as [|[k' v'] d IH]; simpl; intros H; [reflexivity|].
  rewrite str_eqb_neq by (intros ->; apply H; left; reflexivity).
  rewrite IH by (intros G; apply H; right; exact G). reflexivity.
Qed.

Lemma keys_dict_set d k v :
  keys (dict_set d k v) = if existsb (str_eqb k) (keys d) then keys d
                          else keys d ++ [k].
Proof.
  induction d as [|[k' v'] d IH]; simpl; [reflexivity|].
  destruct (str_eqb k k') eqn:E; simpl; [reflexivity|].
  unfold keys in *. rewrite IH.
  destruct (existsb (str_eqb k) (map fst d)); reflexivity.
Qed.

Lemma dict_get_None d k : ~ In k (keys d) -> dict_get d k = None.
Proof.
  induction d as [|[k' v'] d IH]; simpl; intros H; [reflexivity|].
  rewrite str_eqb_neq by (intros ->; apply H; left; reflexivity).
  apply IH. intros G; apply H; right; exact G.
Qed.

Lemma dict_get_In d k v : dict_get d k = Some v -> In (k, v) d.
Proof.
  induction d as [|[k' v'] d IH]; simpl; [discriminate|].
  destruct (str_eqb k k') eqn:E.
  - apply str_eqb_eq in E. subst. intros H; inversion H; left; reflexivity.
  - intros H; right; apply IH, H.
Qed.

Lemma dict_get_map {W : Type} (f : V -> W) d k :
  dict_get (map (fun kv => (fst kv, f (snd kv))) d) k
  = option_map f (dict_get d k).
Proof.
  induction d as [|[k' v'] d IH]; simpl; [reflexivity|].
  destruct (str_eqb k k'); [reflexivity | exact IH].
Qed.

Lemma keys_map {W : Type} (f : V -> W) d :
  keys (map (fun kv => (fst kv, f (snd kv))) d) = keys d.
Proof. unfold keys. rewrite map_map. reflexivity. Qed.

(** Storing the items of a dictionary one by one, each under its own
    name, in a dictionary that has none of the names. *)
Lemma fold_dict_set {W : Type} (f : W -> V) (items : dict W) d :
  NoDup (keys d ++ keys items) ->
  fold_left (fun c kv => dict_set c (fst kv) (f (snd kv))) items d
  = d ++ map (fun kv => (fst kv, f (snd kv))) items.
Proof.
  revert d; induction items as [|[k x] items IH]; intros d H; simpl.
  - rewrite app_nil_r. reflexivity.
  - simpl in H. rewrite dict_set_new.
    + rewrite IH.
      * rewrite <- app_assoc. reflexivity.
      * unfold keys in *. rewrite map_app, <- app_assoc. exact H.
    + apply NoDup_remove_2 in H. intros G. apply H.
      apply in_or_app. left. exact G.
Qed.
End DictFacts.

(* ===================================================================== *)
(** * The model gateway *)
(* ===================================================================== *)

(** The state after the handler of [extract_with_llm] has shown the
    error. *)
Lemma image_extract_catches w b64 prompt s e s1 :
  ImageFlow.call_endpoint w b64 prompt s = (Raised e, s1) ->
  ImageFlow.extract_with_llm w b64 prompt s
  = (Returned PNone,
     {| session := session s1;
        shown := shown s1 ++ [st_error (py "LLM error: ") e];
        calls := calls s1 |}).
Proof.
  intros H. unfold ImageFlow.extract_with_llm, try_except. rewrite H.
  reflexivity.
Qed.

Lemma pdf_extract_catches w imp b64 prompt s e s1 :
  PdfFlow.call_endpoint w imp b64 prompt s = (Raised e, s1) ->
  PdfFlow.extract_with_llm w imp b64 prompt s
  = (Returned PNone,
     {| session := session s1;
        shown := shown s1 ++ [st_error (py "LLM error: ") e];
        calls := calls s1 |}).
Proof.
  intros H. unfold PdfFlow.extract_with_llm, try_except. rewrite H.
  reflexivity.
Qed.

Lemma content_value_raw c : raw_result (content_value c).
Proof. destruct c; [right; eexists; reflexivity | left; reflexivity]. Qed.

(** The gateway always returns, with a text or the null marker, and
    leaves the session as it was. *)
Lemma image_extract_returns w b64 prompt s :
  exists v s',
    ImageFlow.extract_with_llm w b64 prompt s = (Returned v, s')
    /\ session s' = session s /\ raw_result v.
Proof.
  unfold ImageFlow.extract_with_llm, ImageFlow.call_endpoint, try_except,
    bind, external, lift, ret, show; simpl.
  destruct (get_open_ai_client w _);
    [|eexists _, _; repeat split; left; reflexivity].
  destruct (chat_completions_create w _ _) as [[[|c cs]]|];
    simpl; eexists _, _; repeat split;
    first [apply content_value_raw | left; reflexivity].
Qed.

Lemma pdf_extract_returns w imp b64 prompt s :
  exists v s',
    PdfFlow.extract_with_llm w imp b64 prompt s = (Returned v, s')
    /\ session s' = session s /\ raw_result v.
Proof.
  unfold PdfFlow.extract_with_llm, PdfFlow.call_endpoint, try_except,
    bind, external, lift, ret, show; simpl.
  destruct imp; [|eexists _, _; repeat split; left; reflexivity].
  destruct (get_open_ai_client w _);
    [|eexists _, _; repeat split; left; reflexivity].
  destruct (chat_completions_create w _ _) as [[[|c cs]]|];
    simpl; eexists _, _; repeat split;
    first [apply content_value_raw | left; reflexivity].
Qed.

(** C5: for every encoded document and prompt, in the image flow and in
    the PDF flow, [extract_with_llm] returns and never raises; whenever
    the body of its [try] raises (the client cannot be had, the endpoint
    call fails, the response has no choice), it shows the error and
    returns the null marker [None]; in particular so when the endpoint
    call itself raises. *)
Theorem C5_extract_with_llm_never_raises :
  forall (w : WorkspaceClient) (imp : outcome unit) (b64 prompt : str)
         (s : sys),
    (exists v s',
        ImageFlow.extract_with_llm w b64 prompt s = (Returned v, s')
        /\ session s' = session s /\ raw_result v)
    /\ (exists v s',
        PdfFlow.extract_with_llm w imp b64 prompt s = (Returned v, s')
        /\ session s' = session s /\ raw_result v)
    /\ (forall e s1,
        ImageFlow.call_endpoint w b64 prompt s = (Raised e, s1) ->
        fst (ImageFlow.extract_with_llm w b64 prompt s) = Returned PNone)
    /\ (forall e s1,
        PdfFlow.call_endpoint w imp b64 prompt s = (Raised e, s1) ->
        fst (PdfFlow.extract_with_llm w imp b64 prompt s) = Returned PNone)
    /\ (forall e,
        get_open_ai_client w (length (calls s)) = Returned tt ->
        chat_completions_create w (S (length (calls s)))
          (ImageFlow.request b64 prompt) = Raised e ->
        ImageFlow.extract_with_llm w b64 prompt s
        = (Returned PNone,
           {| session := session s;
              shown := shown s ++ [st_error (py "LLM error: ") e];
              calls := calls s
                       ++ [call_get_open_ai_client;
                           call_chat_completions_create
                             (ImageFlow.request b64 prompt)] |}))
    /\ (forall e,
        imp = Returned tt ->
        get_open_ai_client w (length (calls s)) = Returned tt ->
        chat_completions_create w (S (length (calls s)))
          (PdfFlow.request b64 prompt) = Raised e ->
        PdfFlow.extract_with_llm w imp b64 prompt s
        = (Returned PNone,
           {| session := session s;
              shown := shown s ++ [st_error (py "LLM error: ") e];
              calls := calls s
                       ++ [call_get_open_ai_client;
                           call_chat_completions_create
                             (PdfFlow.request b64 prompt)] |})).
Proof.
  intros w imp b64 prompt s.
  split; [apply image_extract_returns|].
  split; [apply pdf_extract_returns|].
  split; [intros e s1 H; rewrite (image_extract_catches _ _ _ _ _ _ H);
          reflexivity|].
  split; [intros e s1 H; rewrite (pdf_extract_catches _ _ _ _ _ _ _ H);
          reflexivity|].
  split.
  - intros e Hc He.
    unfold ImageFlow.extract_with_llm, ImageFlow.call_endpoint, try_except,
      bind, external, lift, ret, show; simpl.
    rewrite Hc; simpl. rewrite length_app, Nat.add_comm; simpl.
    rewrite He; simpl. rewrite <- app_assoc. reflexivity.
  - intros e -> Hc He.
    unfold PdfFlow.extract_with_llm, PdfFlow.call_endpoint, try_except,
      bind, external, lift, ret, show; simpl.
    rewrite Hc; simpl. rewrite length_app, Nat.add_comm; simpl.
    rewrite He; simpl. rewrite <- app_assoc. reflexivity.
Qed.

(* ===================================================================== *)
(** * The extraction orchestrator *)
(* ===================================================================== *)

Lemma bind_returned {A B} (m : run A) (k : A -> run B) s a s1 :
  m s = (Returned a, s1) -> bind m k s = k a s1.
Proof. intros H. unfold bind. rewrite H. reflexivity. Qed.

Lemma bind_raised {A B} (m : run A) (k : A -> run B) s e s1 :
  m s = (Raised e, s1) -> bind m k s = (Raised e, s1).
Proof. intros H. unfold bind. rewrite H. reflexivity. Qed.

Section Collect.
(** The gateway of either flow, for a fixed encoded document. *)
Variable extract : str -> run pyval.
Hypothesis extract_returns :
  forall prompt s, exists v s',
    extract prompt s = (Returned v, s')
    /\ session s' = session s /\ raw_result v.

(** One turn of the loop of "Invoke All Prompts". *)
Lemma collect_step (name prompt : str) (s : sys) :
  exists v sh cl st st',
    (show (st_write (py "Processing " ++ name ++ py "...")) ;;
     response <- extract prompt ;;
     modify_session (fun st =>
       set_prompt_results (dict_set (prompt_results st) name response)
         st)) s
    = (Returned tt,
       {| session :=
            set_prompt_results
              (dict_set (prompt_results (session s)) name v) (session s);
          shown := sh; calls := cl |})
    /\ raw_result v
    /\ extract prompt st = (Returned v, st').
Proof.
  unfold bind, show, modify_session.
  match goal with
  | |- context [extract prompt ?st] =>
      destruct (extract_returns prompt st) as (v & s1 & Hrun & Hsess & Hv);
      rewrite Hrun;
      cbn [session] in Hsess; rewrite Hsess;
      exists v, (shown s1), (calls s1), st, s1
  end.
  split; [reflexivity | split; [exact Hv | exact Hrun]].
Qed.

(** The loop of "Invoke All Prompts" adds one entry per prompt, in
    order, to a batch that has none of the names; the entry of a prompt
    is what the gateway returned for it. *)
Lemma for_each_collects (P : dict str) :
  forall s : sys,
    NoDup (keys (prompt_results (session s)) ++ keys P) ->
    exists s' added,
      for_each P (fun '(name, prompt) =>
        show (st_write (py "Processing " ++ name ++ py "...")) ;;
        response <- extract prompt ;;
        modify_session (fun st =>
          set_prompt_results (dict_set (prompt_results st) name response)
            st)) s
      = (Returned tt, s')
      /\ prompt_results (session s') = prompt_results (session s) ++ added
      /\ Forall2
           (fun kv np =>
              fst kv = fst np /\ raw_result (snd kv)
              /\ exists st st', extract (snd np) st = (Returned (snd kv), st'))
           added P
      /\ final_json (session s') = final_json (session s).
Proof.
  induction P as [|[name prompt] P IH]; intros s Hnd.
  - exists s, []. cbn [for_each]. rewrite app_nil_r.
    repeat split; constructor.
  - cbn [for_each].
    destruct (collect_step name prompt s)
      as (v & sh & cl & st & st' & Hstep & Hv & Hex).
    rewrite (bind_returned _ _ _ _ _ Hstep).
    assert (Hnew : ~ In name (keys (prompt_results (session s)))).
    { cbn [keys map fst] in Hnd. apply NoDup_remove_2 in Hnd.
      intros G. apply Hnd. apply in_or_app. left. exact G. }
    match goal with
    | |- context [for_each P ?body ?st] =>
        destruct (IH st) as (s' & added & Hloop & Hres & Hall & Hfin)
    end.
    + cbn [session set_prompt_results prompt_results].
      rewrite dict_set_new by exact Hnew. unfold keys.
      rewrite map_app, <- app_assoc. exact Hnd.
    + exists s', ((name, v) :: added). split; [exact Hloop|].
      cbn [session set_prompt_results prompt_results final_json]
        in Hres, Hfin.
      rewrite dict_set_new, <- app_assoc in Hres by exact Hnew.
      split; [exact Hres|]. split; [|exact Hfin].
      constructor; [|exact Hall].
      cbn [fst snd]. split; [reflexivity|]. split; [exact Hv|].
      exists st, st'. exact Hex.
Qed.
End Collect.

Lemma Forall2_keys {A B} (R : str * A -> str * B -> Prop) l1 l2 :
  Forall2 (fun x y => fst x = fst y /\ R x y) l1 l2 -> keys l1 = keys l2.
Proof.
  induction 1 as [|x y l1 l2 [H _] _ IH]; [reflexivity|].
  unfold keys in *. simpl. rewrite H, IH. reflexivity.
Qed.

(** "Invoke All Prompts" of the image flow on an uploaded document. *)
Lemma image_invoke_all_spec w (P : dict str) (doc : bytes) (s : sys) :
  NoDup (keys P) ->
  uploaded_image_bytes (session s) = Some doc ->
  exists s',
    ImageFlow.invoke_all w P s = (Returned tt, s')
    /\ Forall2
         (fun kv np =>
            fst kv = fst np /\ raw_result (snd kv)
            /\ exists st st',
                ImageFlow.extract_with_llm w (b64encode doc) (snd np) st
                = (Returned (snd kv), st'))
         (prompt_results (session s')) P
    /\ final_json (session s') = final_json (session s).
Proof.
  intros Hnd Hdoc.
  unfold ImageFlow.invoke_all, ImageFlow.image_to_base64.
  unfold bind at 1, gets at 1. rewrite Hdoc.
  unfold bind at 1, lift at 1, b64_of_upload.
  unfold bind at 1, modify_session at 1.
  destruct (for_each_collects (ImageFlow.extract_with_llm w (b64encode doc))
              (image_extract_returns w (b64encode doc)) P
              {| session := set_prompt_results [] (session s);
                 shown := shown s; calls := calls s |})
    as (s1 & added & Hloop & Hres & Hall & Hfin).
  - exact Hnd.
  - unfold bind at 1. rewrite Hloop. unfold show.
    eexists. split; [reflexivity|].
    cbn [session set_prompt_results prompt_results final_json app]
      in Hres, Hfin |- *.
    rewrite Hres. auto.
Qed.

(** "Invoke All Prompts" of the PDF flow on an uploaded document. *)
Lemma pdf_invoke_all_spec w imp (P : dict str) (doc : bytes) (s : sys) :
  NoDup (keys P) ->
  uploaded_pdf_bytes (session s) = Some doc ->
  exists s',
    PdfFlow.invoke_all w imp P s = (Returned tt, s')
    /\ Forall2
         (fun kv np =>
            fst kv = fst np /\ raw_result (snd kv)
            /\ exists st st',
                PdfFlow.extract_with_llm w imp (b64encode doc) (snd np) st
                = (Returned (snd kv), st'))
         (prompt_results (session s')) P
    /\ final_json (session s') = final_json (session s).
Proof.
  intros Hnd Hdoc.
  unfold PdfFlow.invoke_all, PdfFlow.pdf_to_base64.
  unfold bind at 1, gets at 1. rewrite Hdoc.
  unfold bind at 1, lift at 1, b64_of_upload.
  unfold bind at 1, modify_session at 1.
  destruct (for_each_collects (PdfFlow.extract_with_llm w imp (b64encode doc))
              (pdf_extract_returns w imp (b64encode doc)) P
              {| session := set_prompt_results [] (session s);
                 shown := shown s; calls := calls s |})
    as (s1 & added & Hloop & Hres & Hall & Hfin).
  - exact Hnd.
  - unfold bind at 1. rewrite Hloop. unfold show.
    eexists. split; [reflexivity|].
    cbn [session set_prompt_results prompt_results final_json app]
      in Hres, Hfin |- *.
    rewrite Hres. auto.
Qed.

(** After its first three statements "Invoke All Prompts" no longer
    depends on the batch it found. *)
Lemma image_invoke_all_forgets w (P : dict str) (doc : bytes) old s :
  uploaded_image_bytes (session s) = Some doc ->
  ImageFlow.invoke_all w P (with_results old s)
  = ImageFlow.invoke_all w P (with_results [] s).
Proof.
  intros Hdoc. unfold ImageFlow.invoke_all, ImageFlow.image_to_base64.
  unfold bind at 1, gets at 1. symmetry. unfold bind at 1, gets at 1.
  cbn [session with_results set_prompt_results uploaded_image_bytes].
  rewrite Hdoc. reflexivity.
Qed.

Lemma pdf_invoke_all_forgets w imp (P : dict str) (doc : bytes) old s :
  uploaded_pdf_bytes (session s) = Some doc ->
  PdfFlow.invoke_all w imp P (with_results old s)
  = PdfFlow.invoke_all w imp P (with_results [] s).
Proof.
  intros Hdoc. unfold PdfFlow.invoke_all, PdfFlow.pdf_to_base64.
  unfold bind at 1, gets at 1. symmetry. unfold bind at 1, gets at 1.
  cbn [session with_results set_prompt_results uploaded_pdf_bytes].
  rewrite Hdoc. reflexivity.
Qed.

(** The names of the prompts of the two pages are distinct. *)
Lemma image_prompts_NoDup : NoDup (keys ImageFlow.prompts).
Proof.
  vm_compute. repeat constructor; simpl; intuition discriminate.
Qed.

Lemma pdf_prompts_NoDup : NoDup (keys PdfFlow.prompts).
Proof.
  vm_compute. repeat constructor; simpl; intuition discriminate.
Qed.

(** A run of the image page: the endpoint fails for the second prompt
    only, whose entry is the null marker. *)
Example invoke_all_prompts_sample :
  prompt_results
    (session (snd (ImageFlow.invoke_all_prompts sample_workspace sample_sys)))
  = [(py "total_number_of_holes", PStr fenced_holes);
     (py "dowel_holds", PNone);
     (py "drill_dimensions", PStr fenced_holes)].
Proof. vm_compute. reflexivity. Qed.

(** C3: for every uploaded document and every dictionary of prompts,
    whatever the gateway answers, "Invoke All Prompts" returns without
    raising and leaves a batch whose keys are exactly the names of the
    prompts, in their order; the entry of a prompt is what the gateway
    returned for it, a text or, when the call failed, the null marker; in
    the image flow and in the PDF flow. *)
Theorem C3_invoke_all_one_entry_per_prompt :
  forall (w : WorkspaceClient) (imp : outcome unit) (P : dict str)
         (doc : bytes) (s : sys),
    NoDup (keys P) ->
    (uploaded_image_bytes (session s) = Some doc ->
     exists s',
       ImageFlow.invoke_all w P s = (Returned tt, s')
       /\ keys (prompt_results (session s')) = keys P
       /\ Forall2
            (fun kv np =>
               fst kv = fst np /\ raw_result (snd kv)
               /\ exists st st',
                   ImageFlow.extract_with_llm w (b64encode doc) (snd np) st
                   = (Returned (snd kv), st'))
            (prompt_results (session s')) P)
    /\ (uploaded_pdf_bytes (session s) = Some doc ->
        exists s',
          PdfFlow.invoke_all w imp P s = (Returned tt, s')
          /\ keys (prompt_results (session s')) = keys P
          /\ Forall2
               (fun kv np =>
                  fst kv = fst np /\ raw_result (snd kv)
                  /\ exists st st',
                      PdfFlow.extract_with_llm w imp (b64encode doc) (snd np) st
                      = (Returned (snd kv), st'))
               (prompt_results (session s')) P).
Proof.
  intros w imp P doc s Hnd. split; intros Hdoc.
  - destruct (image_invoke_all_spec w P doc s Hnd Hdoc) as (s' & H1 & H2 & _).
    exists s'. split; [exact H1|]. split; [|exact H2].
    apply (Forall2_keys _ _ _ H2).
  - destruct (pdf_invoke_all_spec w imp P doc s Hnd Hdoc)
      as (s' & H1 & H2 & _).
    exists s'. split; [exact H1|]. split; [|exact H2].
    apply (Forall2_keys _ _ _ H2).
Qed.

(** The prompts of the image page on the sample session and workspace. *)
Lemma C3_invoke_all_witness :
  exists s',
    ImageFlow.invoke_all sample_workspace ImageFlow.prompts sample_sys
    = (Returned tt, s')
    /\ keys (prompt_results (session s')) = keys ImageFlow.prompts
    /\ Forall2
         (fun kv np =>
            fst kv = fst np /\ raw_result (snd kv)
            /\ exists st st',
                ImageFlow.extract_with_llm sample_workspace
                  (b64encode [Byte.xff; Byte.xd8; Byte.xff]) (snd np) st
                = (Returned (snd kv), st'))
         (prompt_results (session s')) ImageFlow.prompts.
Proof.
  refine (proj1 (C3_invoke_all_one_entry_per_prompt sample_workspace
                   (Returned tt) ImageFlow.prompts
                   [Byte.xff; Byte.xd8; Byte.xff] sample_sys _) _).
  - vm_compute. repeat constructor; simpl; intuition discriminate.
  - reflexivity.
Defined.

(** C8: "Invoke All Prompts" replaces the previous batch in full: what it
    does and leaves on an uploaded document is the same whatever batch it
    found, and in the batch it leaves the keys are the names of the
    prompts, so that no name of the earlier batch that is not a prompt
    has an entry; in the image flow and in the PDF flow. *)
Theorem C8_invoke_all_replaces_previous_batch :
  forall (w : WorkspaceClient) (imp : outcome unit) (P : dict str)
         (doc : bytes) (old : dict pyval) (s : sys),
    NoDup (keys P) ->
    (uploaded_image_bytes (session s) = Some doc ->
     ImageFlow.invoke_all w P (with_results old s)
     = ImageFlow.invoke_all w P (with_results [] s)
     /\ exists s',
         ImageFlow.invoke_all w P (with_results old s) = (Returned tt, s')
         /\ keys (prompt_results (session s')) = keys P
         /\ forall k, ~ In k (keys P) ->
                      dict_get (prompt_results (session s')) k = None)
    /\ (uploaded_pdf_bytes (session s) = Some doc ->
        PdfFlow.invoke_all w imp P (with_results old s)
        = PdfFlow.invoke_all w imp P (with_results [] s)
        /\ exists s',
            PdfFlow.invoke_all w imp P (with_results old s) = (Returned tt, s')
            /\ keys (prompt_results (session s')) = keys P
            /\ forall k, ~ In k (keys P) ->
                         dict_get (prompt_results (session s')) k = None).
Proof.
  intros w imp P doc old s Hnd. split; intros Hdoc.
  - split; [apply (image_invoke_all_forgets w P doc), Hdoc|].
    destruct (image_invoke_all_spec w P doc (with_results old s) Hnd Hdoc)
      as (s' & H1 & H2 & _).
    apply Forall2_keys in H2.
    exists s'. repeat split; [exact H1 | exact H2 |].
    intros k Hk. apply dict_get_None. rewrite H2. exact Hk.
  - split; [apply (pdf_invoke_all_forgets w imp P doc), Hdoc|].
    destruct (pdf_invoke_all_spec w imp P doc (with_results old s) Hnd Hdoc)
      as (s' & H1 & H2 & _).
    apply Forall2_keys in H2.
    exists s'. repeat split; [exact H1 | exact H2 |].
    intros k Hk. apply dict_get_None. rewrite H2. exact Hk.
Qed.

(** The sample session holds a result under the name [stale]; after the
    prompts of the PDF page have run it is gone. *)
Lemma C8_invoke_all_witness :
  PdfFlow.invoke_all sample_workspace (Returned tt) PdfFlow.prompts
    (with_results [(py "stale", PStr (py "{}"))] sample_sys)
  = PdfFlow.invoke_all sample_workspace (Returned tt) PdfFlow.prompts
      (with_results [] sample_sys)
  /\ exists s',
      PdfFlow.invoke_all sample_workspace (Returned tt) PdfFlow.prompts
        (with_results [(py "stale", PStr (py "{}"))] sample_sys)
      = (Returned tt, s')
      /\ keys (prompt_results (session s')) = keys PdfFlow.prompts
      /\ forall k, ~ In k (keys PdfFlow.prompts) ->
                   dict_get (prompt_results (session s')) k = None.
Proof.
  refine (proj2 (C8_invoke_all_replaces_previous_batch sample_workspace
                   (Returned tt) PdfFlow.prompts
                   [Byte.x25; Byte.x50; Byte.x44]
                   [(py "stale", PStr (py "{}"))] sample_sys _) _).
  - vm_compute. repeat constructor; simpl; intuition discriminate.
  - reflexivity.
Defined.

(* ===================================================================== *)
(** * The reconciliation merger *)
(* ===================================================================== *)

(** The loop of "Combine All JSONs" returns; it stores under each name
    the normalized value of the result, and touches neither the session
    nor the external services. *)
Lemma image_combine_loop_spec (room : nat) (items : dict pyval) :
  forall (combined : dict pyval) (s : sys),
  exists sh,
    ImageFlow.combine_loop room items combined s
    = (Returned
         (fold_left
            (fun c kv =>
               dict_set c (fst kv) (ImageFlow.normalize room (snd kv)))
            items combined),
       {| session := session s; shown := sh; calls := calls s |}).
Proof.
  induction items as [|[name result] items IH]; intros combined s.
  - exists (shown s). destruct s; reflexivity.
  - cbn [ImageFlow.combine_loop fold_left fst snd].
    unfold ImageFlow.normalize, try_except, bind, lift, ret, show.
    destruct (ImageFlow.parse_result room result) as [parsed|e].
    + apply IH.
    + match goal with
      | |- context [ImageFlow.combine_loop room items ?c ?st] =>
          destruct (IH c st) as (sh & H)
      end.
      exists sh. exact H.
Qed.

Lemma pdf_combine_loop_spec (room : nat) (items : dict pyval) :
  forall (combined : dict pyval) (s : sys),
  exists sh,
    PdfFlow.combine_loop room items combined s
    = (Returned
         (fold_left
            (fun c kv => dict_set c (fst kv) (PdfFlow.normalize room (snd kv)))
            items combined),
       {| session := session s; shown := sh; calls := calls s |}).
Proof.
  induction items as [|[name result] items IH]; intros combined s.
  - exists (shown s). destruct s; reflexivity.
  - cbn [PdfFlow.combine_loop fold_left fst snd].
    unfold PdfFlow.normalize, try_except, bind, lift, ret.
    destruct (PdfFlow.parse_result room result) as [parsed|e]; apply IH.
Qed.

(** "Combine All JSONs" on a batch: the merged document holds, name by
    name and in order, the normalized values. *)
Lemma image_combine_spec (room : nat) (s : sys) :
  NoDup (keys (prompt_results (session s))) ->
  exists sh,
    ImageFlow.combine_all_jsons room s
    = (Returned tt,
       {| session :=
            set_final_json
              (PDict
                 (map (fun kv => (fst kv, ImageFlow.normalize room (snd kv)))
                    (prompt_results (session s))))
              (session s);
          shown := sh; calls := calls s |}).
Proof.
  intros Hnd. unfold ImageFlow.combine_all_jsons.
  unfold bind at 1, gets at 1.
  destruct (image_combine_loop_spec room (prompt_results (session s)) [] s)
    as (sh & Hloop).
  rewrite (bind_returned _ _ _ _ _ Hloop).
  rewrite fold_dict_set by exact Hnd.
  unfold bind, modify_session, show. cbn [app session shown calls].
  eexists. reflexivity.
Qed.

Lemma pdf_combine_spec (room : nat) (s : sys) :
  NoDup (keys (prompt_results (session s))) ->
  exists sh,
    PdfFlow.combine_all_jsons room s
    = (Returned tt,
       {| session :=
            set_final_json
              (PDict (map (fun kv => (fst kv, PdfFlow.normalize room (snd kv)))
                        (prompt_results (session s))))
              (session s);
          shown := sh; calls := calls s |}).
Proof.
  intros Hnd. unfold PdfFlow.combine_all_jsons.
  unfold bind at 1, gets at 1.
  destruct (pdf_combine_loop_spec room (prompt_results (session s)) [] s)
    as (sh & Hloop).
  rewrite (bind_returned _ _ _ _ _ Hloop).
  rewrite fold_dict_set by exact Hnd.
  unfold bind, modify_session, show. cbn [app session shown calls].
  eexists. reflexivity.
Qed.

Lemma image_normalize_fallback (room : nat) raw e :
  json_loads room (ImageFlow.cleaned raw) = Raised e ->
  ImageFlow.normalize room (PStr raw) = PStr raw.
Proof.
  intros H. unfold ImageFlow.normalize, ImageFlow.parse_result.
  rewrite H. reflexivity.
Qed.

Lemma pdf_normalize_fallback (room : nat) raw e :
  json_loads room raw = Raised e ->
  PdfFlow.normalize room (PStr raw) = PStr raw.
Proof.
  intros H. unfold PdfFlow.normalize, PdfFlow.parse_result.
  rewrite H. reflexivity.
Qed.

(** An answer of 4301 digits is a number for the JSON grammar, but [int]
    refuses it: the merger keeps the text, in the image flow with a
    warning. *)
Example combine_long_integer :
  ImageFlow.combine_all_jsons sample_room
    (batch_sys [(py "n", PStr (repeat 49%N 4301))])
  = (Returned tt,
     {| session :=
          set_final_json (PDict [(py "n", PStr (repeat 49%N 4301))])
            (set_prompt_results [(py "n", PStr (repeat 49%N 4301))]
               sample_session);
        shown :=
          [st_warning (py "n parse error: ") (digit_limit_error 4301);
           st_success (check_mark :: py " Combined all results!");
           st_json (PDict [(py "n", PStr (repeat 49%N 4301))])];
        calls := [] |})
  /\ final_json
       (session
          (snd (PdfFlow.combine_all_jsons sample_room
                  (batch_sys [(py "n", PStr (repeat 49%N 4301))]))))
     = PDict [(py "n", PStr (repeat 49%N 4301))].
Proof. vm_compute. split; reflexivity. Qed.

(** The merge of the sample batch: the fenced object is parsed, the null
    marker and the plain text are kept, and one warning is shown. *)
Example combine_sample_batch :
  ImageFlow.combine_all_jsons sample_room (batch_sys sample_batch)
  = (Returned tt,
     {| session :=
          set_final_json
            (PDict [(py "total_number_of_holes", holes_object);
                    (py "dowel_holds", PNone);
                    (py "drill_dimensions", PStr four_holes_text)])
            (set_prompt_results sample_batch sample_session);
        shown :=
          [st_warning (py "drill_dimensions parse error: ")
             (JSONDecodeError "Expecting value" 0);
           st_success (check_mark :: py " Combined all results!");
           st_json
             (PDict [(py "total_number_of_holes", holes_object);
                     (py "dowel_holds", PNone);
                     (py "drill_dimensions", PStr four_holes_text)])];
        calls := [] |}).
Proof. vm_compute. reflexivity. Qed.

(** C4: for every batch, whatever mixture of texts that parse, null
    markers and texts that do not parse it holds, "Combine All JSONs"
    returns without raising; the merged document has exactly one entry
    per result, under the same names in the same order, and an entry
    whose text does not parse is the text itself; in the image flow and
    in the PDF flow. *)
Theorem C4_combine_never_raises (room : nat) :
  forall s : sys,
    NoDup (keys (prompt_results (session s))) ->
    (exists s' combined,
        ImageFlow.combine_all_jsons room s = (Returned tt, s')
        /\ final_json (session s') = PDict combined
        /\ combined
           = map (fun kv => (fst kv, ImageFlow.normalize room (snd kv)))
               (prompt_results (session s))
        /\ keys combined = keys (prompt_results (session s))
        /\ length combined = length (prompt_results (session s))
        /\ forall name raw e,
            dict_get (prompt_results (session s)) name = Some (PStr raw) ->
            json_loads room (ImageFlow.cleaned raw) = Raised e ->
            dict_get combined name = Some (PStr raw))
    /\ (exists s' combined,
        PdfFlow.combine_all_jsons room s = (Returned tt, s')
        /\ final_json (session s') = PDict combined
        /\ combined
           = map (fun kv => (fst kv, PdfFlow.normalize room (snd kv)))
               (prompt_results (session s))
        /\ keys combined = keys (prompt_results (session s))
        /\ length combined = length (prompt_results (session s))
        /\ forall name raw e,
            dict_get (prompt_results (session s)) name = Some (PStr raw) ->
            json_loads room raw = Raised e ->
            dict_get combined name = Some (PStr raw)).
Proof.
  intros s Hnd. split.
  - destruct (image_combine_spec room s Hnd) as (sh & H).
    eexists _, _. split; [exact H|]. split; [reflexivity|].
    split; [reflexivity|]. split; [apply keys_map|].
    split; [apply length_map|].
    intros name raw e Hget Hraise. rewrite dict_get_map, Hget. simpl.
    rewrite (image_normalize_fallback room _ _ Hraise). reflexivity.
  - destruct (pdf_combine_spec room s Hnd) as (sh & H).
    eexists _, _. split; [exact H|]. split; [reflexivity|].
    split; [reflexivity|]. split; [apply keys_map|].
    split; [apply length_map|].
    intros name raw e Hget Hraise. rewrite dict_get_map, Hget. simpl.
    rewrite (pdf_normalize_fallback room _ _ Hraise). reflexivity.
Qed.

(** The sample batch in the image flow. *)
Lemma C4_combine_witness :
  exists s' combined,
    ImageFlow.combine_all_jsons sample_room (batch_sys sample_batch)
    = (Returned tt, s')
    /\ final_json (session s') = PDict combined
    /\ combined
       = map (fun kv => (fst kv, ImageFlow.normalize sample_room (snd kv)))
           (prompt_results (session (batch_sys sample_batch)))
    /\ keys combined = keys (prompt_results (session (batch_sys sample_batch)))
    /\ length combined
       = length (prompt_results (session (batch_sys sample_batch)))
    /\ forall name raw e,
        dict_get (prompt_results (session (batch_sys sample_batch))) name
        = Some (PStr raw) ->
        json_loads sample_room (ImageFlow.cleaned raw) = Raised e ->
        dict_get combined name = Some (PStr raw).
Proof.
  refine (proj1 (C4_combine_never_raises sample_room
                   (batch_sys sample_batch) _)).
  vm_compute. repeat constructor; simpl; intuition discriminate.
Defined.

(** C6: for every batch and every name whose result is the null marker
    (a gateway failure), the merged document has an entry under that
    name, and the entry is the null marker itself: the name is not
    dropped and the value is not the empty object. *)
Theorem C6_null_marker_is_carried_through (room : nat) :
  forall (s : sys) (name : str),
    NoDup (keys (prompt_results (session s))) ->
    dict_get (prompt_results (session s)) name = Some PNone ->
    exists s' combined,
      ImageFlow.combine_all_jsons room s = (Returned tt, s')
      /\ final_json (session s') = PDict combined
      /\ In name (keys combined)
      /\ dict_get combined name = Some PNone
      /\ dict_get combined name <> Some (PDict []).
Proof.
  intros s name Hnd Hget.
  destruct (image_combine_spec room s Hnd) as (sh & H).
  eexists _, _. split; [exact H|]. split; [reflexivity|].
  assert (G : dict_get
                (map (fun kv => (fst kv, ImageFlow.normalize room (snd kv)))
                   (prompt_results (session s))) name = Some PNone).
  { rewrite dict_get_map, Hget. reflexivity. }
  split.
  { apply dict_get_In in G. unfold keys.
    change name with (fst (name, PNone)). apply in_map. exact G. }
  split; [exact G | rewrite G; discriminate].
Qed.

(** Scenario C: the entry of [dowel_holds] in the sample batch. *)
Lemma C6_null_marker_witness :
  exists s' combined,
    ImageFlow.combine_all_jsons sample_room (batch_sys sample_batch)
    = (Returned tt, s')
    /\ final_json (session s') = PDict combined
    /\ In (py "dowel_holds") (keys combined)
    /\ dict_get combined (py "dowel_holds") = Some PNone
    /\ dict_get combined (py "dowel_holds") <> Some (PDict []).
Proof.
  refine (C6_null_marker_is_carried_through sample_room (batch_sys sample_batch)
            (py "dowel_holds") _ _).
  - vm_compute. repeat constructor; simpl; intuition discriminate.
  - reflexivity.
Defined.

(** C1: the answer of scenario A, a JSON object in a [json] code fence.
    "Combine All JSONs" of the image flow removes the fence and stores
    the object; that of the PDF flow hands the text to [json.loads] as it
    is, which raises, and stores the fenced text. *)
Theorem C1_pdf_flow_keeps_the_fence :
  forall room : nat,
    ImageFlow.parse_result (S room) (PStr fenced_holes) = Returned holes_object
    /\ ImageFlow.normalize (S room) (PStr fenced_holes) = holes_object
    /\ PdfFlow.parse_result (S (S room)) (PStr fenced_holes)
       = Raised (JSONDecodeError "Expecting value" 0)
    /\ PdfFlow.normalize room (PStr fenced_holes) = PStr fenced_holes
    /\ final_json
         (session
            (snd (ImageFlow.combine_all_jsons (S room)
                    (batch_sys [(py "Prompt 1", PStr fenced_holes)]))))
       = PDict [(py "Prompt 1", holes_object)]
    /\ final_json
         (session
            (snd (PdfFlow.combine_all_jsons room
                    (batch_sys [(py "Prompt 1", PStr fenced_holes)]))))
       = PDict [(py "Prompt 1", PStr fenced_holes)].
Proof.
  intros room. repeat split; try reflexivity;
    destruct room as [|[|room]]; reflexivity.
Qed.

(* ===================================================================== *)
(** * The response normalizer *)
(* ===================================================================== *)

(** A value that is not a text is stored as it is. *)
Lemma image_normalize_not_str (room : nat) v :
  isinstance_str v = false -> ImageFlow.normalize room v = v.
Proof. destruct v; try reflexivity. discriminate. Qed.

(** C7, as amended: for every result that is the null marker, or whose
    cleaned text does not parse (the textual fallback), or whose cleaned
    text parses to a JSON value that is not a string, normalizing the
    normalized value gives the normalized value. *)
Theorem C7_normalize_idempotent_unless_json_string (room : nat) :
  forall r : pyval,
    (forall t, ImageFlow.parse_result room r <> Returned (PStr t)) ->
    ImageFlow.normalize room (ImageFlow.normalize room r)
    = ImageFlow.normalize room r.
Proof.
  intros r H. destruct (ImageFlow.parse_result room r) as [parsed|e] eqn:E.
  - assert (N : ImageFlow.normalize room r = parsed)
      by (unfold ImageFlow.normalize; rewrite E; reflexivity).
    rewrite N. apply image_normalize_not_str.
    destruct parsed; try reflexivity. exfalso. apply (H s). reflexivity.
  - assert (N : ImageFlow.normalize room r = r)
      by (unfold ImageFlow.normalize; rewrite E; reflexivity).
    rewrite N. exact N.
Qed.

(** The fenced object of scenario A and the plain text of scenario B. *)
Lemma C7_normalize_idempotent_witness :
  ImageFlow.normalize sample_room
    (ImageFlow.normalize sample_room (PStr fenced_holes))
  = ImageFlow.normalize sample_room (PStr fenced_holes)
  /\ ImageFlow.normalize sample_room
       (ImageFlow.normalize sample_room (PStr four_holes_text))
     = ImageFlow.normalize sample_room (PStr four_holes_text).
Proof.
  split; apply C7_normalize_idempotent_unless_json_string;
    intros t H; vm_compute in H; discriminate H.
Defined.

(** C7, as stated, fails on the JSON string ["5"]: it normalizes to the
    text [5], and that text normalizes to the number 5. *)
Lemma C7_normalize_twice_differs :
  ImageFlow.normalize sample_room (PStr quoted_five) = PStr (py "5")
  /\ ImageFlow.normalize sample_room
       (ImageFlow.normalize sample_room (PStr quoted_five))
     = PInt 5.
Proof. vm_compute. split; reflexivity. Qed.

(* ===================================================================== *)
(** * Review and commit *)
(* ===================================================================== *)



(** C10: for every edited text that [json.loads] accepts, whatever the
    value it denotes (an object, an array, a number, a string, a
    constant), "Validate & Update" succeeds and the merged document
    becomes that value; in the image flow and in the PDF flow. *)
Theorem C10_any_json_value_is_committed (room : nat) :
  forall (s : sys) (edited_json : str) (parsed : pyval),
    json_loads room edited_json = Returned parsed ->
    ImageFlow.validate_and_update room edited_json s
    = (Returned tt,
       {| session := set_final_json parsed (session s);
          shown := shown s
                   ++ [st_success (check_mark :: py " Valid JSON updated!")];
          calls := calls s |})
    /\ PdfFlow.validate_and_update room edited_json s
       = (Returned tt,
          {| session := set_final_json parsed (session s);
             shown := shown s
                      ++ [st_success (check_mark :: py " Valid JSON updated!")];
             calls := calls s |}).
Proof.
  intros s edited_json parsed H.
  unfold ImageFlow.validate_and_update, PdfFlow.validate_and_update,
    try_except, bind, lift, show, modify_session.
  rewrite H. split; reflexivity.
Qed.

Example loads_scalar : json_loads sample_room (py "5") = Returned (PInt 5).
Proof. vm_compute. reflexivity. Qed.

Example validate_scalar :
  final_json
    (session
       (snd (ImageFlow.validate_and_update sample_room (py "5") sample_sys)))
  = PInt 5.
Proof. vm_compute. reflexivity. Qed.

(** The array [[1, 2]] replaces the object of the sample session. *)
Lemma C10_array_witness :
  ImageFlow.validate_and_update sample_room (py "[1, 2]") sample_sys
  = (Returned tt,
     {| session := set_final_json (PList [PInt 1; PInt 2]) (session sample_sys);
        shown := shown sample_sys
                 ++ [st_success (check_mark :: py " Valid JSON updated!")];
        calls := calls sample_sys |})
  /\ PdfFlow.validate_and_update sample_room (py "[1, 2]") sample_sys
     = (Returned tt,
        {| session :=
             set_final_json (PList [PInt 1; PInt 2]) (session sample_sys);
           shown := shown sample_sys
                    ++ [st_success (check_mark :: py " Valid JSON updated!")];
           calls := calls sample_sys |}).
Proof.
  apply C10_any_json_value_is_committed. vm_compute. reflexivity.
Defined.

(** Texts of the JSON grammar that the decoder refuses are not
    committed: an integer of 4301 digits, and arrays nested deeper than
    the recursion limit allows.  The merged document stays. *)
Example validate_long_integer :
  ImageFlow.validate_and_update sample_room (repeat 49%N 4301) sample_sys
  = (Returned tt,
     {| session := session sample_sys;
        shown := [st_error (py "Invalid JSON: ") (digit_limit_error 4301)];
        calls := [] |})
  /\ PdfFlow.validate_and_update sample_room (repeat 49%N 4301) sample_sys
     = (Returned tt,
        {| session := session sample_sys;
           shown := [st_error (py "Invalid JSON: ") (digit_limit_error 4301)];
           calls := [] |}).
Proof. vm_compute. split; reflexivity. Qed.

Example validate_deep_nesting :
  ImageFlow.validate_and_update sample_room
    (repeat 91%N 1500 ++ repeat 93%N 1500) sample_sys
  = (Returned tt,
     {| session := session sample_sys;
        shown := [st_error (py "Invalid JSON: ") RecursionError];
        calls := [] |})
  /\ PdfFlow.validate_and_update sample_room
       (repeat 91%N 1500 ++ repeat 93%N 1500) sample_sys
     = (Returned tt,
        {| session := session sample_sys;
           shown := [st_error (py "Invalid JSON: ") RecursionError];
           calls := [] |}).
Proof. vm_compute. split; reflexivity. Qed.

(* ===================================================================== *)
(** * The connection class of the scratch store *)
(* ===================================================================== *)

Section KwargsFacts.
Context {V : Type}.
Implicit Types (d : dict V) (k : str) (v : V).

Lemma dict_get_set_same d k v : dict_get (dict_set d k v) k = Some v.
Proof.
  induction d as [|[k' v'] d IH]; simpl.
  - rewrite str_eqb_refl. reflexivity.
  - destruct (str_eqb k k') eqn:E; simpl; rewrite E; [reflexivity | exact IH].
Qed.

Lemma dict_get_set_other d k k' v :
  k <> k' -> dict_get (dict_set d k v) k' = dict_get d k'.
Proof.
  intros Hne. induction d as [|[k0 v0] d IH]; simpl.
  - rewrite str_eqb_neq by (intros G; apply Hne; symmetry; exact G).
    reflexivity.
  - destruct (str_eqb k k0) eqn:E; simpl.
    + apply str_eqb_eq in E. subst k0.
      rewrite str_eqb_neq by (intros G; apply Hne; symmetry; exact G).
      reflexivity.
    + rewrite IH. reflexivity.
Qed.

Lemma dict_get_del_other d k k' :
  k <> k' -> dict_get (dict_del d k) k' = dict_get d k'.
Proof.
  intros Hne. induction d as [|[k0 v0] d IH]; simpl; [reflexivity|].
  destruct (str_eqb k k0) eqn:E; simpl.
  - apply str_eqb_eq in E. subst k0.
    rewrite str_eqb_neq by (intros G; apply Hne; symmetry; exact G).
    reflexivity.
  - rewrite IH. reflexivity.
Qed.

Lemma dict_get_del_same d k :
  NoDup (keys d) -> dict_get (dict_del d k) k = None.
Proof.
  induction d as [|[k0 v0] d IH]; simpl; intros Hnd; [reflexivity|].
  inversion Hnd as [|? ? Hnotin Hnd']; subst.
  destruct (str_eqb k k0) eqn:E; simpl.
  - apply str_eqb_eq in E. subst k0. apply dict_get_None. exact Hnotin.
  - rewrite E. apply IH. exact Hnd'.
Qed.
End KwargsFacts.

Lemma setdefault_get (d : dict str) (k v : str) :
  dict_get (Oltp.setdefault d k v) k
  = Some (match dict_get d k with Some x => x | None => v end).
Proof.
  unfold Oltp.setdefault. destruct (dict_get d k) eqn:E.
  - exact E.
  - apply dict_get_set_same.
Qed.

Lemma setdefault_get_other (d : dict str) (k k' v : str) :
  k <> k' -> dict_get (Oltp.setdefault d k v) k' = dict_get d k'.
Proof.
  intros Hne. unfold Oltp.setdefault. destruct (dict_get d k).
  - reflexivity.
  - apply dict_get_set_other. exact Hne.
Qed.

(** What [connect] does when the credential service answers. *)
Lemma connect_run w uuid4 handshake conninfo (kwargs : dict str)
      (instance_name token : str) (s : sys) :
  dict_get kwargs (py "_instance_name") = Some instance_name ->
  generate_database_credential w (S (length (calls s)))
    (uuid4 (length (calls s))) [instance_name] = Returned token ->
  Oltp.connect w uuid4 handshake conninfo kwargs s
  = (handshake (S (S (length (calls s)))) conninfo
       (Oltp.setdefault
          (dict_set (dict_del kwargs (py "_instance_name"))
             (py "password") token)
          (py "sslmode") (py "require")),
     {| session := session s; shown := shown s;
        calls :=
          calls s
          ++ [call_uuid4;
              call_generate_database_credential
                (uuid4 (length (calls s))) [instance_name];
              call_psycopg_connect conninfo
                (Oltp.setdefault
                   (dict_set (dict_del kwargs (py "_instance_name"))
                      (py "password") token)
                   (py "sslmode") (py "require"))] |}).
Proof.
  intros Hget Hcred.
  unfold Oltp.connect, Oltp.generate_token, Oltp.pop, bind, lift, external.
  rewrite Hget. cbn [fst snd session shown calls].
  rewrite length_app, Nat.add_comm. cbn [length Nat.add].
  rewrite Hcred. cbn [session shown calls].
  rewrite <- !app_assoc. cbn [app]. rewrite length_app. cbn [length].
  replace (length (calls s) + 2) with (S (S (length (calls s)))) by lia.
  reflexivity.
Qed.

(** C9: every call of [RotatingTokenConnection.connect], and so every new
    physical connection of the pool of [build_pool], draws a request
    identifier, asks the credential service for a credential for that
    identifier and the named instance, and only then makes the handshake,
    with the token of that credential as the password (whatever password
    the caller gave), without the [_instance_name] entry, and with
    [sslmode] set to [require] unless the caller gave one; the pool gives
    none, so its connections have [sslmode=require]. *)
Theorem C9_connect_mints_credential_before_handshake :
  forall (w : WorkspaceClient) (uuid4 : nat -> str)
         (handshake : nat -> str -> dict str -> outcome nat) (s : sys),
    (forall (conninfo : str) (kwargs : dict str)
            (instance_name token : str),
        NoDup (keys kwargs) ->
        dict_get kwargs (py "_instance_name") = Some instance_name ->
        generate_database_credential w (S (length (calls s)))
          (uuid4 (length (calls s))) [instance_name] = Returned token ->
        exists kwargs',
          Oltp.connect w uuid4 handshake conninfo kwargs s
          = (handshake (S (S (length (calls s)))) conninfo kwargs',
             {| session := session s; shown := shown s;
                calls :=
                  calls s
                  ++ [call_uuid4;
                      call_generate_database_credential
                        (uuid4 (length (calls s))) [instance_name];
                      call_psycopg_connect conninfo kwargs'] |})
          /\ dict_get kwargs' (py "password") = Some token
          /\ dict_get kwargs' (py "sslmode")
             = Some (match dict_get kwargs (py "sslmode") with
                     | Some mode => mode
                     | None => py "require"
                     end)
          /\ dict_get kwargs' (py "_instance_name") = None)
    /\ (forall (instance_name host user database token : str),
        generate_database_credential w (S (length (calls s)))
          (uuid4 (length (calls s))) [instance_name] = Returned token ->
        let pool := Oltp.build_pool instance_name host user database in
        let kwargs' := [(py "password", token); (py "sslmode", py "require")] in
        Oltp.new_connection w uuid4 handshake pool s
        = (handshake (S (S (length (calls s)))) (Oltp.conninfo pool) kwargs',
           {| session := session s; shown := shown s;
              calls :=
                calls s
                ++ [call_uuid4;
                    call_generate_database_credential
                      (uuid4 (length (calls s))) [instance_name];
                    call_psycopg_connect (Oltp.conninfo pool) kwargs'] |}))
    /\ (forall (conninfo : str) (kwargs : dict str) (instance_name : str)
               (e : exn),
        dict_get kwargs (py "_instance_name") = Some instance_name ->
        generate_database_credential w (S (length (calls s)))
          (uuid4 (length (calls s))) [instance_name] = Raised e ->
        Oltp.connect w uuid4 handshake conninfo kwargs s
        = (Raised e,
           {| session := session s; shown := shown s;
              calls :=
                calls s
                ++ [call_uuid4;
                    call_generate_database_credential
                      (uuid4 (length (calls s))) [instance_name]] |})).
Proof.
  intros w uuid4 handshake s. split; [|split].
  - intros conninfo kwargs instance_name token Hnd Hget Hcred.
    eexists. split; [apply (connect_run _ _ _ _ _ _ _ _ Hget Hcred)|].
    assert (Hps : py "password" <> py "sslmode") by (vm_compute; discriminate).
    assert (Hsp : py "sslmode" <> py "password") by (vm_compute; discriminate).
    assert (Hpi : py "password" <> py "_instance_name")
      by (vm_compute; discriminate).
    assert (Hsi : py "sslmode" <> py "_instance_name")
      by (vm_compute; discriminate).
    assert (His : py "_instance_name" <> py "sslmode")
      by (vm_compute; discriminate).
    split; [|split].
    + rewrite setdefault_get_other by exact Hsp. apply dict_get_set_same.
    + rewrite setdefault_get.
      rewrite dict_get_set_other by exact Hps.
      rewrite dict_get_del_other by exact His. reflexivity.
    + rewrite setdefault_get_other by exact Hsi.
      rewrite dict_get_set_other by exact Hpi.
      apply dict_get_del_same. exact Hnd.
  - intros instance_name host user database token Hcred pool kwargs'.
    unfold Oltp.new_connection.
    rewrite (connect_run w uuid4 handshake (Oltp.conninfo pool)
               (Oltp.kwargs pool) instance_name token s);
      [reflexivity | reflexivity | exact Hcred].
  - intros conninfo kwargs instance_name e Hget Hcred.
    unfold Oltp.connect, Oltp.generate_token, Oltp.pop, bind, lift, external.
    rewrite Hget. cbn [fst snd session shown calls].
    rewrite length_app, Nat.add_comm. cbn [length Nat.add].
    rewrite Hcred. cbn [session shown calls].
    rewrite <- !app_assoc. reflexivity.
Qed.

(** A new connection of a pool: the handshake carries the token minted
    for it, under the request identifier drawn for it. *)
Lemma C9_pool_witness :
  Oltp.new_connection sample_workspace sample_uuid4 sample_handshake
    (Oltp.build_pool (py "db") (py "h") (py "u") (py "databricks_postgres"))
    sample_sys
  = (Returned 2,
     {| session := sample_session; shown := [];
        calls :=
          [call_uuid4;
           call_generate_database_credential (py "uuid-" ++ [0%N]) [py "db"];
           call_psycopg_connect
             (py "host=h dbname=databricks_postgres user=u")
             [(py "password", py "token-" ++ [1%N]);
              (py "sslmode", py "require")]] |}).
Proof.
  exact (proj1 (proj2 (C9_connect_mints_credential_before_handshake
                         sample_workspace sample_uuid4 sample_handshake
                         sample_sys))
           (py "db") (py "h") (py "u") (py "databricks_postgres")
           (py "token-" ++ [1%N]) eq_refl).
Defined.

(* ===================================================================== *)
(** * Code fences in the image flow *)
(* ===================================================================== *)

Lemma lstrip_spaces_app (lead s : str) :
  forallb isspace lead = true -> lstrip (lead ++ s) = lstrip s.
Proof.
  induction lead as [|c lead IH]; simpl; [reflexivity|].
  intros H. apply andb_true_iff in H. destruct H as [Hc Hl].
  rewrite Hc. apply IH, Hl.
Qed.

Lemma lstrip_head (c : N) (s : str) :
  isspace c = false -> lstrip (c :: s) = c :: s.
Proof. intros H. simpl. rewrite H. reflexivity. Qed.

Lemma forallb_rev {A} (f : A -> bool) (l : list A) :
  forallb f l = true -> forallb f (rev l) = true.
Proof.
  rewrite !forallb_forall. intros H x Hx. apply H, in_rev, Hx.
Qed.

Lemma rstrip_app_spaces (s trail : str) :
  forallb isspace trail = true -> rstrip (s ++ trail) = rstrip s.
Proof.
  intros H. unfold rstrip. rewrite rev_app_distr.
  rewrite lstrip_spaces_app by (apply forallb_rev, H). reflexivity.
Qed.

Lemma rstrip_last (s : str) (c : N) :
  isspace c = false -> rstrip (s ++ [c]) = s ++ [c].
Proof.
  intros H. unfold rstrip. rewrite rev_app_distr. simpl rev at 2.
  simpl app. rewrite lstrip_head by exact H.
  change (c :: rev s) with ([c] ++ rev s).
  rewrite rev_app_distr, rev_involutive. reflexivity.
Qed.

Lemma startswith_app (p s : str) : startswith (p ++ s) p = true.
Proof.
  induction p as [|x p IH]; simpl; [reflexivity|].
  rewrite N.eqb_refl. exact IH.
Qed.

Lemma slice_from_app (p s : str) : slice_from (length p) (p ++ s) = s.
Proof. induction p as [|x p IH]; simpl; [reflexivity | exact IH]. Qed.

Lemma endswith_app (s p : str) : endswith (s ++ p) p = true.
Proof. unfold endswith. rewrite rev_app_distr. apply startswith_app. Qed.

Lemma slice_drop_last_app (s p : str) :
  slice_drop_last (length p) (s ++ p) = s.
Proof.
  unfold slice_drop_last. rewrite length_app, Nat.add_sub.
  rewrite firstn_app, Nat.sub_diag, firstn_all. simpl.
  apply app_nil_r.
Qed.

(** The slices of [cleaned]. *)
Lemma drop_json_fence (s : str) : slice_from 7 (py "```json" ++ s) = s.
Proof. exact (slice_from_app (py "```json") s). Qed.

Lemma drop_plain_fence (s : str) : slice_from 3 (py "```" ++ s) = s.
Proof. exact (slice_from_app (py "```") s). Qed.

Lemma drop_closing_fence (s : str) : slice_drop_last 3 (s ++ py "```") = s.
Proof. exact (slice_drop_last_app s (py "```")). Qed.

(** Trimming a text that begins and ends with a backquote and stands
    between white space. *)
Lemma strip_between (lead mid trail : str) :
  forallb isspace lead = true -> forallb isspace trail = true ->
  strip (lead ++ (96%N :: mid ++ [96%N]) ++ trail) = 96%N :: mid ++ [96%N].
Proof.
  intros Hl Ht. unfold strip.
  rewrite lstrip_spaces_app by exact Hl.
  change ((96%N :: mid ++ [96%N]) ++ trail)
    with (96%N :: (mid ++ [96%N]) ++ trail).
  rewrite lstrip_head by reflexivity.
  change (96%N :: (mid ++ [96%N]) ++ trail)
    with ((96%N :: mid ++ [96%N]) ++ trail).
  rewrite rstrip_app_spaces by exact Ht.
  change (96%N :: mid ++ [96%N]) with ((96%N :: mid) ++ [96%N]).
  apply rstrip_last. reflexivity.
Qed.

(** The last three steps of [cleaned] on a body followed by the closing
    fence, when the body does not itself begin with a fence. *)
Lemma cleaned_tail (body : str) :
  startswith body (py "```") = false ->
  strip
    (let c := body ++ py "```" in
     let c := if startswith c (py "```") then slice_from 3 c else c in
     if endswith c (py "```") then slice_drop_last 3 c else c)
  = strip body.
Proof.
  intros Hb. cbv zeta.
  destruct (startswith (body ++ py "```") (py "```")) eqn:E.
  - change (py "```") with [96; 96; 96]%N in E, Hb.
    destruct body as [|a [|b [|c r]]]; cbn [app startswith] in E, Hb.
    + reflexivity.
    + apply andb_true_iff in E. destruct E as [Ea _].
      apply N.eqb_eq in Ea. subst a. reflexivity.
    + apply andb_true_iff in E. destruct E as [Ea E].
      apply andb_true_iff in E. destruct E as [Eb _].
      apply N.eqb_eq in Ea, Eb. subst a b. reflexivity.
    + rewrite E in Hb. discriminate Hb.
  - rewrite (endswith_app body (py "```")).
    rewrite drop_closing_fence. reflexivity.
Qed.

(** A body that does not begin with [json], followed by the closing
    fence, does not begin with [json] either. *)
Lemma no_json_tag (body : str) :
  startswith body (py "json") = false ->
  startswith (body ++ py "```") (py "json") = false.
Proof.
  intros Hb.
  change (py "json") with [106; 115; 111; 110]%N in *.
  change (py "```") with [96; 96; 96]%N.
  destruct body as [|a [|b [|c [|d r]]]]; cbn [app startswith] in Hb |- *;
    [ reflexivity
    | destruct (106 =? a)%N; reflexivity
    | destruct (106 =? a)%N, (115 =? b)%N; reflexivity
    | destruct (106 =? a)%N, (115 =? b)%N, (111 =? c)%N; reflexivity
    | exact Hb ].
Qed.

Lemma fence_ends (mid : str) :
  py "```" ++ mid ++ py "```" = 96%N :: (py "``" ++ mid ++ py "``") ++ [96%N].
Proof.
  change (py "```") with [96; 96; 96]%N. change (py "``") with [96; 96]%N.
  cbn [app]. rewrite <- !app_assoc. reflexivity.
Qed.

(** The cleaned text of a body in a [json] fence, between white space. *)
Lemma cleaned_json_fence (lead body trail : str) :
  forallb isspace lead = true -> forallb isspace trail = true ->
  startswith body (py "```") = false ->
  ImageFlow.cleaned (lead ++ (py "```json" ++ body ++ py "```") ++ trail)
  = strip body.
Proof.
  intros Hl Ht Hb. unfold ImageFlow.cleaned.
  change (py "```json" ++ body ++ py "```")
    with (py "```" ++ (py "json" ++ body) ++ py "```").
  rewrite fence_ends, strip_between by assumption.
  rewrite <- fence_ends.
  change (py "```" ++ (py "json" ++ body) ++ py "```")
    with (py "```json" ++ body ++ py "```").
  rewrite startswith_app.
  rewrite drop_json_fence.
  apply cleaned_tail, Hb.
Qed.

(** The cleaned text of a body in a plain fence, between white space. *)
Lemma cleaned_plain_fence_body (lead body trail : str) :
  forallb isspace lead = true -> forallb isspace trail = true ->
  startswith body (py "json") = false ->
  ImageFlow.cleaned (lead ++ (py "```" ++ body ++ py "```") ++ trail)
  = strip body.
Proof.
  intros Hl Ht Hb. unfold ImageFlow.cleaned.
  rewrite fence_ends, strip_between by assumption.
  rewrite <- fence_ends.
  replace (startswith (py "```" ++ body ++ py "```") (py "```json"))
    with false.
  - rewrite startswith_app.
    rewrite drop_plain_fence.
    rewrite (endswith_app body (py "```")).
    rewrite drop_closing_fence. reflexivity.
  - symmetry. apply (no_json_tag body) in Hb.
    change (py "```json") with ([96; 96; 96]%N ++ py "json").
    change (py "```") with [96; 96; 96]%N.
    cbn [app startswith]. rewrite !N.eqb_refl. exact Hb.
Qed.

(** X1: in the image flow, for every answer made of a body between a
    leading [```json] fence (the body not itself beginning with a fence)
    or a leading plain fence (the body not beginning with [json]) and a
    closing fence, with any white space around the fences, the text
    handed to [json.loads] is the body with its surrounding white space
    trimmed. *)
Theorem X1_image_flow_strips_fences (room : nat) :
  forall lead body trail : str,
    forallb isspace lead = true ->
    forallb isspace trail = true ->
    (startswith body (py "```") = false ->
     ImageFlow.parse_result room
       (PStr (lead ++ (py "```json" ++ body ++ py "```") ++ trail))
     = json_loads room (strip body))
    /\ (startswith body (py "json") = false ->
        ImageFlow.parse_result room
          (PStr (lead ++ (py "```" ++ body ++ py "```") ++ trail))
        = json_loads room (strip body)).
Proof.
  intros lead body trail Hl Ht. split; intros Hb; cbn [ImageFlow.parse_result].
  - rewrite cleaned_json_fence by assumption. reflexivity.
  - rewrite cleaned_plain_fence_body by assumption. reflexivity.
Qed.

(** Scenario A with blanks around the fences. *)
Lemma X1_fenced_holes_witness :
  ImageFlow.parse_result sample_room
    (PStr (py "  "
           ++ (py "```json"
               ++ ([nl] ++ py "{" ++ [dq] ++ py "holes" ++ [dq] ++ py ": 4}"
                   ++ [nl])
               ++ py "```")
           ++ [nl]))
  = json_loads sample_room
      (strip ([nl] ++ py "{" ++ [dq] ++ py "holes" ++ [dq] ++ py ": 4}"
              ++ [nl])).
Proof.
  refine (proj1 (X1_image_flow_strips_fences sample_room (py "  ") _ [nl]
                   _ _) _);
    reflexivity.
Defined.

(** Two new connections of a pool, one after the other: each handshake
    carries the token minted for it under its own request identifier. *)
Example two_connections_two_tokens :
  calls
    (snd ((_ <- Oltp.new_connection sample_workspace sample_uuid4
                  sample_handshake
                  (Oltp.build_pool (py "db") (py "h") (py "u") (py "d")) ;;
           Oltp.new_connection sample_workspace sample_uuid4
             sample_handshake
             (Oltp.build_pool (py "db") (py "h") (py "u") (py "d")))
            sample_sys))
  = [call_uuid4;
     call_generate_database_credential (py "uuid-" ++ [0%N]) [py "db"];
     call_psycopg_connect (py "host=h dbname=d user=u")
       [(py "password", py "token-" ++ [1%N]); (py "sslmode", py "require")];
     call_uuid4;
     call_generate_database_credential (py "uuid-" ++ [3%N]) [py "db"];
     call_psycopg_connect (py "host=h dbname=d user=u")
       [(py "password", py "token-" ++ [4%N]); (py "sslmode", py "require")]].
Proof. vm_compute. reflexivity. Qed.

(* ===================================================================== *)
(** * Answers without a fence *)
(* ===================================================================== *)

Lemma lstrip_head_cases (s : str) :
  lstrip s = [] \/ exists c r, lstrip s = c :: r /\ isspace c = false.
Proof.
  induction s as [|c s IH]; simpl; [left; reflexivity|].
  destruct (isspace c) eqn:E; [exact IH|].
  right. exists c, s. split; [reflexivity | exact E].
Qed.

Lemma lstrip_idem (s : str) : lstrip (lstrip s) = lstrip s.
Proof.
  destruct (lstrip_head_cases s) as [H | (c & r & H & Hc)]; rewrite H.
  - reflexivity.
  - apply lstrip_head, Hc.
Qed.

Lemma lstrip_app_last (a : str) (c : N) :
  isspace c = false -> exists w, lstrip (a ++ [c]) = w ++ [c].
Proof.
  intros Hc. induction a as [|x a IH]; simpl.
  - rewrite Hc. exists []. reflexivity.
  - destruct (isspace x); [exact IH|]. exists (x :: a). reflexivity.
Qed.

Lemma rstrip_idem (s : str) : rstrip (rstrip s) = rstrip s.
Proof.
  unfold rstrip. rewrite rev_involutive, lstrip_idem. reflexivity.
Qed.

(** Trimming on the right keeps a text trimmed on the left. *)
Lemma lstrip_rstrip_lstrip (s : str) :
  lstrip (rstrip (lstrip s)) = rstrip (lstrip s).
Proof.
  destruct (lstrip_head_cases s) as [H | (c & r & H & Hc)]; rewrite H.
  - reflexivity.
  - unfold rstrip. change (rev (c :: r)) with (rev r ++ [c]).
    destruct (lstrip_app_last (rev r) c Hc) as (w & Hw). rewrite Hw.
    rewrite rev_app_distr. simpl. rewrite Hc. reflexivity.
Qed.

Lemma strip_idem (s : str) : strip (strip s) = strip s.
Proof.
  unfold strip. rewrite lstrip_rstrip_lstrip. apply rstrip_idem.
Qed.

Lemma startswith_app_l (s p q : str) :
  startswith s (p ++ q) = true -> startswith s p = true.
Proof.
  revert s; induction p as [|x p IH]; intros s H; [reflexivity|].
  destruct s as [|y s]; simpl in *; [discriminate|].
  apply andb_true_iff in H. destruct H as [H1 H2].
  rewrite H1. apply IH, H2.
Qed.

(** A text that, once trimmed, neither begins nor ends with a fence is
    handed to [json.loads] trimmed and otherwise untouched. *)
Lemma cleaned_unfenced (t : str) :
  startswith (strip t) (py "```") = false ->
  endswith (strip t) (py "```") = false ->
  ImageFlow.cleaned t = strip t.
Proof.
  intros Hs He. unfold ImageFlow.cleaned.
  destruct (startswith (strip t) (py "```json")) eqn:E.
  - apply (startswith_app_l (strip t) (py "```") (py "json")) in E.
    rewrite E in Hs. discriminate Hs.
  - rewrite Hs, He. apply strip_idem.
Qed.

(** X2: the text that the image flow hands to [json.loads] never begins
    or ends with white space; and an answer that, once trimmed, neither
    begins nor ends with a fence is handed over trimmed and otherwise
    untouched. *)
Theorem X2_image_flow_plain_answer (room : nat) :
  forall t : str,
    strip (ImageFlow.cleaned t) = ImageFlow.cleaned t
    /\ (startswith (strip t) (py "```") = false ->
        endswith (strip t) (py "```") = false ->
        ImageFlow.cleaned t = strip t
        /\ ImageFlow.parse_result room (PStr t) = json_loads room (strip t)).
Proof.
  intros t. split.
  - unfold ImageFlow.cleaned. cbv zeta. apply strip_idem.
  - intros Hs He. pose proof (cleaned_unfenced t Hs He) as C.
    split; [exact C|]. cbn [ImageFlow.parse_result]. rewrite C. reflexivity.
Qed.

(** The answer of scenario B. *)
Lemma X2_plain_answer_witness :
  ImageFlow.cleaned (py "  four holes, see drawing ")
  = strip (py "  four holes, see drawing ")
  /\ ImageFlow.parse_result sample_room (PStr (py "  four holes, see drawing "))
     = json_loads sample_room (strip (py "  four holes, see drawing ")).
Proof.
  apply (proj2 (X2_image_flow_plain_answer sample_room
                  (py "  four holes, see drawing ")));
    reflexivity.
Defined.

(* ===================================================================== *)
(** * Names and links *)
(* ===================================================================== *)

Lemma before_last_none (sep : N) (s : str) :
  ~ In sep s -> before_last sep s = None.
Proof.
  induction s as [|c s IH]; simpl; intros H; [reflexivity|].
  rewrite IH by (intros G; apply H; right; exact G).
  destruct (N.eqb_spec c sep); [|reflexivity].
  exfalso. apply H. left. assumption.
Qed.

Lemma before_last_app (sep : N) (base ext : str) :
  ~ In sep ext -> before_last sep (base ++ sep :: ext) = Some base.
Proof.
  intros H. induction base as [|c base IH]; simpl.
  - rewrite (before_last_none sep ext H), N.eqb_refl. reflexivity.
  - rewrite IH. reflexivity.
Qed.

(** X3: the name proposed by the image page for the saved file is the
    uploaded name cut at its last point, followed by [_extracted.json];
    an uploaded name without a point is kept whole, and without an
    uploaded name the proposal is [extracted_fields.json]. *)
Theorem X3_image_default_name :
  forall base ext name : str,
    ~ In 46%N ext ->
    ~ In 46%N name ->
    name <> [] ->
    Pages.image_default_name (Some (base ++ 46%N :: ext))
    = base ++ py "_extracted.json"
    /\ Pages.image_default_name (Some name) = name ++ py "_extracted.json"
    /\ Pages.image_default_name None = py "extracted_fields.json"
    /\ Pages.image_default_name (Some []) = py "extracted_fields.json".
Proof.
  intros base ext name Hext Hname Hne. repeat split.
  - unfold Pages.image_default_name, rsplit1_head.
    destruct (base ++ 46%N :: ext) as [|c r] eqn:E.
    + destruct base; discriminate E.
    + rewrite <- E. rewrite before_last_app by exact Hext. reflexivity.
  - unfold Pages.image_default_name, rsplit1_head.
    destruct name as [|c r]; [contradiction|].
    rewrite before_last_none by exact Hname. reflexivity.
Qed.

(** A drawing with two points in its name, and a name without any. *)
Lemma X3_image_default_name_witness :
  Pages.image_default_name (Some (py "plate.v2" ++ 46%N :: py "png"))
  = py "plate.v2" ++ py "_extracted.json"
  /\ Pages.image_default_name (Some (py "scan")) = py "scan" ++ py "_extracted.json"
  /\ Pages.image_default_name None = py "extracted_fields.json"
  /\ Pages.image_default_name (Some []) = py "extracted_fields.json".
Proof.
  apply X3_image_default_name.
  - vm_compute. intuition discriminate.
  - vm_compute. intuition discriminate.
  - discriminate.
Defined.

Lemma startswith_nil (s : str) : startswith s [] = true.
Proof. destruct s; reflexivity. Qed.

(** A text in which [old] does not occur is left as it is. *)
Lemma replace_from_absent (old new s : str) :
  occurs old s = false -> replace_from old new 0 s = s.
Proof.
  induction s as [|c s IH]; [reflexivity|].
  intros H. cbn [occurs] in H. apply orb_false_iff in H. destruct H as [H1 H2].
  cbn [replace_from]. rewrite H1, IH by exact H2. reflexivity.
Qed.

(** Passing over the rest of an occurrence. *)
Lemma replace_from_skip (old new pre s : str) :
  replace_from old new (length pre) (pre ++ s) = replace_from old new 0 s.
Proof.
  induction pre as [|c pre IH]; [reflexivity|].
  destruct s; cbn [length app replace_from]; exact IH.
Qed.

Lemma startswith_dot_false (c : N) (s rest : str) :
  c <> 46%N -> startswith (c :: s) (46%N :: rest) = false.
Proof.
  intros H. cbn [startswith].
  destruct (N.eqb_spec 46 c) as [E|E]; [|reflexivity].
  exfalso. apply H. symmetry. exact E.
Qed.

Lemma startswith_pdf_false (c : N) (s : str) :
  c <> 46%N -> startswith (c :: s) (py ".pdf") = false.
Proof. apply startswith_dot_false. Qed.

(** In front of a first [.pdf] that follows a text without a point, the
    text is kept and the [.pdf] replaced. *)
Lemma replace_pdf_app (new a s : str) :
  ~ In 46%N a ->
  replace_from (py ".pdf") new 0 (a ++ py ".pdf" ++ s)
  = a ++ new ++ replace_from (py ".pdf") new 0 s.
Proof.
  intros Ha. induction a as [|c a IH].
  - cbn [app]. change (py ".pdf" ++ s) with (46%N :: py "pdf" ++ s).
    cbn [replace_from].
    change (46%N :: py "pdf" ++ s) with (py ".pdf" ++ s).
    rewrite startswith_app.
    change (length (py ".pdf") - 1) with (length (py "pdf")).
    rewrite replace_from_skip. reflexivity.
  - cbn [app replace_from].
    rewrite startswith_pdf_false by (intros E; apply Ha; left; exact E).
    rewrite IH by (intros G; apply Ha; right; exact G). reflexivity.
Qed.

Lemma pdf_default_name_some (name : str) :
  name <> [] ->
  Pages.pdf_default_name (Some name)
  = replace_from (py ".pdf") [] 0 name ++ py "_extracted.json".
Proof. destruct name; [contradiction | reflexivity]. Qed.

(** X4: the name proposed by the PDF page is the uploaded name with
    every [.pdf] in it removed, not only a final one, followed by
    [_extracted.json]: for texts [a] and [b] without a point, the names
    [a.pdf] and [a.pdfb.pdf] give [a] and [ab]; a name in which [.pdf]
    does not occur (an upper-case extension, say) is kept whole. *)
Theorem X4_pdf_default_name :
  forall a b name : str,
    ~ In 46%N a ->
    ~ In 46%N b ->
    occurs (py ".pdf") name = false ->
    name <> [] ->
    Pages.pdf_default_name (Some (a ++ py ".pdf"))
    = a ++ py "_extracted.json"
    /\ Pages.pdf_default_name (Some (a ++ py ".pdf" ++ b ++ py ".pdf"))
       = a ++ b ++ py "_extracted.json"
    /\ Pages.pdf_default_name (Some name) = name ++ py "_extracted.json"
    /\ Pages.pdf_default_name None = py "extracted_fields.json".
Proof.
  intros a b name Ha Hb Hname Hne. repeat split.
  - rewrite pdf_default_name_some by (destruct a; discriminate).
    rewrite <- (app_nil_r (py ".pdf")) at 2.
    rewrite replace_pdf_app by exact Ha. cbn [replace_from app].
    rewrite app_nil_r. reflexivity.
  - rewrite pdf_default_name_some by (destruct a; discriminate).
    rewrite replace_pdf_app by exact Ha.
    rewrite <- (app_nil_r (py ".pdf")) at 2.
    rewrite replace_pdf_app by exact Hb. cbn [replace_from app].
    rewrite app_nil_r, <- app_assoc. reflexivity.
  - rewrite pdf_default_name_some by exact Hne.
    rewrite replace_from_absent by exact Hname. reflexivity.
Qed.

(** The names [plan.pdf], [plan.pdf_old.pdf] and [PLAN.PDF]. *)
Lemma X4_pdf_default_name_witness :
  Pages.pdf_default_name (Some (py "plan" ++ py ".pdf"))
  = py "plan" ++ py "_extracted.json"
  /\ Pages.pdf_default_name (Some (py "plan" ++ py ".pdf" ++ py "_old" ++ py ".pdf"))
     = py "plan" ++ py "_old" ++ py "_extracted.json"
  /\ Pages.pdf_default_name (Some (py "PLAN.PDF"))
     = py "PLAN.PDF" ++ py "_extracted.json"
  /\ Pages.pdf_default_name None = py "extracted_fields.json".
Proof.
  apply X4_pdf_default_name.
  - vm_compute. intuition discriminate.
  - vm_compute. intuition discriminate.
  - reflexivity.
  - discriminate.
Defined.

(** X5: for a workspace host given as [https://] followed by a text in
    which [https://] does not occur again, the image page drops the
    scheme, so that the link it shows to the volume has the scheme once;
    a host in which [https://] does not occur is used as it is, and
    without a host the link has an empty host. *)
Theorem X5_image_volume_link :
  forall h : str,
    occurs (py "https://") h = false ->
    Pages.image_databricks_host (Some (py "https://" ++ h)) = h
    /\ Pages.volume_url (Pages.image_databricks_host (Some (py "https://" ++ h)))
       = py "https://" ++ h ++ py "/explore/data/volumes/jywu/multimodal/test"
    /\ Pages.image_databricks_host (Some h) = h
    /\ Pages.image_databricks_host None = [].
Proof.
  intros h Hh.
  assert (E : Pages.image_databricks_host (Some (py "https://" ++ h)) = h).
  { change (Pages.image_databricks_host (Some (py "https://" ++ h)))
      with (replace_from (py "https://") [] 0 (py "https://" ++ h)).
    change (py "https://" ++ h) with (104%N :: py "ttps://" ++ h).
    cbn [replace_from].
    change (104%N :: py "ttps://" ++ h) with (py "https://" ++ h).
    rewrite startswith_app.
    change (length (py "https://") - 1) with (length (py "ttps://")).
    rewrite replace_from_skip. cbn [app].
    apply replace_from_absent, Hh. }
  split; [exact E|]. split; [rewrite E; reflexivity|]. split; [|reflexivity].
  destruct h as [|c h]; [reflexivity|].
  change (Pages.image_databricks_host (Some (c :: h)))
    with (replace_from (py "https://") [] 0 (c :: h)).
  apply replace_from_absent, Hh.
Qed.

(** A host as the workspace client reports it. *)
Lemma X5_image_volume_link_witness :
  Pages.image_databricks_host (Some (py "https://" ++ py "adb-1.2.azuredatabricks.net"))
  = py "adb-1.2.azuredatabricks.net"
  /\ Pages.volume_url
       (Pages.image_databricks_host
          (Some (py "https://" ++ py "adb-1.2.azuredatabricks.net")))
     = py "https://" ++ py "adb-1.2.azuredatabricks.net"
       ++ py "/explore/data/volumes/jywu/multimodal/test"
  /\ Pages.image_databricks_host (Some (py "adb-1.2.azuredatabricks.net"))
     = py "adb-1.2.azuredatabricks.net"
  /\ Pages.image_databricks_host None = [].
Proof.
  apply X5_image_volume_link. reflexivity.
Defined.

(* ===================================================================== *)
(** * The connection class: missing key, failed handshake *)
(* ===================================================================== *)



(* ===================================================================== *)
(** * The calls of "Invoke All Prompts" and the whole pipeline *)
(* ===================================================================== *)

Section Requests.
(** The gateway of either flow for a fixed encoded document, with the
    calls it may make for a prompt. *)
Variable extract : str -> run pyval.
Variable allowed : str -> list call -> Prop.
Hypothesis extract_calls :
  forall prompt s, exists v s' seg,
    extract prompt s = (Returned v, s')
    /\ calls s' = calls s ++ seg /\ allowed prompt seg.


End Requests.







(* ===================================================================== *)
(** * The base-64 text of a document *)
(* ===================================================================== *)

Ltac Zify.zify_post_hook ::= Z.to_euclidean_division_equations.

Lemma b64_value_digit (i : N) :
  (i < 64)%N -> b64_value (b64_digit i) = Some i.
Proof.
  intros H. unfold b64_digit.
  destruct (N.ltb_spec i 26); [|destruct (N.ltb_spec i 52);
    [|destruct (N.ltb_spec i 62); [|destruct (N.eqb_spec i 62)]]];
    unfold b64_value;
    repeat match goal with
           | |- context [(?a <=? ?b)%N] => destruct (N.leb_spec a b); cbn [andb]
           | |- context [(?a =? ?b)%N] => destruct (N.eqb_spec a b)
           end; try lia; f_equal; lia.
Qed.

Lemma b64_digit_not_pad (i : N) : (b64_digit i =? 61)%N = false.
Proof.
  unfold b64_digit.
  repeat match goal with
         | |- context [(?a <? ?b)%N] => destruct (N.ltb_spec a b)
         | |- context [if (?a =? ?b)%N then _ else _] => destruct (N.eqb_spec a b)
         end; apply N.eqb_neq; lia.
Qed.

Lemma byte_of_to (x : Byte.byte) (n : N) :
  n = Byte.to_N x -> Byte.of_N n = Some x.
Proof. intros ->. apply Byte.of_to_N. Qed.

(** Lists, three items at a time. *)
Lemma list_ind3 {A} (P : list A -> Prop) :
  P [] -> (forall x, P [x]) -> (forall x y, P [x; y]) ->
  (forall x y z r, P r -> P (x :: y :: z :: r)) ->
  forall l, P l.
Proof.
  intros H0 H1 H2 H3 l.
  assert (G : P l /\ (forall x, P (x :: l)) /\ (forall x y, P (x :: y :: l))).
  { induction l as [|a l (IH0 & IH1 & IH2)].
    - auto.
    - split; [apply IH1|]. split; [intros x; apply IH2|].
      intros x y. apply H3, IH0. }
  apply G.
Qed.

Lemma b64decode_encode (b : bytes) : b64decode (b64encode b) = Some b.
Proof.
  induction b as [|x|x y|x y z r IH] using list_ind3.
  - reflexivity.
  - pose proof (Byte.to_N_bounded x) as Hx.
    cbn [b64encode b64decode].
    rewrite !b64_value_digit by lia.
    change (b64_pad =? 61)%N with true. cbv iota.
    unfold bytes_of, to_bytes.
    rewrite (byte_of_to x) by lia. reflexivity.
  - pose proof (Byte.to_N_bounded x) as Hx.
    pose proof (Byte.to_N_bounded y) as Hy.
    cbn [b64encode b64decode].
    rewrite !b64_value_digit by lia.
    change (b64_pad =? 61)%N with true. cbv iota.
    rewrite b64_digit_not_pad. cbv zeta.
    unfold bytes_of, to_bytes.
    rewrite (byte_of_to x), (byte_of_to y) by lia. reflexivity.
  - pose proof (Byte.to_N_bounded x) as Hx.
    pose proof (Byte.to_N_bounded y) as Hy.
    pose proof (Byte.to_N_bounded z) as Hz.
    cbn [b64encode b64decode app].
    rewrite !b64_value_digit by lia.
    rewrite b64_digit_not_pad. cbv zeta.
    unfold bytes_of, to_bytes.
    rewrite (byte_of_to x), (byte_of_to y), (byte_of_to z) by lia.
    rewrite IH. reflexivity.
Qed.

Lemma b64_digit_ascii (i : N) : (b64_digit i < 128)%N.
Proof.
  unfold b64_digit.
  repeat match goal with
         | |- context [(?a <? ?b)%N] => destruct (N.ltb_spec a b)
         | |- context [if (?a =? ?b)%N then _ else _] => destruct (N.eqb_spec a b)
         end; lia.
Qed.

Lemma b64encode_length (b : bytes) :
  length (b64encode b) = 4 * ((length b + 2) / 3).
Proof.
  induction b as [|x|x y|x y z r IH] using list_ind3; try reflexivity.
  cbn [b64encode length app]. rewrite IH.
  replace (S (S (S (length r))) + 2) with ((length r + 2) + 1 * 3) by lia.
  rewrite Nat.div_add by discriminate.
  generalize ((length r + 2) / 3). intros q. lia.
Qed.

Lemma b64encode_ascii (b : bytes) : Forall (fun c => (c < 128)%N) (b64encode b).
Proof.
  induction b as [|x|x y|x y z r IH] using list_ind3; cbn [b64encode app];
    repeat constructor; try apply b64_digit_ascii; try exact IH;
    unfold b64_pad; lia.
Qed.

(** X9: the base-64 text that the pages send for a document loses
    nothing of it: it decodes to the document, so two documents with the
    same text are the same document; it has four characters for every
    three bytes, the last group padded, and is made of ASCII characters
    only. *)
Theorem X9_base64_lossless :
  forall a b : bytes,
    b64decode (b64encode a) = Some a
    /\ (b64encode a = b64encode b -> a = b)
    /\ length (b64encode a) = 4 * ((length a + 2) / 3)
    /\ Forall (fun c => (c < 128)%N) (b64encode a)
    /\ ImageFlow.image_to_base64 (Some a) = Returned (b64encode a)
    /\ PdfFlow.pdf_to_base64 (Some a) = Returned (b64encode a).
Proof.
  intros a b. split; [apply b64decode_encode|].
  split.
  - intros H. pose proof (b64decode_encode a) as Ha.
    rewrite H, b64decode_encode in Ha. inversion Ha. reflexivity.
  - split; [apply b64encode_length|]. split; [apply b64encode_ascii|].
    split; reflexivity.
Qed.

(* ===================================================================== *)
(** * Reading back what [json_dumps] writes: texts *)
(* ===================================================================== *)

Lemma hex_value_digit (i : N) : (i < 16)%N -> hex_value (hex_digit i) = Some i.
Proof.
  intros H. unfold hex_digit, hex_value.
  destruct (N.ltb_spec i 10);
    repeat match goal with
           | |- context [(?a <=? ?b)%N] => destruct (N.leb_spec a b); cbn [andb]
           end; try lia; f_equal; lia.
Qed.

Lemma decode_escape_u (n : N) :
  (n < 65536)%N ->
  decode_uXXXX (hex_digit (n / 4096)) (hex_digit (n / 256 mod 16))
    (hex_digit (n / 16 mod 16)) (hex_digit (n mod 16)) = Some n.
Proof.
  intros H. unfold decode_uXXXX.
  rewrite !hex_value_digit by lia. f_equal. lia.
Qed.

(** A character that stands for itself. *)
Lemma scan_plain (b r acc : str) (c : N) :
  (c =? 34)%N = false -> (c =? 92)%N = false -> (c <? 32)%N = false ->
  scanstring b (c :: r) acc = scanstring b r (c :: acc).
Proof. intros H1 H2 H3. cbn [scanstring]. rewrite H1, H2, H3. reflexivity. Qed.

(** An escape [\uXXXX] that is not the first half of a pair. *)
Lemma scan_u_gen (b acc tl : str) (h1 h2 h3 h4 uni x : N) :
  decode_uXXXX h1 h2 h3 h4 = Some uni ->
  is_high_surrogate uni = false ->
  scanstring b (92 :: 117 :: h1 :: h2 :: h3 :: h4 :: x :: tl)%N acc
  = scanstring b (x :: tl) (uni :: acc).
Proof.
  intros Hd Hh. cbn [scanstring N.eqb Pos.eqb]. rewrite Hd, Hh.
  destruct x as [|x]; [reflexivity|].
  repeat (destruct x as [x|x|]; try reflexivity).
  destruct tl as [|y tl]; [reflexivity|].
  destruct y as [|y]; [reflexivity|].
  repeat (destruct y as [y|y|]; try reflexivity).
  destruct tl as [|g1 [|g2 [|g3 [|g4 [|z tl]]]]]; reflexivity.
Qed.

(** A pair of escapes for a character beyond the basic plane. *)
Lemma scan_pair_gen (b acc tl : str) (h1 h2 h3 h4 g1 g2 g3 g4 hi lo x : N) :
  decode_uXXXX h1 h2 h3 h4 = Some hi ->
  is_high_surrogate hi = true ->
  decode_uXXXX g1 g2 g3 g4 = Some lo ->
  is_low_surrogate lo = true ->
  scanstring b
    (92 :: 117 :: h1 :: h2 :: h3 :: h4
     :: 92 :: 117 :: g1 :: g2 :: g3 :: g4 :: x :: tl)%N acc
  = scanstring b (x :: tl)
      ((65536 + ((hi - 55296) * 1024 + (lo - 56320)))%N :: acc).
Proof.
  intros Hd Hh Hg Hl. cbn [scanstring N.eqb Pos.eqb].
  rewrite Hd, Hh, Hg, Hl. reflexivity.
Qed.

Lemma scan_u (b acc tl : str) (n x : N) :
  (n < 65536)%N -> is_high_surrogate n = false ->
  scanstring b (escape_u n ++ x :: tl) acc = scanstring b (x :: tl) (n :: acc).
Proof.
  intros Hn Hh. unfold escape_u. cbn [app].
  apply scan_u_gen; [apply decode_escape_u, Hn | exact Hh].
Qed.

Lemma join_surrogates (c : N) :
  (65536 <= c)%N -> (c < 1114112)%N ->
  (65536 + ((55296 + (c - 65536) / 1024 mod 1024 - 55296) * 1024
            + (56320 + (c - 65536) mod 1024 - 56320)))%N = c.
Proof.
  intros Hlo Hhi.
  assert (Hq : ((c - 65536) / 1024 < 1024)%N)
    by (apply N.Div0.div_lt_upper_bound; lia).
  rewrite (N.mod_small ((c - 65536) / 1024) 1024) by exact Hq.
  pose proof (N.div_mod (c - 65536) 1024). lia.
Qed.

(** One character of a text, as [encode_basestring_ascii] writes it, is
    read back as that character. *)
Lemma scan_escape_char (b acc tl : str) (c x : N) :
  scalar_char c = true ->
  scanstring b (escape_char c ++ x :: tl) acc
  = scanstring b (x :: tl) (c :: acc).
Proof.
  intros Hc. unfold escape_char.
  destruct (N.eqb_spec c 34); [subst; reflexivity|].
  destruct (N.eqb_spec c 92); [subst; reflexivity|].
  destruct (N.eqb_spec c 10); [subst; reflexivity|].
  destruct (N.eqb_spec c 13); [subst; reflexivity|].
  destruct (N.eqb_spec c 9); [subst; reflexivity|].
  destruct (N.eqb_spec c 12); [subst; reflexivity|].
  destruct (N.eqb_spec c 8); [subst; reflexivity|].
  unfold scalar_char in Hc.
  destruct (N.leb_spec 32 c); cbn [andb].
  - destruct (N.leb_spec c 126).
    + cbn [app]. apply scan_plain.
      * apply N.eqb_neq; assumption.
      * apply N.eqb_neq; assumption.
      * apply N.ltb_ge; assumption.
    + destruct (N.ltb_spec c 65536).
      * apply scan_u; [assumption|]. unfold is_high_surrogate.
        destruct (N.ltb_spec c 55296); cbn [orb] in Hc.
        -- apply andb_false_iff. left. apply N.leb_gt. assumption.
        -- apply andb_true_iff in Hc. destruct Hc as [Hc _].
           apply N.ltb_lt in Hc. apply andb_false_iff. right.
           apply N.leb_gt. lia.
      * assert (Hmax : (c < 1114112)%N).
        { destruct (N.ltb_spec c 55296); [lia|]. cbn [orb] in Hc.
          apply andb_true_iff in Hc. destruct Hc as [_ Hc].
          apply N.ltb_lt in Hc. exact Hc. }
        unfold escape_u. cbn [app].
        erewrite scan_pair_gen.
        -- f_equal. f_equal. apply join_surrogates; assumption.
        -- apply decode_escape_u. lia.
        -- unfold is_high_surrogate. apply andb_true_iff.
           split; apply N.leb_le; lia.
        -- apply decode_escape_u. lia.
        -- unfold is_low_surrogate. apply andb_true_iff.
           split; apply N.leb_le; lia.
  - replace (c <? 65536)%N with true by (symmetry; apply N.ltb_lt; lia).
    apply scan_u; [lia|]. unfold is_high_surrogate.
    apply andb_false_iff. left. apply N.leb_gt. lia.
Qed.

Lemma scanstring_escaped (b rest : str) (s : str) :
  forall acc,
    forallb scalar_char s = true ->
    scanstring b (flat_map escape_char s ++ 34%N :: rest) acc
    = Scanned (rev acc ++ s) rest.
Proof.
  induction s as [|c s IH]; intros acc Hs.
  - cbn [flat_map app]. cbn [scanstring N.eqb Pos.eqb].
    rewrite app_nil_r. reflexivity.
  - cbn [forallb] in Hs. apply andb_true_iff in Hs. destruct Hs as [Hc Hs].
    cbn [flat_map]. rewrite <- app_assoc.
    destruct (flat_map escape_char s ++ 34%N :: rest) as [|x tl] eqn:E.
    + destruct (flat_map escape_char s); discriminate E.
    + rewrite scan_escape_char by exact Hc.
      rewrite IH by exact Hs. cbn [rev]. rewrite <- app_assoc. reflexivity.
Qed.

(** A text written by [encode_basestring_ascii] is read back whole. *)
Lemma scan_once_string (room n : nat) (s rest : str) :
  forallb scalar_char s = true ->
  scan_once room (S n) (encode_basestring_ascii s ++ rest)
  = Scanned (PStr s) rest.
Proof.
  intros Hs. unfold encode_basestring_ascii.
  cbn [app]. rewrite <- app_assoc. cbn [app].
  cbn [scan_once N.eqb Pos.eqb].
  rewrite scanstring_escaped by exact Hs. reflexivity.
Qed.

(* ===================================================================== *)
(** * Reading back what [json_dumps] writes: integers *)
(* ===================================================================== *)

Lemma nzhead_not_D0 (d d' : Decimal.uint) : Decimal.nzhead d <> Decimal.D0 d'.
Proof. induction d; cbn [Decimal.nzhead]; try discriminate. exact IHd. Qed.

(** The decimal writing of a positive number has no leading zero. *)
Lemma to_uint_no_leading_zero (p : positive) (d : Decimal.uint) :
  Pos.to_uint p <> Decimal.D0 d.
Proof.
  intros E.
  pose proof (DecimalPos.Unsigned.to_of (Pos.to_uint p)) as H.
  rewrite DecimalPos.Unsigned.of_to in H. cbn [N.to_uint] in H.
  unfold Decimal.unorm in H.
  destruct (Decimal.nzhead (Pos.to_uint p)) eqn:N0;
    rewrite E in H; try discriminate H.
  - injection H as H. subst d.
    apply (DecimalPos.Unsigned.to_uint_nonzero p). exact E.
  - apply (nzhead_not_D0 _ _ N0).
Qed.

Lemma uint_chars_digits (d : Decimal.uint) : forallb is_digit (uint_chars d) = true.
Proof. induction d; cbn [uint_chars forallb]; try rewrite IHd; reflexivity. Qed.

Lemma span_digits_app (ds rest : str) :
  forallb is_digit ds = true ->
  value_end rest = true ->
  span_digits (ds ++ rest) = (ds, rest).
Proof.
  intros Hd Hr. induction ds as [|c ds IH].
  - destruct rest as [|c r]; [reflexivity|].
    cbn [value_end] in Hr. unfold is_ws in Hr. cbn [app span_digits].
    repeat (apply orb_true_iff in Hr; destruct Hr as [Hr|Hr]);
      apply N.eqb_eq in Hr; subst c; reflexivity.
  - cbn [forallb] in Hd. apply andb_true_iff in Hd. destruct Hd as [Hc Hd].
    cbn [app span_digits]. rewrite Hc, IH by exact Hd. reflexivity.
Qed.

Lemma digits_acc (d : Decimal.uint) :
  forall acc : positive,
    fold_left (fun a c => (10 * a + Z.of_N (c - 48))%Z) (uint_chars d) (Z.pos acc)
    = Z.pos (Pos.of_uint_acc d acc).
Proof.
  induction d; intros acc; cbn [uint_chars fold_left Pos.of_uint_acc];
    [reflexivity|..];
    match goal with
    | |- fold_left _ _ ?a = Z.pos (Pos.of_uint_acc _ ?p) =>
        replace a with (Z.pos p) by lia
    end; apply IHd.
Qed.

Lemma int_of_digits_uint (d : Decimal.uint) :
  int_of_digits (uint_chars d) = Z.of_N (Pos.of_uint d).
Proof.
  unfold int_of_digits.
  induction d; cbn [uint_chars fold_left Pos.of_uint]; [reflexivity|exact IHd|..];
    match goal with
    | |- fold_left _ _ ?a = Z.of_N (N.pos (Pos.of_uint_acc _ ?p)) =>
        change a with (Z.pos p)
    end; apply digits_acc.
Qed.

Lemma int_of_digits_pos (p : positive) :
  int_of_digits (uint_chars (Pos.to_uint p)) = Z.pos p.
Proof.
  rewrite int_of_digits_uint, DecimalPos.Unsigned.of_to. reflexivity.
Qed.

(** The writing of a positive number: a first digit from 1 to 9 and
    further digits. *)
Lemma uint_chars_pos (p : positive) :
  exists c ds,
    uint_chars (Pos.to_uint p) = c :: ds
    /\ In c [49; 50; 51; 52; 53; 54; 55; 56; 57]%N
    /\ forallb is_digit ds = true.
Proof.
  destruct (Pos.to_uint p) as [|d|d|d|d|d|d|d|d|d|d] eqn:E;
    [ exfalso; apply (DecimalPos.Unsigned.to_uint_nonnil p); exact E
    | exfalso; apply (to_uint_no_leading_zero p d); exact E
    | eexists _, _; split; [reflexivity|]; split;
      [cbn [In]; tauto | apply uint_chars_digits] .. ].
Qed.

Lemma value_end_cases (rest : str) :
  value_end rest = true ->
  rest = [] \/ exists c r, rest = c :: r /\ In c [44; 32; 9; 10; 13]%N.
Proof.
  destruct rest as [|c r]; [left; reflexivity|]. cbn [value_end].
  unfold is_ws. intros H. right. exists c, r. split; [reflexivity|].
  repeat (apply orb_true_iff in H; destruct H as [H|H]);
    apply N.eqb_eq in H; subst c; cbn [In]; tauto.
Qed.

Ltac value_end_cases rest Hr :=
  let E := fresh "E" in
  let x := fresh "x" in
  let r := fresh "r" in
  let Hx := fresh "Hx" in
  destruct (value_end_cases rest Hr) as [E | (x & r & E & Hx)]; subst rest;
  [| cbn [In] in Hx; repeat (destruct Hx as [Hx | Hx]; [subst x|]);
     try contradiction].

(** A number without sign and within the limit of digits, followed by
    the end of a value. *)
Lemma scan_once_digits (room n : nat) (c : N) (ds rest : str) :
  In c [49; 50; 51; 52; 53; 54; 55; 56; 57]%N ->
  forallb is_digit ds = true ->
  (N.of_nat (length (c :: ds)) <=? max_str_digits)%N = true ->
  value_end rest = true ->
  scan_once room (S n) (c :: ds ++ rest)
  = Scanned (PInt (int_of_digits (c :: ds))) rest.
Proof.
  intros Hc Hd Hl Hr.
  pose proof (span_digits_app ds rest Hd Hr) as Hs.
  transitivity
    (if (N.of_nat (length (c :: ds)) <=? max_str_digits)%N
     then Scanned (PInt (int_of_digits (c :: ds))) rest
     else DigitLimit (length (c :: ds)));
    [|rewrite Hl; reflexivity].
  value_end_cases rest Hr;
    cbn [In] in Hc;
    repeat (destruct Hc as [Hc | Hc]; [subst c | ]); try contradiction;
    cbn [scan_once N.eqb Pos.eqb]; unfold scan_scalar, match_number;
    cbn [startswith py map list_ascii_of_string N_of_ascii N.eqb Pos.eqb
         andb match_integer is_digit N.leb N.compare Pos.compare
         Pos.compare_cont];
    rewrite Hs; reflexivity.
Qed.

(** The same after a minus sign, which is not counted as a digit. *)
Lemma scan_once_minus_digits (room n : nat) (c : N) (ds rest : str) :
  In c [49; 50; 51; 52; 53; 54; 55; 56; 57]%N ->
  forallb is_digit ds = true ->
  (N.of_nat (length (c :: ds)) <=? max_str_digits)%N = true ->
  value_end rest = true ->
  scan_once room (S n) (45%N :: c :: ds ++ rest)
  = Scanned (PInt (- int_of_digits (c :: ds))) rest.
Proof.
  intros Hc Hd Hl Hr.
  pose proof (span_digits_app ds rest Hd Hr) as Hs.
  transitivity
    (if (N.of_nat (length (c :: ds)) <=? max_str_digits)%N
     then Scanned (PInt (- int_of_digits (c :: ds))) rest
     else DigitLimit (length (c :: ds)));
    [|rewrite Hl; reflexivity].
  value_end_cases rest Hr;
    cbn [In] in Hc;
    repeat (destruct Hc as [Hc | Hc]; [subst c | ]); try contradiction;
    cbn [scan_once N.eqb Pos.eqb]; unfold scan_scalar, match_number;
    cbn [startswith py map list_ascii_of_string N_of_ascii N.eqb Pos.eqb
         andb match_integer is_digit N.leb N.compare Pos.compare
         Pos.compare_cont];
    rewrite Hs; reflexivity.
Qed.

(** An integer within the limit of digits, written by [repr], is read
    back. *)
Lemma scan_once_int (room n : nat) (z : Z) (rest : str) :
  int_in_limit z = true ->
  value_end rest = true ->
  scan_once room (S n) (repr_int z ++ rest) = Scanned (PInt z) rest.
Proof.
  intros Hl Hr. destruct z as [|p|p]; cbn [repr_int int_in_limit] in *.
  - value_end_cases rest Hr; reflexivity.
  - destruct (uint_chars_pos p) as (c & ds & E & Hc & Hd).
    pose proof (int_of_digits_pos p) as Hp. rewrite E in Hp, Hl |- *.
    cbn [app]. rewrite scan_once_digits by assumption. rewrite Hp. reflexivity.
  - destruct (uint_chars_pos p) as (c & ds & E & Hc & Hd).
    pose proof (int_of_digits_pos p) as Hp. rewrite E in Hp, Hl |- *.
    cbn [app]. rewrite scan_once_minus_digits by assumption.
    rewrite Hp. reflexivity.
Qed.

(* ===================================================================== *)
(** * Reading back what [json_dumps] writes: values *)
(* ===================================================================== *)

Lemma skip_ws_head (c : N) (s : str) : is_ws c = false -> skip_ws (c :: s) = c :: s.
Proof. intros H. cbn [skip_ws]. rewrite H. reflexivity. Qed.

Lemma skip_ws_spaces (k : nat) (s : str) : skip_ws (repeat 32%N k ++ s) = skip_ws s.
Proof. induction k as [|k IH]; [reflexivity | exact IH]. Qed.

Lemma skip_ws_newline_indent (level : nat) (s : str) :
  skip_ws (newline_indent level ++ s) = skip_ws s.
Proof. unfold newline_indent. cbn [app skip_ws is_ws N.eqb Pos.eqb orb]. apply skip_ws_spaces. Qed.

Lemma value_end_newline_indent (level : nat) (s : str) :
  value_end (newline_indent level ++ s) = true.
Proof. reflexivity. Qed.

(** Every value has a text that begins with an ASCII character which is
    neither white space nor a closing bracket. *)
Lemma iterencode_head (level : nat) (v : pyval) (t : str) :
  iterencode level v = Some t ->
  exists c t', t = c :: t' /\ is_ws c = false /\ (c =? 93)%N = false
               /\ (c <? 128)%N = true.
Proof.
  destruct v as [| [|] | z | lit | s | [|x items] | [|kv items]];
    cbn [iterencode]; intros H; try discriminate H;
    try (injection H as <-; eexists _, _; split; [reflexivity|];
         repeat split; reflexivity).
  - destruct (int_in_limit z); [|discriminate H].
    injection H as <-. destruct z as [|p|p]; cbn [repr_int].
    + eexists _, _; split; [reflexivity|]; repeat split; reflexivity.
    + destruct (uint_chars_pos p) as (c & ds & E & Hc & _). rewrite E.
      exists c, ds. split; [reflexivity|]. cbn [In] in Hc.
      repeat (destruct Hc as [Hc | Hc]; [subst c; repeat split; reflexivity|]).
      contradiction.
    + eexists _, _; split; [reflexivity|]; repeat split; reflexivity.
  - destruct (sequence _) as [ts|]; [|discriminate H]. injection H as <-.
    eexists _, _; split; [reflexivity|]; repeat split; reflexivity.
  - destruct (sequence _) as [ts|]; [|discriminate H]. injection H as <-.
    eexists _, _; split; [reflexivity|]; repeat split; reflexivity.
Qed.

Lemma sequence_map {A B} (f : A -> option B) (l : list A) (ts : list B) :
  sequence (map f l) = Some ts -> Forall2 (fun x t => f x = Some t) l ts.
Proof.
  revert ts; induction l as [|x l IH]; intros ts H; cbn [map sequence] in H.
  - injection H as <-. constructor.
  - destruct (f x) as [t|] eqn:E; [|discriminate H].
    destruct (sequence (map f l)) as [ts'|]; [|discriminate H].
    injection H as <-. constructor; [exact E | apply IH; reflexivity].
Qed.

(** Induction on values, with the items of lists and dictionaries. *)
Lemma pyval_nested_ind (P : pyval -> Prop) :
  P PNone -> (forall b, P (PBool b)) -> (forall z, P (PInt z)) ->
  (forall lit, P (PFloat lit)) -> (forall s, P (PStr s)) ->
  (forall items, Forall P items -> P (PList items)) ->
  (forall items, Forall (fun kv => P (snd kv)) items -> P (PDict items)) ->
  forall v, P v.
Proof.
  intros HN HB HI HF HS HL HD.
  fix IH 1. intros [| b | z | lit | s | items | items].
  - exact HN.
  - apply HB.
  - apply HI.
  - apply HF.
  - apply HS.
  - apply HL. induction items as [|x items IHl]; constructor;
      [apply IH | exact IHl].
  - apply HD. induction items as [|[k x] items IHl]; constructor;
      [apply IH | exact IHl].
Qed.

Lemma array_step_last room d s values value r r1 :
  scan_once room d s = Scanned value r -> skip_ws r = 93%N :: r1 ->
  array_loop room (S d) s values = Scanned (PList (rev (value :: values))) r1.
Proof. intros H1 H2. cbn [array_loop]. rewrite H1, H2. reflexivity. Qed.

Lemma array_step_more room d s values value r r1 :
  scan_once room d s = Scanned value r -> skip_ws r = 44%N :: r1 ->
  array_loop room (S d) s values
  = array_loop room d (skip_ws r1) (value :: values).
Proof. intros H1 H2. cbn [array_loop]. rewrite H1, H2. reflexivity. Qed.

Lemma object_step_last room d begin s pairs key r r1 value r2 r3 :
  scanstring begin s [] = Scanned key r -> skip_ws r = 58%N :: r1 ->
  scan_once room d (skip_ws r1) = Scanned value r2 ->
  skip_ws r2 = 125%N :: r3 ->
  object_loop room (S d) begin s pairs
  = Scanned (PDict (dict_of_pairs (rev ((key, value) :: pairs)))) r3.
Proof.
  intros H1 H2 H3 H4. cbn [object_loop]. rewrite H1, H2, H3, H4. reflexivity.
Qed.

Lemma object_step_more room d begin s pairs key r r1 value r2 r3 r4 :
  scanstring begin s [] = Scanned key r -> skip_ws r = 58%N :: r1 ->
  scan_once room d (skip_ws r1) = Scanned value r2 ->
  skip_ws r2 = 44%N :: r3 ->
  skip_ws r3 = 34%N :: r4 ->
  object_loop room (S d) begin s pairs
  = object_loop room d (34%N :: r4) r4 ((key, value) :: pairs).
Proof.
  intros H1 H2 H3 H4 H5. cbn [object_loop]. rewrite H1, H2, H3, H4, H5.
  reflexivity.
Qed.

Lemma scan_once_array_start room n level body c r :
  body = c :: r -> is_ws c = false -> (c =? 93)%N = false ->
  scan_once (S room) (S n) (91%N :: newline_indent level ++ body)
  = array_loop room n body [].
Proof.
  intros -> Hw Hc. cbn [scan_once N.eqb Pos.eqb].
  rewrite skip_ws_newline_indent, skip_ws_head by exact Hw.
  destruct c as [|c]; [reflexivity|].
  repeat (destruct c as [c|c|]; try reflexivity).
  discriminate Hc.
Qed.

Lemma scan_once_object_start room n level r :
  scan_once (S room) (S n) (123%N :: newline_indent level ++ 34%N :: r)
  = object_loop room n (34%N :: r) r [].
Proof.
  cbn [scan_once N.eqb Pos.eqb].
  rewrite skip_ws_newline_indent, skip_ws_head by reflexivity. reflexivity.
Qed.

Lemma join_cons_cons (sep t u : str) (ts : list str) :
  join sep (t :: u :: ts) = t ++ sep ++ join sep (u :: ts).
Proof. reflexivity. Qed.

Lemma skip_ws_join (sep t' s : str) (c : N) (ts : list str) :
  is_ws c = false ->
  skip_ws (join sep ((c :: t') :: ts) ++ s) = join sep ((c :: t') :: ts) ++ s.
Proof.
  intros H. destruct ts; cbn [join app skip_ws]; rewrite H; reflexivity.
Qed.

(** The loop of [JSONArray] on the items that [_iterencode] wrote, up to
    the closing bracket. *)
Lemma array_loop_reads (room L L' : nat) (rest : str) (items : list pyval) :
  forall (ts : list str) (values : list pyval) (d : nat),
    Forall reads_back items ->
    Forall (fun v => nesting v <= room) items ->
    Forall2 (fun v t => iterencode L v = Some t) items ts ->
    items <> [] ->
    length (join (44%N :: newline_indent L) ts) + 2 <= d ->
    array_loop room d
      (join (44%N :: newline_indent L) ts ++ newline_indent L' ++ 93%N :: rest)
      values
    = Scanned (PList (rev values ++ items)) rest.
Proof.
  induction items as [|x items IH]; intros ts values d HR HN HF Hne Hd;
    [contradiction|].
  inversion HF as [|? tx ? ts' Hx HF']; subst.
  inversion HR as [|? ? Rx HR']; subst.
  inversion HN as [|? ? Nx HN']; subst.
  destruct d as [|d]; [lia|].
  destruct items as [|y items].
  - inversion HF'; subst. cbn [join] in Hd |- *.
    assert (H1 : scan_once room d (tx ++ newline_indent L' ++ 93%N :: rest)
                 = Scanned x (newline_indent L' ++ 93%N :: rest)).
    { apply Rx with (level := L); [exact Hx | reflexivity | lia | exact Nx]. }
    assert (H2 : skip_ws (newline_indent L' ++ 93%N :: rest) = 93%N :: rest).
    { rewrite skip_ws_newline_indent. reflexivity. }
    rewrite (array_step_last _ _ _ values _ _ _ H1 H2). reflexivity.
  - inversion HF' as [|? ty ? ts'' Hy HF'']; subst.
    rewrite join_cons_cons in Hd |- *.
    rewrite !length_app in Hd. cbn [length] in Hd.
    rewrite <- !app_assoc. cbn [app].
    destruct (iterencode_head _ _ _ Hy) as (c & t' & -> & Hw & _).
    match goal with
    | |- array_loop _ _ (tx ++ ?R) _ = _ =>
        assert (H1 : scan_once room d (tx ++ R) = Scanned x R)
          by (apply Rx with (level := L);
              [exact Hx | reflexivity | lia | exact Nx])
    end.
    refine (eq_trans
              (array_step_more _ _ _ values _ _ _ H1
                 (skip_ws_head 44 _ eq_refl))
              _).
    rewrite skip_ws_newline_indent, skip_ws_join by exact Hw.
    refine (eq_trans (IH _ (x :: values) d HR' HN' HF' _ _) _).
    + discriminate.
    + lia.
    + cbn [rev]. rewrite <- app_assoc. reflexivity.
Qed.

Lemma join_one (sep t : str) : join sep [t] = t.
Proof. reflexivity. Qed.

Lemma entry_text (k tv s : str) :
  (encode_basestring_ascii k ++ [58%N; 32%N] ++ tv) ++ s
  = 34%N :: flat_map escape_char k ++ 34%N :: 58%N :: 32%N :: tv ++ s.
Proof.
  unfold encode_basestring_ascii. cbn [app]. rewrite <- !app_assoc.
  reflexivity.
Qed.

Lemma entry_length (k tv : str) :
  length tv + 4 <= length (encode_basestring_ascii k ++ [58%N; 32%N] ++ tv).
Proof.
  unfold encode_basestring_ascii. cbn [app length].
  rewrite !length_app. cbn [length]. lia.
Qed.

Lemma skip_ws_value (level : nat) (v : pyval) (tv s : str) :
  iterencode level v = Some tv -> skip_ws (tv ++ s) = tv ++ s.
Proof.
  intros H. destruct (iterencode_head _ _ _ H) as (c & t' & -> & Hw & _).
  cbn [app]. apply skip_ws_head, Hw.
Qed.

Ltac entry_text_in H :=
  unfold encode_basestring_ascii in H; cbn [app] in H;
  rewrite <- ?app_assoc in H; cbn [app] in H.

Ltac entry_text_goal :=
  unfold encode_basestring_ascii; cbn [app];
  rewrite <- ?app_assoc; cbn [app].

Ltac entry_length_in H :=
  unfold encode_basestring_ascii in H; cbn [app length] in H;
  rewrite ?length_app in H; cbn [length] in H.

(** The loop of [JSONObject] on the entries that [_iterencode] wrote, up
    to the closing brace. *)
Lemma object_loop_reads (room L L' : nat) (rest : str)
      (items : list (str * pyval)) :
  forall (ts : list str) (pairs : list (str * pyval)) (d : nat) (body : str),
    Forall (fun kv => reads_back (snd kv)) items ->
    Forall (fun kv => nesting (snd kv) <= room) items ->
    Forall (fun kv => forallb scalar_char (fst kv) = true) items ->
    Forall2
      (fun kv t =>
         option_map
           (fun tv => encode_basestring_ascii (fst kv) ++ [58%N; 32%N] ++ tv)
           (iterencode L (snd kv)) = Some t)
      items ts ->
    items <> [] ->
    length (join (44%N :: newline_indent L) ts) + 2 <= d ->
    34%N :: body
    = join (44%N :: newline_indent L) ts ++ newline_indent L' ++ 125%N :: rest ->
    object_loop room d (34%N :: body) body pairs
    = Scanned (PDict (dict_of_pairs (rev pairs ++ items))) rest.
Proof.
  induction items as [|[k v] items IH];
    intros ts pairs d body HR HN HK HF Hne Hd Hb; [contradiction|].
  inversion HF as [|? t1 ? ts' Hx HF']; subst.
  inversion HR as [|? ? Rx HR']; subst.
  inversion HN as [|? ? Nx HN']; subst.
  inversion HK as [|? ? Kx HK']; subst.
  cbn [fst snd] in Hx, Rx, Nx, Kx.
  destruct (iterencode L v) as [tv|] eqn:Ev; [|discriminate Hx].
  cbn [option_map] in Hx. injection Hx as <-.
  destruct d as [|d]; [lia|].
  destruct items as [|[k2 v2] items].
  - inversion HF'; subst. rewrite join_one in Hd, Hb.
    entry_text_in Hb. entry_length_in Hd. injection Hb as ->.
    refine (eq_trans
              (object_step_last room d _ _ pairs k _ _ v _ rest
                 (scanstring_escaped _ _ k [] Kx)
                 (skip_ws_head 58 _ eq_refl) _ _) _).
    + cbn [skip_ws is_ws N.eqb Pos.eqb orb].
      rewrite (skip_ws_value _ _ _ _ Ev).
      apply Rx with (level := L); [exact Ev | reflexivity | lia | exact Nx].
    + exact (skip_ws_newline_indent L' (125%N :: rest)).
    + cbn [rev]. reflexivity.
  - inversion HF' as [|? t2 ? ts'' Hy HF'']; subst.
    cbn [fst snd] in Hy.
    destruct (iterencode L v2) as [tv2|] eqn:Ev2; [|discriminate Hy].
    cbn [option_map] in Hy. injection Hy as <-.
    rewrite join_cons_cons in Hd, Hb.
    rewrite length_app in Hd. entry_length_in Hd.
    match type of Hb with
    | _ = (_ ++ _ ++ join _ ?TS) ++ ?C =>
        assert (Ej : exists body2, join (44%N :: newline_indent L) TS ++ C
                                   = 34%N :: body2)
    end.
    { destruct ts'' as [|t3 ts''].
      - rewrite join_one. entry_text_goal. eexists. reflexivity.
      - rewrite join_cons_cons. entry_text_goal. eexists. reflexivity. }
    destruct Ej as (body2 & Ej).
    pose proof Ej as Ej0.
    rewrite <- !app_assoc in Hb. rewrite <- ?app_assoc in Ej. rewrite Ej in Hb. entry_text_in Hb.
    injection Hb as ->.
    refine (eq_trans
              (object_step_more room d _ _ pairs k _ _ v _ _ body2
                 (scanstring_escaped _ _ k [] Kx)
                 (skip_ws_head 58 _ eq_refl) _
                 (skip_ws_head 44 _ eq_refl) _) _).
    + cbn [skip_ws is_ws N.eqb Pos.eqb orb].
      rewrite (skip_ws_value _ _ _ _ Ev).
      apply Rx with (level := L); [exact Ev | reflexivity | lia | exact Nx].
    + exact (eq_trans (skip_ws_newline_indent L _) (skip_ws_head 34 _ eq_refl)).
    + refine (eq_trans
                (IH _ ((k, v) :: pairs) d body2 HR' HN' HK' HF' _ _ _) _).
      * discriminate.
      * match type of Hd with
        | context [length (join ?s ?x)] =>
            match goal with
            | |- ?a + 2 <= d => change a with (length (join s x))
            end
        end.
        lia.
      * symmetry. exact Ej0.
      * cbn [rev]. rewrite <- app_assoc. reflexivity.
Qed.

Lemma existsb_str_eqb_In (k : str) (ks : list str) :
  existsb (str_eqb k) ks = false -> ~ In k ks.
Proof.
  induction ks as [|x ks IH]; cbn [existsb In]; intros H; [tauto|].
  apply orb_false_iff in H. destruct H as [Hx Hr].
  intros [<- | G]; [|exact (IH Hr G)].
  assert (E : str_eqb x x = true) by (apply str_eqb_eq; reflexivity).
  congruence.
Qed.

Lemma unique_keys_NoDup (ks : list str) : unique_keys ks = true -> NoDup ks.
Proof.
  induction ks as [|k ks IH]; cbn [unique_keys]; intros H; constructor.
  - apply andb_true_iff in H. destruct H as [H _].
    apply existsb_str_eqb_In. apply negb_true_iff. exact H.
  - apply IH. apply andb_true_iff in H. apply H.
Qed.

(** A list of pairs whose keys are all different is its own dictionary. *)
Lemma dict_of_pairs_unique (items : list (str * pyval)) :
  unique_keys (map fst items) = true -> dict_of_pairs items = items.
Proof.
  intros H. unfold dict_of_pairs.
  refine (eq_trans (fold_dict_set (fun x => x) items [] _) _).
  - cbn [keys app map]. apply unique_keys_NoDup. exact H.
  - cbn [app]. clear H. induction items as [|[k v] items IH]; cbn [map fst snd];
      [reflexivity | f_equal; exact IH].
Qed.

Lemma Forall_reads_back (P : pyval -> Prop) (items : list pyval) :
  Forall (fun v => json_document v = true -> P v) items ->
  forallb json_document items = true -> Forall P items.
Proof.
  induction 1 as [|x items Hx _ IH]; cbn [forallb]; intros H; constructor;
    apply andb_true_iff in H; destruct H as [H1 H2]; auto.
Qed.

Lemma Forall_reads_back_snd (P : pyval -> Prop) (items : list (str * pyval)) :
  Forall (fun kv => json_document (snd kv) = true -> P (snd kv)) items ->
  forallb (fun kv => json_document (snd kv)) items = true ->
  Forall (fun kv => P (snd kv)) items.
Proof.
  induction 1 as [|x items Hx _ IH]; cbn [forallb]; intros H; constructor;
    apply andb_true_iff in H; destruct H as [H1 H2]; auto.
Qed.

Lemma forallb_Forall_keys (items : list (str * pyval)) :
  forallb (fun kv => forallb scalar_char (fst kv)) items = true ->
  Forall (fun kv => forallb scalar_char (fst kv) = true) items.
Proof.
  intros H. apply Forall_forall. intros kv Hin.
  exact (proj1 (forallb_forall _ _) H kv Hin).
Qed.

Lemma array_text (L L' : nat) (ts : list str) (rest : str) :
  ([91%N] ++ newline_indent L ++ join (44%N :: newline_indent L) ts
   ++ newline_indent L' ++ [93%N]) ++ rest
  = 91%N :: newline_indent L
    ++ (join (44%N :: newline_indent L) ts ++ newline_indent L' ++ 93%N :: rest).
Proof.
  cbn [app]. f_equal. rewrite <- !app_assoc. reflexivity.
Qed.

Lemma object_text (L L' : nat) (ts : list str) (rest : str) :
  ([123%N] ++ newline_indent L ++ join (44%N :: newline_indent L) ts
   ++ newline_indent L' ++ [125%N]) ++ rest
  = 123%N :: newline_indent L
    ++ (join (44%N :: newline_indent L) ts ++ newline_indent L' ++ 125%N :: rest).
Proof.
  cbn [app]. f_equal. rewrite <- !app_assoc. reflexivity.
Qed.

Lemma bracket_length (c c' : N) (L L' : nat) (ts : list str) :
  length (join (44%N :: newline_indent L) ts) + 4
  <= length ([c] ++ newline_indent L ++ join (44%N :: newline_indent L) ts
             ++ newline_indent L' ++ [c']).
Proof.
  assert (H : forall l, 1 <= length (newline_indent l))
    by (intros l; unfold newline_indent; cbn [length]; lia).
  pose proof (H L). pose proof (H L').
  rewrite !length_app. cbn [length]. lia.
Qed.

Lemma nesting_items (room : nat) (items : list pyval) :
  nesting (PList items) <= S room -> Forall (fun v => nesting v <= room) items.
Proof.
  cbn [nesting]. intros H.
  apply (proj1 (Forall_map nesting (fun k => k <= room) items)).
  apply list_max_le. lia.
Qed.

Lemma nesting_entries (room : nat) (items : list (str * pyval)) :
  nesting (PDict items) <= S room ->
  Forall (fun kv => nesting (snd kv) <= room) items.
Proof.
  cbn [nesting]. intros H.
  apply (proj1 (Forall_map (fun kv => nesting (snd kv))
                  (fun k => k <= room) items)).
  apply list_max_le. lia.
Qed.

(** Every document is read back from its own text, at any nesting level,
    by a scanner that has room for its nesting. *)
Lemma json_document_reads_back (v : pyval) :
  json_document v = true -> reads_back v.
Proof.
  induction v as [| b | z | lit | s | items IH | items IH] using pyval_nested_ind;
    intros Hdoc room level t rest depth Ht Hend Hlen Hn;
    (destruct depth as [|n]; [lia|]).
  - injection Ht as <-. reflexivity.
  - destruct b; injection Ht as <-; reflexivity.
  - cbn [json_document] in Hdoc. cbn [iterencode] in Ht. rewrite Hdoc in Ht.
    injection Ht as <-. apply scan_once_int; assumption.
  - discriminate Hdoc.
  - injection Ht as <-. apply scan_once_string. exact Hdoc.
  - destruct room as [|room]; [cbn [nesting] in Hn; lia|].
    destruct items as [|x items]; [injection Ht as <-; reflexivity|].
    pose proof (nesting_items _ _ Hn) as HN.
    cbn [json_document] in Hdoc.
    pose proof (Forall_reads_back _ _ IH Hdoc) as HR.
    cbn [iterencode] in Ht.
    destruct (sequence (map (iterencode (S level)) (x :: items))) as [ts|] eqn:Es;
      [|discriminate Ht].
    cbn [option_map] in Ht. injection Ht as <-.
    pose proof (bracket_length 91 93 (S level) level ts) as Hb.
    apply sequence_map in Es.
    refine (eq_trans (f_equal (scan_once (S room) (S n))
                        (array_text (S level) level ts rest)) _).
    inversion Es as [|? t1 ? ts' E1 Es']; subst.
    destruct (iterencode_head _ _ _ E1) as (c & t' & -> & Hw & Hc & _).
    assert (Ej : exists r, join (44%N :: newline_indent (S level)) ((c :: t') :: ts')
                           ++ newline_indent level ++ 93%N :: rest = c :: r).
    { destruct ts'; [rewrite join_one | rewrite join_cons_cons];
        cbn [app]; eexists; reflexivity. }
    destruct Ej as (r & Ej).
    refine (eq_trans (scan_once_array_start room n (S level) _ c r Ej Hw Hc) _).
    refine (eq_trans (array_loop_reads room (S level) level rest (x :: items)
                        _ [] n HR HN Es _ _) _).
    + discriminate.
    + match type of Hb with _ <= ?X => change (X < S n) in Hlen end. lia.
    + reflexivity.
  - destruct room as [|room]; [cbn [nesting] in Hn; lia|].
    destruct items as [|[k x] items]; [injection Ht as <-; reflexivity|].
    pose proof (nesting_entries _ _ Hn) as HN.
    cbn [json_document] in Hdoc.
    apply andb_true_iff in Hdoc. destruct Hdoc as [Hdoc Hv].
    apply andb_true_iff in Hdoc. destruct Hdoc as [Hk Hu].
    pose proof (Forall_reads_back_snd _ _ IH Hv) as HR.
    pose proof (forallb_Forall_keys _ Hk) as HK.
    cbn [iterencode] in Ht.
    match type of Ht with
    | option_map _ (sequence ?l) = _ =>
        destruct (sequence l) as [ts|] eqn:Es; [|discriminate Ht]
    end.
    cbn [option_map] in Ht. injection Ht as <-.
    pose proof (bracket_length 123 125 (S level) level ts) as Hb.
    apply sequence_map in Es.
    refine (eq_trans (f_equal (scan_once (S room) (S n))
                        (object_text (S level) level ts rest)) _).
    assert (Ej : exists r, join (44%N :: newline_indent (S level)) ts
                           ++ newline_indent level ++ 125%N :: rest = 34%N :: r).
    { inversion Es as [|? t1 ? ts' E1 Es']; subst. cbn [fst snd] in E1.
      destruct (iterencode (S level) x) as [tx|]; [|discriminate E1].
      cbn [option_map] in E1. injection E1 as <-.
      destruct ts'; [rewrite join_one | rewrite join_cons_cons];
        entry_text_goal; eexists; reflexivity. }
    destruct Ej as (r & Ej).
    rewrite Ej.
    refine (eq_trans (scan_once_object_start room n (S level) r) _).
    refine (eq_trans (object_loop_reads room (S level) level rest
                        ((k, x) :: items) ts [] n r HR HN HK Es _ _ _) _).
    + discriminate.
    + match type of Hb with _ <= ?X => change (X < S n) in Hlen end. lia.
    + symmetry. exact Ej.
    + cbn [rev app]. rewrite (dict_of_pairs_unique _ Hu). reflexivity.
Qed.

Lemma sequence_some {A B} (f : A -> option B) (l : list A) :
  Forall (fun x => exists t, f x = Some t) l ->
  exists ts, sequence (map f l) = Some ts.
Proof.
  induction 1 as [|x l (t & Hx) _ (ts & IH)]; cbn [map sequence].
  - eexists. reflexivity.
  - rewrite Hx, IH. eexists. reflexivity.
Qed.

Lemma Forall_forallb {A} (f : A -> bool) (P : A -> Prop) (l : list A) :
  Forall (fun x => f x = true -> P x) l -> forallb f l = true -> Forall P l.
Proof.
  induction 1 as [|x l Hx _ IH]; cbn [forallb]; intros H; constructor;
    apply andb_true_iff in H; destruct H as [H1 H2]; auto.
Qed.

(** Every value without a [float] and with integers within the limit has
    a text, at any nesting level. *)
Lemma printable_has_text (v : pyval) :
  printable v = true -> forall level, exists t, iterencode level v = Some t.
Proof.
  induction v as [| b | z | lit | s | items IH | items IH] using pyval_nested_ind;
    intros Hp level.
  - eexists. reflexivity.
  - destruct b; eexists; reflexivity.
  - cbn [printable] in Hp. cbn [iterencode]. rewrite Hp.
    eexists. reflexivity.
  - discriminate Hp.
  - eexists. reflexivity.
  - destruct items as [|x items]; [eexists; reflexivity|].
    cbn [printable] in Hp.
    pose proof (Forall_forallb printable
                  (fun v => forall level, exists t, iterencode level v = Some t)
                  _ IH Hp) as HR.
    destruct (sequence_some (iterencode (S level)) (x :: items)) as (ts & Es).
    { revert HR. apply Forall_impl. intros a Ha. apply Ha. }
    cbn [iterencode]. rewrite Es. eexists. reflexivity.
  - destruct items as [|kv items]; [eexists; reflexivity|].
    cbn [printable] in Hp.
    pose proof (Forall_forallb (fun kv => printable (snd kv))
                  (fun kv : str * pyval =>
                     forall level, exists t, iterencode level (snd kv) = Some t)
                  _ IH Hp) as HR.
    destruct (sequence_some
                (fun kv =>
                   option_map
                     (fun t => encode_basestring_ascii (fst kv)
                               ++ [58%N; 32%N] ++ t)
                     (iterencode (S level) (snd kv)))
                (kv :: items)) as (ts & Es).
    { revert HR. apply Forall_impl. intros a Ha.
      destruct (Ha (S level)) as (t & Et). rewrite Et. eexists. reflexivity. }
    cbn [iterencode]. rewrite Es. eexists. reflexivity.
Qed.

Lemma json_document_printable (v : pyval) :
  json_document v = true -> printable v = true.
Proof.
  induction v as [| b | z | lit | s | items IH | items IH] using pyval_nested_ind;
    intros Hdoc; try reflexivity; try exact Hdoc.
  - cbn [json_document] in Hdoc. cbn [printable].
    apply forallb_forall. intros x Hx.
    exact (proj1 (Forall_forall _ _) IH x Hx
             (proj1 (forallb_forall _ _) Hdoc x Hx)).
  - cbn [json_document] in Hdoc. cbn [printable].
    apply andb_true_iff in Hdoc. destruct Hdoc as [_ Hv].
    apply forallb_forall. intros kv Hkv.
    exact (proj1 (Forall_forall _ _) IH kv Hkv
             (proj1 (forallb_forall _ _) Hv kv Hkv)).
Qed.

(** Every document has a text, at any nesting level. *)
Lemma json_document_has_text (v : pyval) :
  json_document v = true -> forall level, exists t, iterencode level v = Some t.
Proof. intros H. apply printable_has_text, json_document_printable, H. Qed.

(** [json.loads] on the text of a document, between JSON white space,
    with room for the nesting of the document. *)
Lemma json_loads_text (room : nat) (v : pyval) (t lead trail : str) :
  json_document v = true -> nesting v <= room -> json_dumps v = Some t ->
  forallb is_ws lead = true -> forallb is_ws trail = true ->
  json_loads room (lead ++ t ++ trail) = Returned v.
Proof.
  intros Hdoc Hn Ht Hl Htr. unfold json_dumps in Ht.
  destruct (iterencode_head _ _ _ Ht) as (c & t' & E & Hw & _ & Hc).
  unfold json_loads.
  assert (Hbom : startswith (lead ++ t ++ trail) [65279%N] = false).
  { destruct lead as [|x lead].
    - subst t. cbn [app startswith].
      destruct (N.eqb_spec 65279 c) as [<-|]; [discriminate Hc|reflexivity].
    - cbn [forallb] in Hl. apply andb_true_iff in Hl. destruct Hl as [Hx _].
      cbn [app startswith].
      destruct (N.eqb_spec 65279 x) as [<-|]; [discriminate Hx|reflexivity]. }
  rewrite Hbom.
  assert (Hs : skip_ws (lead ++ t ++ trail) = t ++ trail).
  { clear Hbom. induction lead as [|x lead IH]; cbn [app].
    - subst t. cbn [app]. apply skip_ws_head, Hw.
    - cbn [forallb] in Hl. apply andb_true_iff in Hl. destruct Hl as [Hx Hl].
      cbn [skip_ws]. rewrite Hx. apply IH, Hl. }
  rewrite Hs.
  assert (Hv : value_end trail = true).
  { destruct trail as [|x r]; [reflexivity|]. cbn [value_end].
    cbn [forallb] in Htr. apply andb_true_iff in Htr. destruct Htr as [Hx _].
    rewrite Hx. apply orb_true_r. }
  assert (Hws : skip_ws trail = []).
  { clear -Htr. induction trail as [|x r IH]; [reflexivity|].
    cbn [forallb] in Htr. apply andb_true_iff in Htr. destruct Htr as [Hx Hr].
    cbn [skip_ws]. rewrite Hx. apply IH, Hr. }
  assert (Hfuel : length t < 2 * length (lead ++ t ++ trail) + 2)
    by (rewrite !length_app; lia).
  rewrite (json_document_reads_back v Hdoc room 0 t trail _ Ht Hv Hfuel Hn).
  rewrite Hws.
  reflexivity.
Qed.

(* ===================================================================== *)
(** * The shape of the text of a value *)
(* ===================================================================== *)

Lemma uint_chars_last (d : Decimal.uint) :
  d <> Decimal.Nil ->
  exists t' c, uint_chars d = t' ++ [c]
               /\ In c [48; 49; 50; 51; 52; 53; 54; 55; 56; 57]%N.
Proof.
  induction d as [|d IH|d IH|d IH|d IH|d IH|d IH|d IH|d IH|d IH|d IH];
    intros Hn; [contradiction | ..];
    (destruct d as [|e|e|e|e|e|e|e|e|e|e];
     [ eexists [], _; split; [reflexivity | cbn [In]; tauto]
     | destruct IH as (t' & c & E & Hc); [discriminate|];
       cbn [uint_chars] in E |- *; rewrite E;
       eexists (_ :: t'), c; split; [reflexivity | exact Hc] .. ]).
Qed.

(** The first character of the text of a value is no white space for
    [str.strip], no backquote and no [j]. *)
Lemma iterencode_first (level : nat) (v : pyval) (t : str) :
  iterencode level v = Some t ->
  exists c t', t = c :: t' /\ isspace c = false /\ (c =? 96)%N = false
               /\ (106 =? c)%N = false.
Proof.
  destruct v as [| [|] | z | lit | s | [|x items] | [|kv items]];
    cbn [iterencode]; intros H; try discriminate H;
    try (injection H as <-; eexists _, _; split; [reflexivity|];
         repeat split; reflexivity).
  - destruct (int_in_limit z); [|discriminate H].
    injection H as <-. destruct z as [|p|p]; cbn [repr_int].
    + eexists _, _; split; [reflexivity|]; repeat split; reflexivity.
    + destruct (uint_chars_pos p) as (c & ds & E & Hc & _). rewrite E.
      exists c, ds. split; [reflexivity|]. cbn [In] in Hc.
      repeat (destruct Hc as [Hc | Hc]; [subst c; repeat split; reflexivity|]).
      contradiction.
    + eexists _, _; split; [reflexivity|]; repeat split; reflexivity.
  - destruct (sequence _) as [ts|]; [|discriminate H]. injection H as <-.
    eexists _, _; split; [reflexivity|]; repeat split; reflexivity.
  - destruct (sequence _) as [ts|]; [|discriminate H]. injection H as <-.
    eexists _, _; split; [reflexivity|]; repeat split; reflexivity.
Qed.

Lemma app4_last {A} (a b c d : list A) (e : A) :
  a ++ b ++ c ++ d ++ [e] = (a ++ b ++ c ++ d) ++ [e].
Proof. rewrite <- !app_assoc. reflexivity. Qed.

(** The last character of the text of a value is no white space for
    [str.strip] and no backquote. *)
Lemma iterencode_last (level : nat) (v : pyval) (t : str) :
  iterencode level v = Some t ->
  exists t' c, t = t' ++ [c] /\ isspace c = false /\ (c =? 96)%N = false.
Proof.
  destruct v as [| [|] | z | lit | s | [|x items] | [|kv items]];
    cbn [iterencode]; intros H; try discriminate H.
  - injection H as <-. exists (py "nul"), 108%N. repeat split; reflexivity.
  - injection H as <-. exists (py "tru"), 101%N. repeat split; reflexivity.
  - injection H as <-. exists (py "fals"), 101%N. repeat split; reflexivity.
  - destruct (int_in_limit z); [|discriminate H].
    injection H as <-.
    assert (D : forall p, exists t' c,
                 uint_chars (Pos.to_uint p) = t' ++ [c]
                 /\ isspace c = false /\ (c =? 96)%N = false).
    { intros p. destruct (uint_chars_last (Pos.to_uint p)) as (t' & c & E & Hc).
      - apply DecimalPos.Unsigned.to_uint_nonnil.
      - exists t', c. split; [exact E|]. cbn [In] in Hc.
        repeat (destruct Hc as [Hc | Hc]; [subst c; split; reflexivity|]).
        contradiction. }
    destruct z as [|p|p]; cbn [repr_int].
    + exists [], 48%N. repeat split; reflexivity.
    + apply D.
    + destruct (D p) as (t' & c & E & Hc). rewrite E.
      exists (45%N :: t'), c. split; [reflexivity | exact Hc].
  - injection H as <-. exists (34%N :: flat_map escape_char s), 34%N.
    repeat split; reflexivity.
  - injection H as <-. exists [91%N], 93%N. repeat split; reflexivity.
  - destruct (sequence _) as [ts|]; [|discriminate H]. injection H as <-.
    eexists _, 93%N. split; [|split; reflexivity].
    exact (app4_last [91%N] (newline_indent (S level))
             (join (44%N :: newline_indent (S level)) ts)
             (newline_indent level) 93%N).
  - injection H as <-. exists [123%N], 125%N. repeat split; reflexivity.
  - destruct (sequence _) as [ts|]; [|discriminate H]. injection H as <-.
    eexists _, 125%N. split; [|split; reflexivity].
    exact (app4_last [123%N] (newline_indent (S level))
             (join (44%N :: newline_indent (S level)) ts)
             (newline_indent level) 125%N).
Qed.

(** [str.strip] on a text between white space. *)
Lemma strip_core (lead trail t' : str) (c c' : N) (t0 : str) :
  forallb isspace lead = true -> forallb isspace trail = true ->
  isspace c = false -> isspace c' = false ->
  c :: t0 = t' ++ [c'] ->
  strip (lead ++ (c :: t0) ++ trail) = c :: t0.
Proof.
  intros Hl Ht Hc Hc' E. unfold strip.
  rewrite lstrip_spaces_app by exact Hl.
  cbn [app]. rewrite lstrip_head by exact Hc.
  change (c :: t0 ++ trail) with ((c :: t0) ++ trail).
  rewrite rstrip_app_spaces by exact Ht.
  rewrite E. apply rstrip_last, Hc'.
Qed.

Lemma endswith_last (t' : str) (c : N) :
  (c =? 96)%N = false -> endswith (t' ++ [c]) (py "```") = false.
Proof.
  intros H. unfold endswith. rewrite rev_app_distr. cbn [rev app].
  change (rev (py "```")) with [96%N; 96%N; 96%N].
  cbn [startswith]. rewrite N.eqb_sym, H. reflexivity.
Qed.

(* ===================================================================== *)
(** * The text of a value is ASCII *)
(* ===================================================================== *)

Lemma hex_digit_ascii (i : N) : (i < 16)%N -> (hex_digit i <? 128)%N = true.
Proof.
  intros H. unfold hex_digit. apply N.ltb_lt.
  destruct (N.ltb_spec i 10); lia.
Qed.

Lemma escape_u_ascii (n : N) :
  (n < 65536)%N -> forallb (fun c => c <? 128)%N (escape_u n) = true.
Proof.
  intros H. unfold escape_u. cbn [forallb].
  rewrite !hex_digit_ascii; [reflexivity | lia ..].
Qed.

Lemma escape_char_ascii (c : N) :
  forallb (fun c => c <? 128)%N (escape_char c) = true.
Proof.
  unfold escape_char.
  repeat match goal with
         | |- context [if ?b then _ else _] =>
             let E := fresh "E" in destruct b eqn:E
         end; try reflexivity.
  - apply andb_true_iff in E6. destruct E6 as [_ E6].
    apply N.leb_le in E6. cbn [forallb]. rewrite andb_true_r.
    apply N.ltb_lt. lia.
  - apply escape_u_ascii. apply N.ltb_lt. exact E7.
  - rewrite forallb_app, !escape_u_ascii; [reflexivity | lia ..].
Qed.

Lemma forallb_flat_map {A B} (p : B -> bool) (f : A -> list B) (l : list A) :
  (forall x, forallb p (f x) = true) -> forallb p (flat_map f l) = true.
Proof.
  intros H. induction l as [|x l IH]; cbn [flat_map]; [reflexivity|].
  rewrite forallb_app, H, IH. reflexivity.
Qed.

Lemma encode_basestring_ascii_ascii (s : str) :
  forallb (fun c => c <? 128)%N (encode_basestring_ascii s) = true.
Proof.
  unfold encode_basestring_ascii. cbn [forallb].
  rewrite forallb_app, forallb_flat_map by apply escape_char_ascii.
  reflexivity.
Qed.

Lemma repr_int_ascii (z : Z) :
  forallb (fun c => c <? 128)%N (repr_int z) = true.
Proof.
  assert (D : forall d, forallb (fun c => c <? 128)%N (uint_chars d) = true)
    by (induction d; cbn [uint_chars forallb]; try rewrite IHd; reflexivity).
  destruct z; cbn [repr_int forallb]; try rewrite D; reflexivity.
Qed.

Lemma newline_indent_ascii (level : nat) :
  forallb (fun c => c <? 128)%N (newline_indent level) = true.
Proof.
  unfold newline_indent. cbn [forallb].
  induction (2 * level) as [|k IH]; cbn [repeat forallb]; [reflexivity|exact IH].
Qed.

Lemma join_ascii (sep : str) (ts : list str) :
  forallb (fun c => c <? 128)%N sep = true ->
  Forall (fun t => forallb (fun c => c <? 128)%N t = true) ts ->
  forallb (fun c => c <? 128)%N (join sep ts) = true.
Proof.
  intros Hs H. induction H as [|t ts Ht _ IH]; [reflexivity|].
  destruct ts as [|u ts]; [exact Ht|].
  rewrite join_cons_cons, !forallb_app, Ht, Hs. exact IH.
Qed.

Lemma Forall2_texts {A} (P : A -> Prop) (R : A -> str -> Prop) (Q : str -> Prop)
      (items : list A) (ts : list str) :
  Forall P items -> Forall2 R items ts ->
  (forall x t, P x -> R x t -> Q t) -> Forall Q ts.
Proof.
  intros HP HR H. induction HR as [|x t items ts Hx _ IH]; constructor.
  - inversion HP; subst. eapply H; eassumption.
  - apply IH. inversion HP; subst. assumption.
Qed.

Lemma bracket_ascii (a b : N) (L L' : nat) (ts : list str) :
  (a <? 128)%N = true -> (b <? 128)%N = true ->
  Forall (fun t => forallb (fun c => c <? 128)%N t = true) ts ->
  forallb (fun c => c <? 128)%N
    ([a] ++ newline_indent L ++ join (44%N :: newline_indent L) ts
     ++ newline_indent L' ++ [b]) = true.
Proof.
  intros Ha Hb H.
  rewrite !forallb_app, !newline_indent_ascii, join_ascii;
    [ cbn [forallb]; rewrite Ha, Hb; reflexivity
    | cbn [forallb]; apply newline_indent_ascii
    | exact H ].
Qed.

Lemma entry_ascii (k tv : str) :
  forallb (fun c => c <? 128)%N tv = true ->
  forallb (fun c => c <? 128)%N
    (encode_basestring_ascii k ++ [58%N; 32%N] ++ tv) = true.
Proof.
  intros H. rewrite !forallb_app, encode_basestring_ascii_ascii, H.
  reflexivity.
Qed.

(** With [ensure_ascii] at its default, the text of a value has ASCII
    characters only, whatever the texts it holds. *)
Lemma iterencode_ascii (v : pyval) :
  forall (level : nat) (t : str),
    iterencode level v = Some t -> forallb (fun c => c <? 128)%N t = true.
Proof.
  induction v as [| b | z | lit | s | items IH | items IH] using pyval_nested_ind;
    intros level t Ht.
  - injection Ht as <-. reflexivity.
  - destruct b; injection Ht as <-; reflexivity.
  - cbn [iterencode] in Ht. destruct (int_in_limit z); [|discriminate Ht].
    injection Ht as <-. apply repr_int_ascii.
  - discriminate Ht.
  - injection Ht as <-. apply encode_basestring_ascii_ascii.
  - destruct items as [|x items]; [injection Ht as <-; reflexivity|].
    cbn [iterencode] in Ht.
    destruct (sequence (map (iterencode (S level)) (x :: items))) as [ts|] eqn:Es;
      [|discriminate Ht].
    apply sequence_map in Es.
    pose proof (bracket_ascii 91 93 (S level) level ts eq_refl eq_refl) as Hb.
    cbn [option_map] in Ht. injection Ht as <-. apply Hb.
    apply (Forall2_texts _ _ _ _ _ IH Es). intros y u Hy Hu. exact (Hy _ _ Hu).
  - destruct items as [|kv items]; [injection Ht as <-; reflexivity|].
    cbn [iterencode] in Ht.
    match type of Ht with
    | option_map _ (sequence ?l) = _ =>
        destruct (sequence l) as [ts|] eqn:Es; [|discriminate Ht]
    end.
    apply sequence_map in Es.
    pose proof (bracket_ascii 123 125 (S level) level ts eq_refl eq_refl) as Hb.
    cbn [option_map] in Ht. injection Ht as <-. apply Hb.
    apply (Forall2_texts _ _ _ _ _ IH Es). intros y u Hy Hu.
    destruct (iterencode (S level) (snd y)) as [tv|] eqn:Ev; [|discriminate Hu].
    cbn [option_map] in Hu. injection Hu as <-.
    exact (entry_ascii _ _ (Hy _ _ Ev)).
Qed.

(** [encode('utf-8')] on an ASCII text: one byte per character, the
    character itself. *)
Lemma encode_utf8_ascii (t : str) :
  forallb (fun c => c <? 128)%N t = true ->
  exists bs, encode_utf8 t = Returned bs /\ map Byte.to_N bs = t.
Proof.
  induction t as [|c t IH]; cbn [forallb]; intros H.
  - exists []. split; reflexivity.
  - apply andb_true_iff in H. destruct H as [Hc Ht].
    destruct (IH Ht) as (bs & E & Hb).
    destruct (Byte.of_N c) as [b|] eqn:Eb.
    + exists (b :: bs). cbn [encode_utf8]. unfold utf8_char. rewrite Hc.
      cbn [to_bytes]. rewrite Eb, E. cbn [app map].
      rewrite (@Byte.to_of_N c b Eb), Hb. split; reflexivity.
    + apply Byte.of_N_None_iff in Eb. apply N.ltb_lt in Hc. lia.
Qed.

(* ===================================================================== *)
(** * Documents through the pages *)
(* ===================================================================== *)

Lemma set_final_json_same (st : session_state) :
  set_final_json (final_json st) st = st.
Proof. destruct st. reflexivity. Qed.

Lemma startswith_fence_head (x : N) (r : str) :
  (96 =? x)%N = false -> startswith (x :: r) (py "```") = false.
Proof.
  intros H. change (py "```") with [96; 96; 96]%N.
  cbn [startswith]. rewrite H. reflexivity.
Qed.

Lemma startswith_json_head (x : N) (r : str) :
  (106 =? x)%N = false -> startswith (x :: r) (py "json") = false.
Proof.
  intros H. change (py "json") with [106; 115; 111; 110]%N.
  cbn [startswith]. rewrite H. reflexivity.
Qed.

(** The first character of a text after white space. *)
Lemma padded_head (pre t0 post : str) (c : N) :
  forallb isspace pre = true -> isspace c = false ->
  (c =? 96)%N = false -> (106 =? c)%N = false ->
  exists x r, pre ++ (c :: t0) ++ post = x :: r
              /\ (96 =? x)%N = false /\ (106 =? x)%N = false.
Proof.
  intros Hp Hc H96 H106. destruct pre as [|x pre].
  - exists c, (t0 ++ post). rewrite N.eqb_sym. repeat split; assumption.
  - exists x, (pre ++ (c :: t0) ++ post). split; [reflexivity|].
    cbn [forallb] in Hp. apply andb_true_iff in Hp. destruct Hp as [Hx _].
    split.
    + destruct (N.eqb_spec 96 x) as [<-|]; [discriminate Hx|reflexivity].
    + destruct (N.eqb_spec 106 x) as [<-|]; [discriminate Hx|reflexivity].
Qed.

(** The text that the image flow hands to [json.loads] for the text of
    a value: bare, in a [json] fence or in a plain fence, with white
    space around the text and around the fences. *)
Lemma cleaned_document (level : nat) (v : pyval) (t lead pre post trail : str) :
  iterencode level v = Some t ->
  forallb isspace lead = true -> forallb isspace pre = true ->
  forallb isspace post = true -> forallb isspace trail = true ->
  ImageFlow.cleaned (lead ++ t ++ trail) = t
  /\ ImageFlow.cleaned
       (lead ++ (py "```json" ++ (pre ++ t ++ post) ++ py "```") ++ trail) = t
  /\ ImageFlow.cleaned
       (lead ++ (py "```" ++ (pre ++ t ++ post) ++ py "```") ++ trail) = t.
Proof.
  intros Ht Hl Hp Hq Htr.
  destruct (iterencode_first _ _ _ Ht) as (c & t0 & E & Hc & H96 & H106).
  destruct (iterencode_last _ _ _ Ht) as (t' & c' & E' & Hc' & H96').
  subst t.
  assert (S1 : forall a b, forallb isspace a = true -> forallb isspace b = true ->
                           strip (a ++ (c :: t0) ++ b) = c :: t0)
    by (intros a b Ha Hb; exact (strip_core a b t' c c' t0 Ha Hb Hc Hc' E')).
  destruct (padded_head pre t0 post c Hp Hc H96 H106) as (x & r & Eb & Hx & Hj).
  repeat split.
  - rewrite cleaned_unfenced; rewrite (S1 lead trail Hl Htr).
    + reflexivity.
    + apply startswith_fence_head. rewrite N.eqb_sym. exact H96.
    + rewrite E'. apply endswith_last, H96'.
  - rewrite cleaned_json_fence; [apply (S1 pre post Hp Hq) | exact Hl | exact Htr |].
    rewrite Eb. apply startswith_fence_head, Hx.
  - rewrite cleaned_plain_fence_body;
      [apply (S1 pre post Hp Hq) | exact Hl | exact Htr |].
    rewrite Eb. apply startswith_json_head, Hj.
Qed.

Lemma json_loads_dumps (room : nat) (v : pyval) (t : str) :
  json_document v = true -> nesting v <= room -> json_dumps v = Some t ->
  json_loads room t = Returned v.
Proof.
  intros Hdoc Hn Ht.
  pose proof (json_loads_text room v t [] [] Hdoc Hn Ht eq_refl eq_refl) as H.
  cbn [app] in H. rewrite app_nil_r in H. exact H.
Qed.

(** X10: when the merged document holds no [float], no integer beyond
    the limit of digits, no surrogate and no key twice, and is nested no
    deeper than the scanner of [json.loads] has room for, the editor of
    step 3 has a text, and "Validate & Update" on this text as it stands
    is accepted and leaves the session as it was, the merged document
    included; in the image flow and in the PDF flow. *)
Theorem X10_unedited_text_keeps_document :
  forall (room : nat) (s : sys),
    json_document (final_json (session s)) = true ->
    nesting (final_json (session s)) <= room ->
    exists t : str,
      Pages.editor_value (session s) = Some t
      /\ json_loads room t = Returned (final_json (session s))
      /\ ImageFlow.validate_and_update room t s
         = (Returned tt,
            {| session := session s;
               shown := shown s
                        ++ [st_success (check_mark :: py " Valid JSON updated!")];
               calls := calls s |})
      /\ PdfFlow.validate_and_update room t s
         = (Returned tt,
            {| session := session s;
               shown := shown s
                        ++ [st_success (check_mark :: py " Valid JSON updated!")];
               calls := calls s |}).
Proof.
  intros room s Hdoc Hn.
  destruct (json_document_has_text _ Hdoc 0) as (t & Ht).
  pose proof (json_loads_dumps room _ t Hdoc Hn Ht) as Hl.
  exists t. split; [exact Ht|]. split; [exact Hl|].
  unfold ImageFlow.validate_and_update, PdfFlow.validate_and_update,
    try_except, bind, lift, modify_session, show.
  rewrite Hl. cbn [session shown calls].
  rewrite set_final_json_same. split; reflexivity.
Qed.

(** The merged document of the sample session, an object of one
    entry. *)
Lemma X10_unedited_text_witness :
  exists t : str,
    Pages.editor_value (session sample_sys) = Some t
    /\ json_loads sample_room t = Returned (final_json (session sample_sys))
    /\ ImageFlow.validate_and_update sample_room t sample_sys
       = (Returned tt,
          {| session := session sample_sys;
             shown := shown sample_sys
                      ++ [st_success (check_mark :: py " Valid JSON updated!")];
             calls := calls sample_sys |})
    /\ PdfFlow.validate_and_update sample_room t sample_sys
       = (Returned tt,
          {| session := session sample_sys;
             shown := shown sample_sys
                      ++ [st_success (check_mark :: py " Valid JSON updated!")];
             calls := calls sample_sys |}).
Proof.
  apply (X10_unedited_text_keeps_document sample_room sample_sys);
    [reflexivity | cbn; unfold sample_room; lia].
Defined.

(** X11: in the image flow, an answer that is the text of a document as
    [json.dumps(_, indent=2)] writes it, nested no deeper than the
    scanner has room for, is merged as this document, whether the text
    comes bare, in a [json] fence or in a plain fence, and with any white
    space around the text and around the fences. *)
Theorem X11_image_flow_merges_document_text :
  forall (room : nat) (v : pyval) (lead pre post trail : str),
    json_document v = true ->
    nesting v <= room ->
    forallb isspace lead = true -> forallb isspace pre = true ->
    forallb isspace post = true -> forallb isspace trail = true ->
    exists t : str,
      json_dumps v = Some t
      /\ ImageFlow.normalize room (PStr (lead ++ t ++ trail)) = v
      /\ ImageFlow.normalize room
           (PStr (lead ++ (py "```json" ++ (pre ++ t ++ post) ++ py "```")
                  ++ trail)) = v
      /\ ImageFlow.normalize room
           (PStr (lead ++ (py "```" ++ (pre ++ t ++ post) ++ py "```")
                  ++ trail)) = v.
Proof.
  intros room v lead pre post trail Hdoc Hn Hl Hp Hq Htr.
  destruct (json_document_has_text _ Hdoc 0) as (t & Ht).
  pose proof (json_loads_dumps room _ t Hdoc Hn Ht) as Hj.
  destruct (cleaned_document 0 v t lead pre post trail Ht Hl Hp Hq Htr)
    as (C1 & C2 & C3).
  exists t. split; [exact Ht|].
  unfold ImageFlow.normalize. cbn [ImageFlow.parse_result].
  rewrite C1, C2, C3, Hj. repeat split; reflexivity.
Qed.

(** A document of two entries, one of them a list, in a fence after a
    blank line. *)
Lemma X11_merges_document_text_witness :
  exists t : str,
    json_dumps (PDict [(py "holes", PInt 4);
                       (py "rows", PList [PStr (py "a"); PNone; PBool true])])
    = Some t
    /\ ImageFlow.normalize sample_room (PStr ([nl] ++ t ++ py " "))
       = PDict [(py "holes", PInt 4);
                (py "rows", PList [PStr (py "a"); PNone; PBool true])]
    /\ ImageFlow.normalize sample_room
         (PStr ([nl] ++ (py "```json" ++ ([nl] ++ t ++ [nl]) ++ py "```")
                ++ py " "))
       = PDict [(py "holes", PInt 4);
                (py "rows", PList [PStr (py "a"); PNone; PBool true])]
    /\ ImageFlow.normalize sample_room
         (PStr ([nl] ++ (py "```" ++ ([nl] ++ t ++ [nl]) ++ py "```")
                ++ py " "))
       = PDict [(py "holes", PInt 4);
                (py "rows", PList [PStr (py "a"); PNone; PBool true])].
Proof.
  apply (X11_image_flow_merges_document_text sample_room
           (PDict [(py "holes", PInt 4);
                   (py "rows", PList [PStr (py "a"); PNone; PBool true])])
           [nl] [nl] [nl] (py " "));
    [reflexivity | cbn; unfold sample_room; lia | reflexivity ..].
Defined.

(** X12: in the PDF flow, an answer that is the text of a document as
    [json.dumps(_, indent=2)] writes it, nested no deeper than the
    scanner has room for, with blanks, tabs and line breaks around it, is
    merged as this document. *)
Theorem X12_pdf_flow_merges_document_text :
  forall (room : nat) (v : pyval) (lead trail : str),
    json_document v = true ->
    nesting v <= room ->
    forallb is_ws lead = true -> forallb is_ws trail = true ->
    exists t : str,
      json_dumps v = Some t
      /\ PdfFlow.normalize room (PStr (lead ++ t ++ trail)) = v.
Proof.
  intros room v lead trail Hdoc Hn Hl Htr.
  destruct (json_document_has_text _ Hdoc 0) as (t & Ht).
  exists t. split; [exact Ht|].
  unfold PdfFlow.normalize. cbn [PdfFlow.parse_result].
  rewrite (json_loads_text room v t lead trail Hdoc Hn Ht Hl Htr). reflexivity.
Qed.

(** The object of scenario A between a line break and two blanks. *)
Lemma X12_pdf_merges_document_text_witness :
  exists t : str,
    json_dumps holes_object = Some t
    /\ PdfFlow.normalize sample_room (PStr ([nl] ++ t ++ py "  "))
       = holes_object.
Proof.
  apply (X12_pdf_flow_merges_document_text sample_room holes_object [nl]
           (py "  "));
    [reflexivity | cbn; unfold sample_room; lia | reflexivity ..].
Defined.

(** X13: for a merged document without a [float] and without an integer
    beyond the limit of digits, whatever characters its texts hold,
    [json.dumps(_, indent=2)] gives a text of ASCII characters only, and
    the file that "Save JSON to Volume" uploads has one byte per
    character of this text, the character itself: the encoding never
    raises. *)
Theorem X13_saved_file_is_editor_text :
  forall st : session_state,
    printable (final_json st) = true ->
    exists (t : str) (bs : bytes),
      Pages.editor_value st = Some t
      /\ Pages.json_bytes st = Some (Returned bs)
      /\ map Byte.to_N bs = t
      /\ forallb (fun c => c <? 128)%N t = true.
Proof.
  intros st Hp. unfold Pages.editor_value, Pages.json_bytes, json_dumps.
  destruct (printable_has_text _ Hp 0) as (t & Ht).
  pose proof (iterencode_ascii _ _ _ Ht) as Ha.
  destruct (encode_utf8_ascii t Ha) as (bs & E & Hb).
  exists t, bs. rewrite Ht. cbn [option_map]. rewrite E.
  repeat split; assumption.
Qed.

(** The text of a merged document with a lone surrogate and a character
    beyond the basic plane. *)
Example editor_value_escapes :
  Pages.editor_value
    (set_final_json (PDict [(py "note", PStr [55296%N; 128512%N; 233%N])])
       sample_session)
  = Some (py "{" ++ [nl] ++ py "  " ++ [dq] ++ py "note" ++ [dq] ++ py ": "
          ++ [dq] ++ py "\ud800\ud83d\ude00\u00e9" ++ [dq] ++ [nl] ++ py "}").
Proof. vm_compute. reflexivity. Qed.

(** The same document saved. *)
Lemma X13_saved_file_witness :
  exists (t : str) (bs : bytes),
    Pages.editor_value
      (set_final_json (PDict [(py "note", PStr [55296%N; 128512%N; 233%N])])
         sample_session)
    = Some t
    /\ Pages.json_bytes
         (set_final_json (PDict [(py "note", PStr [55296%N; 128512%N; 233%N])])
            sample_session)
       = Some (Returned bs)
    /\ map Byte.to_N bs = t
    /\ forallb (fun c => c <? 128)%N t = true.
Proof.
  apply (X13_saved_file_is_editor_text
           (set_final_json
              (PDict [(py "note", PStr [55296%N; 128512%N; 233%N])])
              sample_session)).
  reflexivity.
Defined.
